(** * Loan chatbot: orchestration and underwriting engine

    A shallow embedding of the Python agents
    ([sales_agent], [verification_agent], [underwriting_agent],
    [sanction_generator], [master_agent]) and of [main.py], and the
    properties of the specification that are stated about them.

    Numbers.  Python [int] and [float] values are modelled by [pyfloat]:
    a finite value is an exact rational ([Fin q]); the three special
    floats [inf], [-inf] and [nan] are kept, with Python's comparison and
    arithmetic rules for them.  Rounding error, underflow and overflow
    of binary floating point in [+], [*], [/] and [**] are not part of
    this model: finite arithmetic is exact.  The properties that depend
    on the arithmetic are therefore stated where the doubles behave as
    the rationals do for the conclusion at hand: for rates in
    [working_rate], terms within the intake bounds and numbers in
    [double_range].  Outside that range the calculator is read on
    doubles themselves, in [binary64].

    Text.  A [string] is the UTF-8 encoding of the Python [str];
    [strip], [lower], [isdigit], [float()] and [int()] are modelled on
    ASCII text (the rupee sign is the only non-ASCII character the code
    names), and the properties that depend on them are stated for
    ASCII text ([is_ascii]) or at ASCII inputs.

    Exceptions.  A Python function that can raise returns a [result];
    a function that also mutates the session dict returns an [outcome],
    which carries the session as the exception leaves it. *)

From Stdlib Require Import ZArith QArith Qround Qabs Qpower SpecFloat.
From Stdlib Require Import Bool List String Ascii.
From Stdlib Require Import Lia Lqa Psatz.
Import ListNotations.

Local Open Scope string_scope.
Local Open Scope Z_scope.
Local Open Scope Q_scope.

(** ** Exceptions and results *)

Inductive exn : Type :=
| ZeroDivisionError
| ValueError
| IndexError
| OSError
| OverflowError.

Inductive result (A : Type) : Type :=
| Ok (a : A)
| Raise (e : exn).

Arguments Ok {A} a.
Arguments Raise {A} e.

Definition rbind {A B : Type} (m : result A) (k : A -> result B) : result B :=
  match m with
  | Ok a => k a
  | Raise e => Raise e
  end.

Notation "x <- m ;; k" := (rbind m (fun x => k))
  (at level 61, m at next level, right associativity).

(** ** Python numbers *)

Inductive pyfloat : Type :=
| Fin (q : Q)
| PInf
| NInf
| NaN.

Definition of_int (z : Z) : pyfloat := Fin (inject_Z z).

(** Sign of a value that is not [nan]. *)
Definition fsgn (x : pyfloat) : Z :=
  match x with
  | Fin q => Z.sgn (Qnum q)
  | PInf => 1
  | NInf => -1
  | NaN => 0
  end.

(** [x < y], [x <= y], [x > y], [x == y]: every comparison with [nan] is
    false. *)
Definition flt (x y : pyfloat) : bool :=
  match x, y with
  | Fin a, Fin b => negb (Qle_bool b a)
  | NInf, Fin _ | NInf, PInf | Fin _, PInf => true
  | _, _ => false
  end.

Definition fle (x y : pyfloat) : bool :=
  match x, y with
  | Fin a, Fin b => Qle_bool a b
  | NaN, _ | _, NaN => false
  | NInf, _ | _, PInf => true
  | _, _ => false
  end.

Definition fgt (x y : pyfloat) : bool := flt y x.

Definition feqb (x y : pyfloat) : bool :=
  match x, y with
  | Fin a, Fin b => Qeq_bool a b
  | PInf, PInf | NInf, NInf => true
  | _, _ => false
  end.

Definition fneg (x : pyfloat) : pyfloat :=
  match x with
  | Fin q => Fin (- q)
  | PInf => NInf
  | NInf => PInf
  | NaN => NaN
  end.

Definition fadd (x y : pyfloat) : pyfloat :=
  match x, y with
  | NaN, _ | _, NaN => NaN
  | Fin a, Fin b => Fin (a + b)
  | PInf, NInf | NInf, PInf => NaN
  | PInf, _ | _, PInf => PInf
  | NInf, _ | _, NInf => NInf
  end.

Definition fsub (x y : pyfloat) : pyfloat := fadd x (fneg y).

Definition fmul (x y : pyfloat) : pyfloat :=
  match x, y with
  | NaN, _ | _, NaN => NaN
  | Fin a, Fin b => Fin (a * b)
  | _, _ =>
      match (fsgn x * fsgn y)%Z with
      | Z0 => NaN
      | Zpos _ => PInf
      | Zneg _ => NInf
      end
  end.

(** [x / y]: a zero divisor raises [ZeroDivisionError], also under [nan]
    and the infinities. *)
Definition fdiv (x y : pyfloat) : result pyfloat :=
  match y with
  | Fin b =>
      if Qeq_bool b 0 then Raise ZeroDivisionError
      else Ok (fmul x (Fin (/ b)))
  | PInf | NInf =>
      Ok (match x with Fin _ => Fin 0 | _ => NaN end)
  | NaN => Ok NaN
  end.

(** [x ** n] for an [int] exponent. *)
Definition fpow (x : pyfloat) (n : Z) : result pyfloat :=
  if (n =? 0)%Z then Ok (Fin 1)
  else
    match x with
    | NaN => Ok NaN
    | Fin a =>
        if (n <? 0)%Z && Qeq_bool a 0 then Raise ZeroDivisionError
        else Ok (Fin (a ^ n))
    | PInf => Ok (if (n <? 0)%Z then Fin 0 else PInf)
    | NInf =>
        Ok (if (n <? 0)%Z then Fin 0
            else if Z.odd n then NInf else PInf)
    end.

(** Nearest integer, ties to the even one (Python's [round]). *)
Definition round_half_even (x : Q) : Z :=
  let f := Qfloor x in
  let d := x - inject_Z f in
  if negb (Qle_bool (1 # 2) d) then f
  else if negb (Qle_bool d (1 # 2)) then (f + 1)%Z
  else if Z.even f then f else (f + 1)%Z.

Definition pow10 (ndigits : nat) : Q := inject_Z (10 ^ Z.of_nat ndigits).

Definition qround (q : Q) (ndigits : nat) : Q :=
  inject_Z (round_half_even (q * pow10 ndigits)) / pow10 ndigits.

(** [round(x, ndigits)]: [nan] and the infinities round to themselves. *)
Definition fround (x : pyfloat) (ndigits : nat) : pyfloat :=
  match x with
  | Fin q => Fin (qround q ndigits)
  | _ => x
  end.

(** ** Python text operations

    [str.strip], [str.lower], [str.replace(old, "")], [str.isdigit],
    [str.split()[0]], [float(str)] and [int(str)], on ASCII text. *)

Definition code (c : ascii) : nat := nat_of_ascii c.

Definition is_space (c : ascii) : bool :=
  let n := code c in
  ((9 <=? n)%nat && (n <=? 13)%nat) || ((28 <=? n)%nat && (n <=? 32)%nat).

Definition is_digit (c : ascii) : bool :=
  let n := code c in (48 <=? n)%nat && (n <=? 57)%nat.

Definition digit_value (c : ascii) : Z := Z.of_nat (code c - 48).

Definition lower_char (c : ascii) : ascii :=
  let n := code c in
  if (65 <=? n)%nat && (n <=? 90)%nat then ascii_of_nat (n + 32) else c.

Fixpoint lstrip_chars (l : list ascii) : list ascii :=
  match l with
  | c :: tl => if is_space c then lstrip_chars tl else l
  | [] => []
  end.

Definition strip_chars (l : list ascii) : list ascii :=
  rev (lstrip_chars (rev (lstrip_chars l))).

Definition strip (s : string) : string :=
  string_of_list_ascii (strip_chars (list_ascii_of_string s)).

Definition lower (s : string) : string :=
  string_of_list_ascii (map lower_char (list_ascii_of_string s)).

(** [remove_from skip old s]: [s] without the occurrences of [old], read
    left to right; [skip] counts the characters of a match still to drop. *)
Fixpoint remove_from (skip : nat) (old s : string) : string :=
  match s with
  | EmptyString => EmptyString
  | String c tl =>
      match skip with
      | S k => remove_from k old tl
      | O =>
          if String.prefix old s
          then remove_from (String.length old - 1) old tl
          else String c (remove_from 0 old tl)
      end
  end.

(** [s.replace(old, "")] for a non-empty [old]. *)
Definition remove_all (old s : string) : string := remove_from 0 old s.

(** The rupee sign U+20B9, in UTF-8. *)
Definition rupee : string :=
  String (ascii_of_nat 226) (String (ascii_of_nat 130) (String (ascii_of_nat 185) "")).

Definition isdigit (s : string) : bool :=
  match list_ascii_of_string s with
  | [] => false
  | l => forallb is_digit l
  end.

Fixpoint take_word (l : list ascii) : list ascii :=
  match l with
  | c :: tl => if is_space c then [] else c :: take_word tl
  | [] => []
  end.

(** [s.split()[0]]: the first run of non-blank characters. *)
Definition first_word (s : string) : result string :=
  match take_word (lstrip_chars (list_ascii_of_string s)) with
  | [] => Raise IndexError
  | w => Ok (string_of_list_ascii w)
  end.

Definition parse_sign (l : list ascii) : bool * list ascii :=
  match l with
  | "+"%char :: r => (false, r)
  | "-"%char :: r => (true, r)
  | _ => (false, l)
  end.

(** digitpart ::= digit (["_"] digit)*: the digits read and the rest. *)
Fixpoint digitpart (l : list ascii) : list Z * list ascii :=
  match l with
  | c :: tl =>
      if is_digit c then
        match tl with
        | "_"%char :: ((c2 :: _) as tl2) =>
            if is_digit c2
            then let (ds, r) := digitpart tl2 in (digit_value c :: ds, r)
            else ([digit_value c], tl)
        | _ => let (ds, r) := digitpart tl in (digit_value c :: ds, r)
        end
      else ([], l)
  | [] => ([], [])
  end.

Definition decimal (ds : list Z) : Z :=
  fold_left (fun acc d => (10 * acc + d)%Z) ds 0%Z.

Definition signed (neg : bool) (z : Z) : Z := if neg then (- z)%Z else z.

(** exponent ::= ("e" | "E") [sign] digitpart, up to the end of the text. *)
Definition parse_exponent (l : list ascii) : option Z :=
  match l with
  | [] => Some 0%Z
  | c :: r =>
      if Ascii.eqb (lower_char c) "e"%char then
        let (neg, r1) := parse_sign r in
        match digitpart r1 with
        | ((_ :: _) as ds, []) => Some (signed neg (decimal ds))
        | _ => None
        end
      else None
  end.

(** number ::= [digitpart] "." digitpart | digitpart ["."], then the
    optional exponent. *)
Definition parse_number (l : list ascii) : option Q :=
  let (ip, r1) := digitpart l in
  let (fp, r2) :=
    match r1 with
    | "."%char :: r => digitpart r
    | _ => ([], r1)
    end in
  match ip, fp with
  | [], [] => None
  | _, _ =>
      match parse_exponent r2 with
      | Some e =>
          Some ((inject_Z (decimal ip)
                 + inject_Z (decimal fp) / inject_Z (10 ^ Z.of_nat (List.length fp)))
                * (10 # 1) ^ e)
      | None => None
      end
  end.

(** [float(s)]: [ValueError] for text that is not a number. *)
Definition py_float (s : string) : result pyfloat :=
  let (neg, body) := parse_sign (strip_chars (list_ascii_of_string s)) in
  let word := string_of_list_ascii (map lower_char body) in
  if String.eqb word "inf" || String.eqb word "infinity"
  then Ok (if neg then NInf else PInf)
  else if String.eqb word "nan" then Ok NaN
  else
    match parse_number body with
    | Some q => Ok (Fin (if neg then - q else q))
    | None => Raise ValueError
    end.

(** [int(s)], base 10. *)
Definition py_int (s : string) : result Z :=
  let (neg, body) := parse_sign (strip_chars (list_ascii_of_string s)) in
  match digitpart body with
  | ((_ :: _) as ds, []) => Ok (signed neg (decimal ds))
  | _ => Raise ValueError
  end.

(** ** Data model

    The values of the string-valued session keys are enumerations; a key
    that may be absent from the session dict is an [option] field. *)

Module Agent.
Inductive t : Type :=
| greeting | sales | verification | underwriting | sanction | completed | ended.
End Agent.

Module Stage.
Inductive t : Type :=
| start | collecting_loan_details | verification | underwriting | generating_sanction.
End Stage.

Module SalesState.
Inductive t : Type := ask_amount | ask_tenure | confirm | complete | cancelled.
End SalesState.

Module VerificationState.
Inductive t : Type := ask_phone | confirm_identity | not_found | complete | ended.
End VerificationState.

Module UnderwritingState.
Inductive t : Type := pending | rejected | approved | awaiting_salary_slip.
End UnderwritingState.

Module LoanStatus.
Inductive t : Type := rejected | approved | pending_verification.
End LoanStatus.

Module Decision.
Inductive t : Type := rejected | approved | needs_salary_proof.
End Decision.

Module Reason.
Inductive t : Type :=
| low_credit_score
| within_preapproved_limit
| exceeds_preapproved_needs_verification
| exceeds_maximum_limit
| salary_verified
| high_emi_ratio.
End Reason.

(** A record of [customers.json]; the three numeric keys are read with
    [.get(key, 0)] and may be absent. *)
Module Customer.
Record t : Type := mk {
  id : string;
  name : string;
  city : string;
  phone : string;
  credit_score : option pyfloat;
  preapproved_limit : option pyfloat;
  salary : option pyfloat
}.
End Customer.

(** A record of [offers.json]. *)
Module Offer.
Record t : Type := mk {
  customer_id : string;
  interest_rate : pyfloat
}.
End Offer.

(** The session dict.  [set_k v s] is [s] after [session[k] = v] (or
    after [session.pop(k, None)] when [v] is [None]). *)
Record Session : Type := mkSession {
  current_agent : Agent.t;
  conversation_stage : Stage.t;
  sales_state : SalesState.t;
  verification_state : VerificationState.t;
  underwriting_state : UnderwritingState.t;
  loan_status : option LoanStatus.t;
  kyc_verified : bool;
  loan_amount : option pyfloat;
  loan_tenure : option Z;
  interest_rate : option pyfloat;
  estimated_emi : option pyfloat;
  calculated_emi : option pyfloat;
  approved_amount : option pyfloat;
  customer : option Customer.t;
  customer_id : option string;
  offer : option Offer.t;
  sanction_letter_path : option string;
  sanction_letter_filename : option string
}.

Definition set_current_agent (v : Agent.t) (s : Session) : Session :=
  mkSession v (conversation_stage s) (sales_state s) (verification_state s)
    (underwriting_state s) (loan_status s) (kyc_verified s) (loan_amount s)
    (loan_tenure s) (interest_rate s) (estimated_emi s) (calculated_emi s)
    (approved_amount s) (customer s) (customer_id s) (offer s)
    (sanction_letter_path s) (sanction_letter_filename s).

Definition set_conversation_stage (v : Stage.t) (s : Session) : Session :=
  mkSession (current_agent s) v (sales_state s) (verification_state s)
    (underwriting_state s) (loan_status s) (kyc_verified s) (loan_amount s)
    (loan_tenure s) (interest_rate s) (estimated_emi s) (calculated_emi s)
    (approved_amount s) (customer s) (customer_id s) (offer s)
    (sanction_letter_path s) (sanction_letter_filename s).

Definition set_sales_state (v : SalesState.t) (s : Session) : Session :=
  mkSession (current_agent s) (conversation_stage s) v (verification_state
    s) (underwriting_state s) (loan_status s) (kyc_verified s) (loan_amount
    s) (loan_tenure s) (interest_rate s) (estimated_emi s) (calculated_emi
    s) (approved_amount s) (customer s) (customer_id s) (offer s)
    (sanction_letter_path s) (sanction_letter_filename s).

Definition set_verification_state (v : VerificationState.t) (s : Session) : Session :=
  mkSession (current_agent s) (conversation_stage s) (sales_state s) v
    (underwriting_state s) (loan_status s) (kyc_verified s) (loan_amount s)
    (loan_tenure s) (interest_rate s) (estimated_emi s) (calculated_emi s)
    (approved_amount s) (customer s) (customer_id s) (offer s)
    (sanction_letter_path s) (sanction_letter_filename s).

Definition set_underwriting_state (v : UnderwritingState.t) (s : Session) : Session :=
  mkSession (current_agent s) (conversation_stage s) (sales_state s)
    (verification_state s) v (loan_status s) (kyc_verified s) (loan_amount
    s) (loan_tenure s) (interest_rate s) (estimated_emi s) (calculated_emi
    s) (approved_amount s) (customer s) (customer_id s) (offer s)
    (sanction_letter_path s) (sanction_letter_filename s).

Definition set_loan_status (v : option LoanStatus.t) (s : Session) : Session :=
  mkSession (current_agent s) (conversation_stage s) (sales_state s)
    (verification_state s) (underwriting_state s) v (kyc_verified s)
    (loan_amount s) (loan_tenure s) (interest_rate s) (estimated_emi s)
    (calculated_emi s) (approved_amount s) (customer s) (customer_id s)
    (offer s) (sanction_letter_path s) (sanction_letter_filename s).

Definition set_kyc_verified (v : bool) (s : Session) : Session :=
  mkSession (current_agent s) (conversation_stage s) (sales_state s)
    (verification_state s) (underwriting_state s) (loan_status s) v
    (loan_amount s) (loan_tenure s) (interest_rate s) (estimated_emi s)
    (calculated_emi s) (approved_amount s) (customer s) (customer_id s)
    (offer s) (sanction_letter_path s) (sanction_letter_filename s).

Definition set_loan_amount (v : option pyfloat) (s : Session) : Session :=
  mkSession (current_agent s) (conversation_stage s) (sales_state s)
    (verification_state s) (underwriting_state s) (loan_status s)
    (kyc_verified s) v (loan_tenure s) (interest_rate s) (estimated_emi s)
    (calculated_emi s) (approved_amount s) (customer s) (customer_id s)
    (offer s) (sanction_letter_path s) (sanction_letter_filename s).

Definition set_loan_tenure (v : option Z) (s : Session) : Session :=
  mkSession (current_agent s) (conversation_stage s) (sales_state s)
    (verification_state s) (underwriting_state s) (loan_status s)
    (kyc_verified s) (loan_amount s) v (interest_rate s) (estimated_emi s)
    (calculated_emi s) (approved_amount s) (customer s) (customer_id s)
    (offer s) (sanction_letter_path s) (sanction_letter_filename s).

Definition set_interest_rate (v : option pyfloat) (s : Session) : Session :=
  mkSession (current_agent s) (conversation_stage s) (sales_state s)
    (verification_state s) (underwriting_state s) (loan_status s)
    (kyc_verified s) (loan_amount s) (loan_tenure s) v (estimated_emi s)
    (calculated_emi s) (approved_amount s) (customer s) (customer_id s)
    (offer s) (sanction_letter_path s) (sanction_letter_filename s).

Definition set_estimated_emi (v : option pyfloat) (s : Session) : Session :=
  mkSession (current_agent s) (conversation_stage s) (sales_state s)
    (verification_state s) (underwriting_state s) (loan_status s)
    (kyc_verified s) (loan_amount s) (loan_tenure s) (interest_rate s) v
    (calculated_emi s) (approved_amount s) (customer s) (customer_id s)
    (offer s) (sanction_letter_path s) (sanction_letter_filename s).

Definition set_calculated_emi (v : option pyfloat) (s : Session) : Session :=
  mkSession (current_agent s) (conversation_stage s) (sales_state s)
    (verification_state s) (underwriting_state s) (loan_status s)
    (kyc_verified s) (loan_amount s) (loan_tenure s) (interest_rate s)
    (estimated_emi s) v (approved_amount s) (customer s) (customer_id s)
    (offer s) (sanction_letter_path s) (sanction_letter_filename s).

Definition set_approved_amount (v : option pyfloat) (s : Session) : Session :=
  mkSession (current_agent s) (conversation_stage s) (sales_state s)
    (verification_state s) (underwriting_state s) (loan_status s)
    (kyc_verified s) (loan_amount s) (loan_tenure s) (interest_rate s)
    (estimated_emi s) (calculated_emi s) v (customer s) (customer_id s)
    (offer s) (sanction_letter_path s) (sanction_letter_filename s).

Definition set_customer (v : option Customer.t) (s : Session) : Session :=
  mkSession (current_agent s) (conversation_stage s) (sales_state s)
    (verification_state s) (underwriting_state s) (loan_status s)
    (kyc_verified s) (loan_amount s) (loan_tenure s) (interest_rate s)
    (estimated_emi s) (calculated_emi s) (approved_amount s) v (customer_id
    s) (offer s) (sanction_letter_path s) (sanction_letter_filename s).

Definition set_customer_id (v : option string) (s : Session) : Session :=
  mkSession (current_agent s) (conversation_stage s) (sales_state s)
    (verification_state s) (underwriting_state s) (loan_status s)
    (kyc_verified s) (loan_amount s) (loan_tenure s) (interest_rate s)
    (estimated_emi s) (calculated_emi s) (approved_amount s) (customer s) v
    (offer s) (sanction_letter_path s) (sanction_letter_filename s).

Definition set_offer (v : option Offer.t) (s : Session) : Session :=
  mkSession (current_agent s) (conversation_stage s) (sales_state s)
    (verification_state s) (underwriting_state s) (loan_status s)
    (kyc_verified s) (loan_amount s) (loan_tenure s) (interest_rate s)
    (estimated_emi s) (calculated_emi s) (approved_amount s) (customer s)
    (customer_id s) v (sanction_letter_path s) (sanction_letter_filename s).

Definition set_sanction_letter_path (v : option string) (s : Session) : Session :=
  mkSession (current_agent s) (conversation_stage s) (sales_state s)
    (verification_state s) (underwriting_state s) (loan_status s)
    (kyc_verified s) (loan_amount s) (loan_tenure s) (interest_rate s)
    (estimated_emi s) (calculated_emi s) (approved_amount s) (customer s)
    (customer_id s) (offer s) v (sanction_letter_filename s).

Definition set_sanction_letter_filename (v : option string) (s : Session) : Session :=
  mkSession (current_agent s) (conversation_stage s) (sales_state s)
    (verification_state s) (underwriting_state s) (loan_status s)
    (kyc_verified s) (loan_amount s) (loan_tenure s) (interest_rate s)
    (estimated_emi s) (calculated_emi s) (approved_amount s) (customer s)
    (customer_id s) (offer s) (sanction_letter_path s) v.

Inductive outcome (A : Type) : Type :=
| Returned (a : A) (s : Session)
| Raised (e : exn) (s : Session).

Arguments Returned {A} a s.
Arguments Raised {A} e s.

(** What the code takes from outside the agents: the string formats of
    numbers and the directory of the issued letters. *)
Record env : Type := mkEnv {
  fmt_money : pyfloat -> string;   (* format spec [,.0f] *)
  fmt_ratio : pyfloat -> string;   (* format spec [.1f] *)
  str_num : pyfloat -> string;     (* [str()] in an f-string *)
  UPLOADS_PATH : string
}.

(** What one turn reads from the outside world: the two JSON files (a
    read may fail), the clock, and whether the letter can be written. *)
Record world : Type := mkWorld {
  customers_json : result (list Customer.t);
  offers_json : result (list Offer.t);
  timestamp : string;              (* [%Y%m%d_%H%M%S] *)
  datestamp : string;              (* [%Y%m%d] *)
  makedirs_ok : bool;
  build_ok : bool
}.

Definition nl : string := String (ascii_of_nat 10) "".

Definition str_in (x : string) (l : list string) : bool :=
  existsb (String.eqb x) l.

Definition get {A : Type} (o : option A) (default : A) : A :=
  match o with
  | Some v => v
  | None => default
  end.

(** [session.get("customer", {}).get(key, 0)]. *)
Definition customer_get (key : Customer.t -> option pyfloat) (session : Session)
  : pyfloat :=
  match customer session with
  | Some c => get (key c) (of_int 0)
  | None => of_int 0
  end.

Definition default_rate : pyfloat := Fin (105 # 10).

(** ** [sales_agent]: the intake stage machine *)

Module sales_agent.

(** The module's own copy of the payment formula. *)
Definition calculate_emi (principal annual_rate : pyfloat) (tenure_months : Z)
  : result pyfloat :=
  if feqb annual_rate (of_int 0) then fdiv principal (of_int tenure_months)
  else
    monthly_rate <- fdiv annual_rate (of_int (12 * 100)) ;;
    pw <- fpow (fadd (of_int 1) monthly_rate) tenure_months ;;
    emi <- fdiv (fmul (fmul principal monthly_rate) pw) (fsub pw (of_int 1)) ;;
    Ok (fround emi 2).

(** The response dict; an absent key reads as [""], [None] or [False]. *)
Record response : Type := mkResponse {
  message : string;
  next_state : option SalesState.t;
  proceed_to_verification : bool
}.

Definition reply (msg : string) (st : SalesState.t) : response :=
  {| message := msg; next_state := Some st; proceed_to_verification := false |}.

Definition process (E : env) (session : Session) (user_input : string)
  : outcome response :=
  match sales_state session with
  | SalesState.ask_amount =>
      match py_float (strip (remove_all "₹" (remove_all "," user_input))) with
      | Ok amount =>
          if flt amount (of_int 10000) then
            Returned (reply "The minimum loan amount is ₹10,000. Please enter a valid amount."
                            SalesState.ask_amount) session
          else if fgt amount (of_int 5000000) then
            Returned (reply "The maximum loan amount is ₹50,00,000. Please enter a valid amount."
                            SalesState.ask_amount) session
          else
            let session := set_loan_amount (Some amount) session in
            Returned (reply ("Great! You've requested a loan of ₹" ++ fmt_money E amount
                             ++ ". Now, please tell me your preferred loan tenure in months (12 to 72 months).")
                            SalesState.ask_tenure)
                     (set_sales_state SalesState.ask_tenure session)
      | Raise ValueError =>
          Returned (reply "I couldn't understand that amount. Please enter a valid number (e.g., 300000 or 3,00,000)."
                          SalesState.ask_amount) session
      | Raise e => Raised e session
      end
  | SalesState.ask_tenure =>
      match py_int (strip user_input) with
      | Ok tenure =>
          if (tenure <? 12)%Z then
            Returned (reply "Minimum tenure is 12 months. Please enter a valid tenure."
                            SalesState.ask_tenure) session
          else if (tenure >? 72)%Z then
            Returned (reply "Maximum tenure is 72 months. Please enter a valid tenure."
                            SalesState.ask_tenure) session
          else
            let session := set_loan_tenure (Some tenure) session in
            let loan_amount := get (loan_amount session) (of_int 0) in
            let interest_rate := get (interest_rate session) default_rate in
            match calculate_emi loan_amount interest_rate tenure with
            | Ok emi =>
                let session := set_estimated_emi (Some emi) session in
                Returned (reply ("Excellent choice! Here's your loan summary:" ++ nl ++ nl
                                 ++ "📋 Loan Amount: ₹" ++ fmt_money E loan_amount ++ nl
                                 ++ "📅 Tenure: " ++ str_num E (of_int tenure) ++ " months" ++ nl
                                 ++ "💰 Interest Rate: " ++ str_num E interest_rate ++ "% p.a." ++ nl
                                 ++ "💵 Estimated EMI: ₹" ++ fmt_money E emi ++ "/month" ++ nl ++ nl
                                 ++ "This looks like a great deal! Shall I proceed with the verification? (Yes/No)")
                                SalesState.confirm)
                         (set_sales_state SalesState.confirm session)
            | Raise ValueError =>
                Returned (reply "Please enter a valid number of months (e.g., 24 or 36)."
                                SalesState.ask_tenure) session
            | Raise e => Raised e session
            end
      | Raise ValueError =>
          Returned (reply "Please enter a valid number of months (e.g., 24 or 36)."
                          SalesState.ask_tenure) session
      | Raise e => Raised e session
      end
  | SalesState.confirm =>
      let user_response := strip (lower user_input) in
      if str_in user_response ["yes"; "y"; "proceed"; "ok"; "sure"; "yeah"] then
        Returned {| message := "Perfect! Let me verify your details from our records...";
                    next_state := Some SalesState.complete;
                    proceed_to_verification := true |}
                 (set_sales_state SalesState.complete session)
      else if str_in user_response ["no"; "n"; "cancel"; "stop"] then
        Returned (reply "No problem! If you change your mind, feel free to start again. Have a great day!"
                        SalesState.cancelled)
                 (set_sales_state SalesState.cancelled session)
      else
        Returned (reply "Please respond with 'Yes' to proceed or 'No' to cancel."
                        SalesState.confirm) session
  | _ =>
      Returned {| message := ""; next_state := None; proceed_to_verification := false |}
               session
  end.

Definition get_initial_message : string :=
  "Welcome to our Personal Loan service! 🏦" ++ nl ++ nl
  ++ "I'm here to help you get the best loan offer tailored to your needs." ++ nl ++ nl
  ++ "To get started, please tell me how much loan amount you're looking for? (₹10,000 - ₹50,00,000)".

End sales_agent.

(** ** [verification_agent]: the identity-verification stage machine *)

Module verification_agent.

Definition load_customers (w : world) : result (list Customer.t) := customers_json w.

Definition load_offers (w : world) : result (list Offer.t) := offers_json w.

Definition find_customer_by_phone (w : world) (phone : string)
  : result (option Customer.t) :=
  customers <- load_customers w ;;
  Ok (find (fun customer => String.eqb (Customer.phone customer) phone) customers).

Definition find_offer_by_customer_id (w : world) (customer_id : string)
  : result (option Offer.t) :=
  offers <- load_offers w ;;
  Ok (find (fun offer => String.eqb (Offer.customer_id offer) customer_id) offers).

Record response : Type := mkResponse {
  message : string;
  next_state : option VerificationState.t;
  proceed_to_underwriting : bool
}.

Definition reply (msg : string) (st : VerificationState.t) : response :=
  {| message := msg; next_state := Some st; proceed_to_underwriting := false |}.

Definition process (w : world) (session : Session) (user_input : string)
  : outcome response :=
  match verification_state session with
  | VerificationState.ask_phone =>
      let phone := remove_all "-" (remove_all " " (strip user_input)) in
      if (String.length phone =? 10)%nat && isdigit phone then
        match find_customer_by_phone w phone with
        | Raise e => Raised e session
        | Ok (Some customer) =>
            let session := set_customer (Some customer) session in
            let session := set_customer_id (Some (Customer.id customer)) session in
            match find_offer_by_customer_id w (Customer.id customer) with
            | Raise e => Raised e session
            | Ok found =>
                let session :=
                  match found with
                  | Some offer =>
                      set_interest_rate (Some (Offer.interest_rate offer))
                        (set_offer (Some offer) session)
                  | None => session
                  end in
                Returned (reply ("✅ Verification Successful!" ++ nl ++ nl
                                 ++ "I found your profile in our system:" ++ nl
                                 ++ "👤 Name: " ++ Customer.name customer ++ nl
                                 ++ "📍 City: " ++ Customer.city customer ++ nl
                                 ++ "📞 Phone: " ++ Customer.phone customer ++ nl ++ nl
                                 ++ "Is this information correct? (Yes/No)")
                                VerificationState.confirm_identity)
                         (set_verification_state VerificationState.confirm_identity session)
            end
        | Ok None =>
            Returned (reply ("❌ Sorry, I couldn't find your profile in our system." ++ nl
                             ++ "Please check your phone number or contact our branch for assistance." ++ nl ++ nl
                             ++ "Would you like to try again with a different number? (Yes/No)")
                            VerificationState.not_found)
                     (set_verification_state VerificationState.not_found session)
        end
      else
        Returned (reply "Please enter a valid 10-digit phone number."
                        VerificationState.ask_phone) session
  | VerificationState.confirm_identity =>
      let user_response := strip (lower user_input) in
      if str_in user_response ["yes"; "y"; "correct"; "right"; "ok"] then
        let session := set_verification_state VerificationState.complete session in
        Returned {| message := "Great! Your identity has been verified. Let me now check your eligibility...";
                    next_state := Some VerificationState.complete;
                    proceed_to_underwriting := true |}
                 (set_kyc_verified true session)
      else if str_in user_response ["no"; "n"; "wrong"; "incorrect"] then
        let session := set_verification_state VerificationState.ask_phone session in
        Returned (reply "I apologize for the confusion. Please enter your registered phone number again."
                        VerificationState.ask_phone)
                 (set_customer None session)
      else
        Returned (reply "Please respond with 'Yes' if the details are correct or 'No' if they're not."
                        VerificationState.confirm_identity) session
  | VerificationState.not_found =>
      let user_response := strip (lower user_input) in
      if str_in user_response ["yes"; "y"] then
        Returned (reply "Please enter your registered 10-digit phone number."
                        VerificationState.ask_phone)
                 (set_verification_state VerificationState.ask_phone session)
      else
        Returned (reply "Thank you for your interest. Please visit our nearest branch for assistance. Have a great day!"
                        VerificationState.ended)
                 (set_verification_state VerificationState.ended session)
  | _ =>
      Returned {| message := ""; next_state := None; proceed_to_underwriting := false |}
               session
  end.

Definition get_initial_message : string :=
  "To verify your identity, please enter your registered 10-digit phone number.".

End verification_agent.

(** ** [underwriting_agent]: the financial calculator and the rule evaluator *)

Module underwriting_agent.

(** The financial calculator: the payment of an amortising loan, and
    further down its inverse.  The zero-rate branches return at once. *)
Definition calculate_emi (principal annual_rate : pyfloat) (tenure_months : Z)
  : result pyfloat :=
  if feqb annual_rate (of_int 0) then fdiv principal (of_int tenure_months)
  else
    monthly_rate <- fdiv annual_rate (of_int (12 * 100)) ;;
    pw <- fpow (fadd (of_int 1) monthly_rate) tenure_months ;;
    emi <- fdiv (fmul (fmul principal monthly_rate) pw) (fsub pw (of_int 1)) ;;
    Ok (fround emi 2).

Record response : Type := mkResponse {
  decision : option Decision.t;
  reason : option Reason.t;
  message : string;
  next_state : option UnderwritingState.t;
  proceed_to_sanction : bool;
  show_upload : bool
}.

Definition tips : string :=
  "💡 Tips to improve your credit score:" ++ nl
  ++ "• Pay all EMIs and credit card bills on time" ++ nl
  ++ "• Keep credit utilization below 30%" ++ nl
  ++ "• Avoid multiple loan applications" ++ nl ++ nl.

Definition loan_details (E : env) (loan_amount : pyfloat) (loan_tenure : Z)
  (interest_rate emi : pyfloat) : string :=
  "🎉 Congratulations! Your Loan is APPROVED!" ++ nl ++ nl
  ++ "📋 Loan Details:" ++ nl
  ++ "• Loan Amount: ₹" ++ fmt_money E loan_amount ++ nl
  ++ "• Tenure: " ++ str_num E (of_int loan_tenure) ++ " months" ++ nl
  ++ "• Interest Rate: " ++ str_num E interest_rate ++ "% p.a." ++ nl
  ++ "• Monthly EMI: ₹" ++ fmt_money E emi ++ nl ++ nl.

(** First pass: the four rules, in the order of the [if]/[elif] chain. *)
Definition process (E : env) (session : Session) : outcome response :=
  let loan_amount := get (loan_amount session) (of_int 0) in
  let loan_tenure := get (loan_tenure session) 12%Z in
  let interest_rate := get (interest_rate session) default_rate in
  let credit_score := customer_get Customer.credit_score session in
  let preapproved_limit := customer_get Customer.preapproved_limit session in
  match calculate_emi loan_amount interest_rate loan_tenure with
  | Raise e => Raised e session
  | Ok emi =>
      let session := set_calculated_emi (Some emi) session in
      if flt credit_score (of_int 700) then
        let session := set_underwriting_state UnderwritingState.rejected session in
        Returned {| decision := Some Decision.rejected;
                    reason := Some Reason.low_credit_score;
                    message :=
                      "❌ Loan Application Status: NOT APPROVED" ++ nl ++ nl
                      ++ "Unfortunately, we cannot approve your loan at this time." ++ nl
                      ++ "Reason: Your credit score (" ++ str_num E credit_score
                      ++ ") does not meet our minimum requirement of 700." ++ nl ++ nl
                      ++ tips
                      ++ "Please try again after improving your credit score. Thank you for considering us!";
                    next_state := Some UnderwritingState.rejected;
                    proceed_to_sanction := false;
                    show_upload := false |}
                 (set_loan_status (Some LoanStatus.rejected) session)
      else if fle loan_amount preapproved_limit then
        let session := set_underwriting_state UnderwritingState.approved session in
        let session := set_loan_status (Some LoanStatus.approved) session in
        Returned {| decision := Some Decision.approved;
                    reason := Some Reason.within_preapproved_limit;
                    message :=
                      loan_details E loan_amount loan_tenure interest_rate emi
                      ++ "Your loan is within your pre-approved limit of ₹"
                      ++ fmt_money E preapproved_limit ++ "." ++ nl
                      ++ "I'm generating your sanction letter now...";
                    next_state := Some UnderwritingState.approved;
                    proceed_to_sanction := true;
                    show_upload := false |}
                 (set_approved_amount (Some loan_amount) session)
      else if fle loan_amount (fmul (of_int 2) preapproved_limit) then
        let session := set_underwriting_state UnderwritingState.awaiting_salary_slip session in
        Returned {| decision := Some Decision.needs_salary_proof;
                    reason := Some Reason.exceeds_preapproved_needs_verification;
                    message :=
                      "📝 Additional Verification Required" ++ nl ++ nl
                      ++ "Your requested loan amount (₹" ++ fmt_money E loan_amount
                      ++ ") exceeds your pre-approved limit of ₹"
                      ++ fmt_money E preapproved_limit ++ "." ++ nl ++ nl
                      ++ "To proceed, I'll need to verify your income. Please upload your latest salary slip."
                      ++ nl ++ nl
                      ++ "Click the 'Upload Salary Slip' button below to continue.";
                    next_state := Some UnderwritingState.awaiting_salary_slip;
                    proceed_to_sanction := false;
                    show_upload := true |}
                 (set_loan_status (Some LoanStatus.pending_verification) session)
      else
        let session := set_underwriting_state UnderwritingState.rejected session in
        Returned {| decision := Some Decision.rejected;
                    reason := Some Reason.exceeds_maximum_limit;
                    message :=
                      "❌ Loan Application Status: NOT APPROVED" ++ nl ++ nl
                      ++ "Your requested loan amount (₹" ++ fmt_money E loan_amount
                      ++ ") exceeds the maximum eligible amount." ++ nl
                      ++ "Maximum eligible: ₹" ++ fmt_money E (fmul (of_int 2) preapproved_limit)
                      ++ " (2× your pre-approved limit)" ++ nl ++ nl
                      ++ "Would you like to apply for a lower amount? Please start a new application with an amount up to ₹"
                      ++ fmt_money E (fmul (of_int 2) preapproved_limit) ++ ".";
                    next_state := Some UnderwritingState.rejected;
                    proceed_to_sanction := false;
                    show_upload := false |}
                 (set_loan_status (Some LoanStatus.rejected) session)
  end.

(** Largest principal a payment [max_emi] repays. *)
Definition calculate_max_loan_for_emi (max_emi annual_rate : pyfloat)
  (tenure_months : Z) : result pyfloat :=
  if feqb annual_rate (of_int 0) then Ok (fmul max_emi (of_int tenure_months))
  else
    monthly_rate <- fdiv annual_rate (of_int (12 * 100)) ;;
    pw <- fpow (fadd (of_int 1) monthly_rate) tenure_months ;;
    principal <- fdiv (fmul max_emi (fsub pw (of_int 1))) (fmul monthly_rate pw) ;;
    Ok (fround principal 0).

(** [(emi / salary) * 100 if salary > 0 else 100]. *)
Definition emi_to_salary_ratio (emi salary : pyfloat) : result pyfloat :=
  if fgt salary (of_int 0)
  then (q <- fdiv emi salary ;; Ok (fmul q (of_int 100)))
  else Ok (of_int 100).

(** Income-verification variant, run on the upload event. *)
Definition process_salary_verification (E : env) (session : Session)
  : outcome response :=
  let loan_amount := get (loan_amount session) (of_int 0) in
  let loan_tenure := get (loan_tenure session) 12%Z in
  let interest_rate := get (interest_rate session) default_rate in
  let salary := customer_get Customer.salary session in
  match calculate_emi loan_amount interest_rate loan_tenure with
  | Raise e => Raised e session
  | Ok emi =>
      match emi_to_salary_ratio emi salary with
      | Raise e => Raised e session
      | Ok ratio =>
          if fle emi (fmul (Fin (1 # 2)) salary) then
            let session := set_underwriting_state UnderwritingState.approved session in
            let session := set_loan_status (Some LoanStatus.approved) session in
            Returned {| decision := Some Decision.approved;
                        reason := Some Reason.salary_verified;
                        message :=
                          loan_details E loan_amount loan_tenure interest_rate emi
                          ++ "Your salary verification was successful." ++ nl
                          ++ "EMI to Income Ratio: " ++ fmt_ratio E ratio
                          ++ "% (within 50% limit)" ++ nl ++ nl
                          ++ "I'm generating your sanction letter now...";
                        next_state := Some UnderwritingState.approved;
                        proceed_to_sanction := true;
                        show_upload := false |}
                     (set_approved_amount (Some loan_amount) session)
          else
            let max_emi := fmul (Fin (1 # 2)) salary in
            match calculate_max_loan_for_emi max_emi interest_rate loan_tenure with
            | Raise e => Raised e session
            | Ok max_loan =>
                let session := set_underwriting_state UnderwritingState.rejected session in
                Returned {| decision := Some Decision.rejected;
                            reason := Some Reason.high_emi_ratio;
                            message :=
                              "❌ Loan Application Status: NOT APPROVED" ++ nl ++ nl
                              ++ "Your EMI (₹" ++ fmt_money E emi
                              ++ ") exceeds 50% of your monthly salary (₹"
                              ++ fmt_money E salary ++ ")." ++ nl
                              ++ "EMI to Income Ratio: " ++ fmt_ratio E ratio ++ "%" ++ nl ++ nl
                              ++ "Maximum loan amount you can avail with your income: ₹"
                              ++ fmt_money E max_loan ++ nl ++ nl
                              ++ "Would you like to apply for a lower amount? Please start a new application.";
                            next_state := Some UnderwritingState.rejected;
                            proceed_to_sanction := false;
                            show_upload := false |}
                         (set_loan_status (Some LoanStatus.rejected) session)
            end
      end
  end.

End underwriting_agent.

(** ** [sanction_generator]: the document-issuance collaborator

    The PDF itself is outside the model; what is kept is where the call
    can fail ([os.makedirs], [customer_name.split()[0]], [doc.build]) and
    that the session is written only after [doc.build] has returned. *)

Module sanction_generator.

Record response : Type := mkResponse {
  success : bool;
  filename : string;
  filepath : string;
  message : string;
  show_download : bool
}.

Definition generate_sanction_letter (E : env) (w : world) (session : Session)
  : outcome response :=
  let loan_amount :=
    get (approved_amount session) (get (loan_amount session) (of_int 0)) in
  let emi := get (calculated_emi session) (of_int 0) in
  let customer_name :=
    match customer session with Some c => Customer.name c | None => "Customer" end in
  let customer_id :=
    match customer session with Some c => Customer.id c | None => "" end in
  if negb (makedirs_ok w) then Raised OSError session
  else
    let filename :=
      "sanction_letter_" ++ customer_id ++ "_" ++ timestamp w ++ ".pdf" in
    let filepath := UPLOADS_PATH E ++ "/" ++ filename in
    let ref_no := "CFL/PL/" ++ datestamp w ++ "/" ++ customer_id in
    match first_word customer_name with
    | Raise e => Raised e session
    | Ok _ =>
        if negb (build_ok w) then Raised OSError session
        else
          let session := set_sanction_letter_path (Some filepath) session in
          let session := set_sanction_letter_filename (Some filename) session in
          Returned {| success := true;
                      filename := filename;
                      filepath := filepath;
                      message :=
                        "ðŸ“„ Your Sanction Letter has been generated!" ++ nl ++ nl
                        ++ "Reference No: " ++ ref_no ++ nl
                        ++ "Loan Amount: â‚¹" ++ fmt_money E loan_amount ++ nl
                        ++ "Monthly EMI: â‚¹" ++ fmt_money E emi ++ nl ++ nl
                        ++ "Click the download button below to get your sanction letter." ++ nl ++ nl
                        ++ "Thank you for choosing Capital Finance Ltd. We look forward to serving you!";
                      show_download := true |}
                   session
    end.

End sanction_generator.

(** ** [master_agent]: the session orchestrator *)

Module master_agent.

Definition get_initial_state : Session :=
  {| current_agent := Agent.greeting;
     conversation_stage := Stage.start;
     sales_state := SalesState.ask_amount;
     verification_state := VerificationState.ask_phone;
     underwriting_state := UnderwritingState.pending;
     loan_status := None;
     kyc_verified := false;
     loan_amount := None;
     loan_tenure := None;
     interest_rate := None;
     estimated_emi := None;
     calculated_emi := None;
     approved_amount := None;
     customer := None;
     customer_id := None;
     offer := None;
     sanction_letter_path := None;
     sanction_letter_filename := None |}.

Record response : Type := mkResponse {
  message : string;
  show_upload : bool;
  show_download : bool;
  download_file : option string;
  session_ended : bool
}.

(** The response dict as each turn starts it. *)
Definition blank : response :=
  {| message := "";
     show_upload := false;
     show_download := false;
     download_file := None;
     session_ended := false |}.

Definition with_message (msg : string) (r : response) : response :=
  {| message := msg;
     show_upload := show_upload r;
     show_download := show_download r;
     download_file := download_file r;
     session_ended := session_ended r |}.

Definition with_show_upload (b : bool) (r : response) : response :=
  {| message := message r;
     show_upload := b;
     show_download := show_download r;
     download_file := download_file r;
     session_ended := session_ended r |}.

Definition with_download (b : bool) (file : option string) (r : response) : response :=
  {| message := message r;
     show_upload := show_upload r;
     show_download := b;
     download_file := file;
     session_ended := session_ended r |}.

Definition with_session_ended (b : bool) (r : response) : response :=
  {| message := message r;
     show_upload := show_upload r;
     show_download := show_download r;
     download_file := download_file r;
     session_ended := b |}.

(** The shared tail of both approval paths: hand over to the document
    issuance and, when it returns, complete the session. *)
Definition issue_and_complete (E : env) (w : world) (response : response)
  (session : Session) : outcome master_agent.response :=
  let session := set_current_agent Agent.sanction session in
  let session := set_conversation_stage Stage.generating_sanction session in
  match sanction_generator.generate_sanction_letter E w session with
  | Raised e session => Raised e session
  | Returned sanction_response session =>
      let response :=
        with_message (message response ++ nl ++ nl
                      ++ sanction_generator.message sanction_response) response in
      let response :=
        with_download (sanction_generator.show_download sanction_response)
                      (Some (sanction_generator.filename sanction_response)) response in
      Returned response (set_current_agent Agent.completed session)
  end.

Definition process_message (E : env) (w : world) (session : Session)
  (user_input : string) : outcome response :=
  let response := blank in
  match current_agent session with
  | Agent.greeting =>
      let session := set_current_agent Agent.sales session in
      let session := set_conversation_stage Stage.collecting_loan_details session in
      Returned (with_message sales_agent.get_initial_message response) session
  | Agent.sales =>
      match sales_agent.process E session user_input with
      | Raised e session => Raised e session
      | Returned sales_response session =>
          let response := with_message (sales_agent.message sales_response) response in
          if sales_agent.proceed_to_verification sales_response then
            let session := set_current_agent Agent.verification session in
            let session := set_conversation_stage Stage.verification session in
            Returned (with_message (message response ++ nl ++ nl
                                    ++ verification_agent.get_initial_message) response)
                     session
          else
            match sales_agent.next_state sales_response with
            | Some SalesState.cancelled =>
                Returned (with_session_ended true response)
                         (set_current_agent Agent.ended session)
            | _ => Returned response session
            end
      end
  | Agent.verification =>
      match verification_agent.process w session user_input with
      | Raised e session => Raised e session
      | Returned verification_response session =>
          let response :=
            with_message (verification_agent.message verification_response) response in
          if verification_agent.proceed_to_underwriting verification_response then
            let session := set_current_agent Agent.underwriting session in
            let session := set_conversation_stage Stage.underwriting session in
            match underwriting_agent.process E session with
            | Raised e session => Raised e session
            | Returned underwriting_response session =>
                let response :=
                  with_message (message response ++ nl ++ nl
                                ++ underwriting_agent.message underwriting_response)
                               response in
                let response :=
                  with_show_upload (underwriting_agent.show_upload underwriting_response)
                                   response in
                if underwriting_agent.proceed_to_sanction underwriting_response then
                  issue_and_complete E w response session
                else
                  match underwriting_agent.decision underwriting_response with
                  | Some Decision.rejected =>
                      Returned (with_session_ended true response)
                               (set_current_agent Agent.ended session)
                  | _ => Returned response session
                  end
            end
          else
            match verification_agent.next_state verification_response with
            | Some VerificationState.ended =>
                Returned (with_session_ended true response)
                         (set_current_agent Agent.ended session)
            | _ => Returned response session
            end
      end
  | Agent.underwriting =>
      match underwriting_state session with
      | UnderwritingState.awaiting_salary_slip =>
          Returned (with_show_upload true
                      (with_message "Please upload your salary slip using the button below to continue."
                                    response))
                   session
      | _ =>
          Returned (with_message "Your application is being processed. Please wait..." response)
                   session
      end
  | Agent.completed =>
      Returned (with_download true (sanction_letter_filename session)
                  (with_message ("Your loan application has been completed! 🎉" ++ nl ++ nl
                                 ++ "If you need any further assistance or want to apply for another loan, "
                                 ++ "please start a new conversation." ++ nl ++ nl
                                 ++ "Thank you for choosing Capital Finance Ltd!")
                                response))
               session
  | Agent.ended =>
      Returned (with_session_ended true
                  (with_message "This conversation has ended. Please start a new chat for a fresh application."
                                response))
               session
  | Agent.sanction =>
      Returned (with_message "I'm sorry, something went wrong. Please start a new conversation."
                             response)
               session
  end.

Definition process_salary_upload (E : env) (w : world) (session : Session)
  : outcome response :=
  let response := blank in
  match underwriting_agent.process_salary_verification E session with
  | Raised e session => Raised e session
  | Returned underwriting_response session =>
      let response :=
        with_message (underwriting_agent.message underwriting_response) response in
      if underwriting_agent.proceed_to_sanction underwriting_response then
        issue_and_complete E w response session
      else
        match underwriting_agent.decision underwriting_response with
        | Some Decision.rejected =>
            Returned (with_session_ended true response)
                     (set_current_agent Agent.ended session)
        | _ => Returned response session
        end
  end.

End master_agent.

(** ** The whole program: events delivered to a session ([main.py])

    [/chat] hands a message to [process_message]; [/upload-salary] runs
    [process_salary_upload] for any existing session (it stores the
    file and two keys about it that no agent reads, left out here).  An
    exception ends the request and leaves the session dict as it is at
    that point. *)

Inductive event : Type :=
| Chat (user_input : string)
| Upload.

Definition deliver (E : env) (w : world) (ev : event) (session : Session)
  : outcome master_agent.response :=
  match ev with
  | Chat user_input => master_agent.process_message E w session user_input
  | Upload => master_agent.process_salary_upload E w session
  end.

Definition session_after {A : Type} (o : outcome A) : Session :=
  match o with
  | Returned _ s => s
  | Raised _ s => s
  end.

Fixpoint run (E : env) (trace : list (world * event)) (session : Session) : Session :=
  match trace with
  | [] => session
  | (w, ev) :: rest => run E rest (session_after (deliver E w ev session))
  end.

(** The waiting sub-state of the orchestrator. *)
Definition awaiting_upload (session : Session) : bool :=
  match current_agent session, underwriting_state session with
  | Agent.underwriting, UnderwritingState.awaiting_salary_slip => true
  | _, _ => false
  end.

(** A trace keeps the event contract of the orchestrator when every
    upload event finds the session in the waiting sub-state. *)
Fixpoint uploads_while_waiting (E : env) (trace : list (world * event))
  (session : Session) : bool :=
  match trace with
  | [] => true
  | (w, ev) :: rest =>
      match ev with
      | Upload => awaiting_upload session
      | Chat _ => true
      end
      && uploads_while_waiting E rest (session_after (deliver E w ev session))
  end.

(** The session as [generate_sanction_letter] receives it: the state at
    the start of the collaborator call. *)
Definition issuance_call (session : Session) : Session :=
  set_conversation_stage Stage.generating_sanction
    (set_current_agent Agent.sanction session).

Definition decision_state (session : Session)
  : UnderwritingState.t * option LoanStatus.t * option pyfloat :=
  (underwriting_state session, loan_status session, approved_amount session).

Definition stage_state (session : Session) : Agent.t * Stage.t :=
  (current_agent session, conversation_stage session).

(** [reaches_approval E w session ev approved]: the turn [ev] takes
    [session] to an approval decision, by the first pass after the
    identity is confirmed or by the income check on an upload, and
    [approved] is the session as the evaluator leaves it. *)
Inductive reaches_approval (E : env) (w : world) (session : Session)
  : event -> Session -> Prop :=
| approval_by_rules (user_input : string)
    (confirmed : verification_agent.response) (s1 : Session)
    (verdict : underwriting_agent.response) (s2 : Session) :
    current_agent session = Agent.verification ->
    verification_agent.process w session user_input = Returned confirmed s1 ->
    verification_agent.proceed_to_underwriting confirmed = true ->
    underwriting_agent.process E
      (set_conversation_stage Stage.underwriting
         (set_current_agent Agent.underwriting s1))
    = Returned verdict s2 ->
    underwriting_agent.proceed_to_sanction verdict = true ->
    reaches_approval E w session (Chat user_input) s2
| approval_by_income (verdict : underwriting_agent.response) (s2 : Session) :
    underwriting_agent.process_salary_verification E session
    = Returned verdict s2 ->
    underwriting_agent.proceed_to_sanction verdict = true ->
    reaches_approval E w session Upload s2.

(** The keys of the decision, which the two stage machines leave alone. *)
Definition same_decision (s s' : Session) : Prop :=
  approved_amount s' = approved_amount s
  /\ loan_status s' = loan_status s
  /\ underwriting_state s' = underwriting_state s
  /\ current_agent s' = current_agent s.

(** Nothing is approved and no amount is set. *)
Definition unapproved (s : Session) : Prop :=
  approved_amount s = None
  /\ loan_status s <> Some LoanStatus.approved
  /\ underwriting_state s <> UnderwritingState.approved.

(** The loan is approved, for the requested amount. *)
Definition approved_for_requested (s : Session) : Prop :=
  approved_amount s = Some (get (loan_amount s) (of_int 0))
  /\ loan_status s = Some LoanStatus.approved
  /\ underwriting_state s = UnderwritingState.approved.

(** The invariant of the orchestrator behind [approved_amount]: either
    nothing is approved and no amount is set, or the loan is approved,
    the amount is the requested one and the session has left the
    evaluator for good. *)
Definition settled (session : Session) : Prop :=
  unapproved session
  \/ (approved_for_requested session
      /\ (current_agent session = Agent.sanction
          \/ current_agent session = Agent.completed)).

(** ** Reference definitions

    The closed formula of the payment and the rule table of the
    specification, and the annuity factor used in the proofs. *)

(** Payment of an amortising loan at monthly rate [r] over [n] months:
    P r (1+r)^n / ((1+r)^n - 1). *)
Definition emi_formula (P r : Q) (n : Z) : Q :=
  P * r * (1 + r) ^ n / ((1 + r) ^ n - 1).

(** Present value of one unit paid at the end of each of [k] months,
    the months discounted by the factor [x]. *)
Fixpoint annuity (x : Q) (k : nat) : Q :=
  match k with
  | O => 0
  | S k' => annuity x k' + / (x ^ Z.of_nat k)
  end.

(** The four rules of the evaluator, in priority order; the first rule
    whose condition holds gives the outcome. *)
Definition rules (credit_score loan_amount preapproved_limit : pyfloat)
  : list (bool * (Decision.t * Reason.t)) :=
  [ (flt credit_score (of_int 700),
     (Decision.rejected, Reason.low_credit_score));
    (fle loan_amount preapproved_limit,
     (Decision.approved, Reason.within_preapproved_limit));
    (fle loan_amount (fmul (of_int 2) preapproved_limit),
     (Decision.needs_salary_proof, Reason.exceeds_preapproved_needs_verification));
    (true,
     (Decision.rejected, Reason.exceeds_maximum_limit)) ].

Fixpoint first_match {A : Type} (l : list (bool * A)) : option A :=
  match l with
  | [] => None
  | (c, a) :: rest => if c then Some a else first_match rest
  end.

Definition first_pass_outcomes : list (Decision.t * Reason.t) :=
  [ (Decision.rejected, Reason.low_credit_score);
    (Decision.approved, Reason.within_preapproved_limit);
    (Decision.needs_salary_proof, Reason.exceeds_preapproved_needs_verification);
    (Decision.rejected, Reason.exceeds_maximum_limit) ].

(** Within the closed interval [lo, hi]; [nan] is within no interval. *)
Definition in_range (lo hi : Z) (x : pyfloat) : Prop :=
  exists q, x = Fin q /\ inject_Z lo <= q <= inject_Z hi.

(** [approved_amount] is set exactly when the decision is approved, and
    then to the requested amount. *)
Definition approved_amount_consistent (session : Session) : Prop :=
  (approved_amount session <> None <-> loan_status session = Some LoanStatus.approved)
  /\ (approved_amount session <> None
      <-> underwriting_state session = UnderwritingState.approved)
  /\ (forall a, approved_amount session = Some a ->
                a = get (loan_amount session) (of_int 0)).

(** ** Sample data for the concrete runs *)

Definition plain : env :=
  {| fmt_money := fun _ => "0";
     fmt_ratio := fun _ => "0.0";
     str_num := fun _ => "0";
     UPLOADS_PATH := "uploads" |}.

Definition asha : Customer.t :=
  {| Customer.id := "C001";
     Customer.name := "Asha Rao";
     Customer.city := "Pune";
     Customer.phone := "9876543210";
     Customer.credit_score := Some (of_int 750);
     Customer.preapproved_limit := Some (of_int 500000);
     Customer.salary := Some (of_int 10000) |}.

Definition ravi : Customer.t :=
  {| Customer.id := "C002";
     Customer.name := "Ravi Iyer";
     Customer.city := "Chennai";
     Customer.phone := "9123456780";
     Customer.credit_score := Some (of_int 780);
     Customer.preapproved_limit := Some (of_int 200000);
     Customer.salary := Some (of_int 0) |}.

Definition meera : Customer.t :=
  {| Customer.id := "C003";
     Customer.name := "Meera Nair";
     Customer.city := "Kochi";
     Customer.phone := "9000000003";
     Customer.credit_score := Some (of_int 800);
     Customer.preapproved_limit := Some (of_int 200000);
     Customer.salary := Some (of_int 100000) |}.

Definition asha_offer : Offer.t :=
  {| Offer.customer_id := "C001"; Offer.interest_rate := Fin (95 # 10) |}.

(** The two data files as they are read, the clock, and whether the
    letter can be written ([pdf]). *)
Definition office (pdf : bool) : world :=
  {| customers_json := Ok [asha; ravi; meera];
     offers_json := Ok [asha_offer];
     timestamp := "20240101_120000";
     datestamp := "20240101";
     makedirs_ok := true;
     build_ok := pdf |}.

Definition chat (user_input : string) : world * event :=
  (office true, Chat user_input).

(** Greeting, amount 300000, tenure 24, confirmation, then a phone
    number: the session is bound and asks to confirm the identity. *)
Definition intake_then_phone (phone : string) : list (world * event) :=
  [ chat "hello"; chat "₹3,00,000"; chat " 24 "; chat "Yes"; chat phone ].

Definition asked_to_confirm (phone : string) : Session :=
  run plain (intake_then_phone phone) master_agent.get_initial_state.

(** The same intake, the identity confirmed: the first pass has run. *)
Definition awaiting_slip (phone : string) : Session :=
  run plain (intake_then_phone phone ++ [chat "yes"]) master_agent.get_initial_state.

(** The sessions as the evaluator leaves them on its two approvals,
    in a world where the letter cannot be written. *)
Definition approved_by_rules : Session :=
  session_after
    (underwriting_agent.process plain
       (set_conversation_stage Stage.underwriting
          (set_current_agent Agent.underwriting
             (session_after
                (verification_agent.process (office false)
                   (asked_to_confirm "98765-43210") "yes"))))).

Definition approved_by_income : Session :=
  session_after
    (underwriting_agent.process_salary_verification plain (awaiting_slip "9000000003")).

(** ** [main.py]: the session registry and its endpoints

    The module-level dict [sessions] maps a session identifier to the
    session dict.  The registry is an association list read through
    [sessions_get]; the session found is mutated in place by the turn,
    so the entry is written back as the turn leaves it, also when the
    turn raises. *)

Definition registry : Type := list (string * Session).

(** [sessions.get(session_id)]; [session_id in sessions] is [is_some] of it. *)
Fixpoint sessions_get (session_id : string) (sessions : registry) : option Session :=
  match sessions with
  | [] => None
  | (k, session) :: rest =>
      if String.eqb k session_id then Some session else sessions_get session_id rest
  end.

(** [sessions[session_id] = session]. *)
Fixpoint sessions_set (session_id : string) (session : Session) (sessions : registry)
  : registry :=
  match sessions with
  | [] => [(session_id, session)]
  | (k, old) :: rest =>
      if String.eqb k session_id then (k, session) :: rest
      else (k, old) :: sessions_set session_id session rest
  end.

(** [del sessions[session_id]]. *)
Definition sessions_del (session_id : string) (sessions : registry) : registry :=
  filter (fun entry => negb (String.eqb (fst entry) session_id)) sessions.

Definition is_some {A : Type} (o : option A) : bool :=
  match o with
  | Some _ => true
  | None => false
  end.

(** What an endpoint answers: its body, an [HTTPException] with status
    400, or the error reply for an exception nobody catches. *)
Inductive http (A : Type) : Type :=
| Ok200 (body : A)
| BadRequest (detail : string)
| ServerError (e : exn).

Arguments Ok200 {A} body.
Arguments BadRequest {A} detail.
Arguments ServerError {A} e.

Module ChatRequest.
Record t : Type := mk {
  session_id : option string;
  message : string
}.
End ChatRequest.

Module ChatResponse.
Record t : Type := mk {
  session_id : string;
  message : string;
  show_upload : bool;
  show_download : bool;
  download_file : option string;
  session_ended : bool
}.
End ChatResponse.

Module UploadResponse.
Record t : Type := mk {
  success : bool;
  message : string;
  show_download : bool;
  download_file : option string;
  session_ended : bool
}.
End UploadResponse.

Module main.

(** [POST /chat]; [uuid4] is the identifier [uuid.uuid4()] would give. *)
Definition chat (E : env) (w : world) (uuid4 : string) (request : ChatRequest.t)
  (sessions : registry) : http ChatResponse.t * registry :=
  let fresh := (uuid4, master_agent.get_initial_state) in
  let (session_id, session) :=
    match ChatRequest.session_id request with
    | Some session_id =>
        if String.eqb session_id "" then fresh
        else
          match sessions_get session_id sessions with
          | Some session => (session_id, session)
          | None => fresh
          end
    | None => fresh
    end in
  match master_agent.process_message E w session (ChatRequest.message request) with
  | Returned response session =>
      (Ok200 {| ChatResponse.session_id := session_id;
                ChatResponse.message := master_agent.message response;
                ChatResponse.show_upload := master_agent.show_upload response;
                ChatResponse.show_download := master_agent.show_download response;
                ChatResponse.download_file := master_agent.download_file response;
                ChatResponse.session_ended := master_agent.session_ended response |},
       sessions_set session_id session sessions)
  | Raised e session => (ServerError e, sessions_set session_id session sessions)
  end.

Definition upload_types : list string :=
  ["application/pdf"; "image/jpeg"; "image/png"; "image/jpg"].

(** [POST /upload-salary]; [saved] tells whether the file could be
    written.  The two keys about the stored file, which no agent reads,
    are left out of the session. *)
Definition upload_salary (E : env) (w : world) (saved : bool) (session_id : string)
  (content_type : option string) (sessions : registry)
  : http UploadResponse.t * registry :=
  match sessions_get session_id sessions with
  | None => (BadRequest "Invalid session", sessions)
  | Some session =>
      if negb (match content_type with
               | Some type => str_in type upload_types
               | None => false
               end)
      then (BadRequest "Invalid file type. Please upload PDF or image.", sessions)
      else if negb saved then (ServerError OSError, sessions)
      else
        match master_agent.process_salary_upload E w session with
        | Returned response session =>
            (Ok200 {| UploadResponse.success := true;
                      UploadResponse.message := master_agent.message response;
                      UploadResponse.show_download := master_agent.show_download response;
                      UploadResponse.download_file := master_agent.download_file response;
                      UploadResponse.session_ended := master_agent.session_ended response |},
             sessions_set session_id session sessions)
        | Raised e session => (ServerError e, sessions_set session_id session sessions)
        end
  end.

(** [POST /reset]. *)
Definition reset_session (session_id : string) (sessions : registry)
  : (bool * string) * registry :=
  ((true, "Session reset successfully"), sessions_del session_id sessions).

End main.

(** ** Notions for the properties of whole runs *)

Definition chats (turns : list (world * string)) : list (world * event) :=
  map (fun turn => (fst turn, Chat (snd turn))) turns.

Definition is_ended (session : Session) : bool :=
  match current_agent session with
  | Agent.ended => true
  | _ => false
  end.

Definition is_completed (session : Session) : bool :=
  match current_agent session with
  | Agent.completed => true
  | _ => false
  end.

(** No text input moves a session out of these stages. *)
Definition beyond_text (session : Session) : bool :=
  match current_agent session with
  | Agent.underwriting | Agent.sanction | Agent.completed | Agent.ended => true
  | _ => false
  end.

(** The rate in force is the one of the stored offer, and a bound
    customer is the one the stored identifier names. *)
Definition binding_consistent (session : Session) : Prop :=
  interest_rate session = option_map Offer.interest_rate (offer session)
  /\ (forall c, customer session = Some c ->
                customer_id session = Some (Customer.id c)).

Definition kyc_consistent (session : Session) : Prop :=
  kyc_verified session = true
  <-> verification_state session = VerificationState.complete.

(** A completed session is approved and has its letter. *)
Definition completed_has_letter (E : env) (session : Session) : Prop :=
  current_agent session = Agent.completed ->
  loan_status session = Some LoanStatus.approved
  /\ exists filename,
       sanction_letter_filename session = Some filename
       /\ sanction_letter_path session = Some (UPLOADS_PATH E ++ "/" ++ filename).

Definition amount_collected (session : Session) : Prop :=
  exists amount,
    loan_amount session = Some amount
    /\ (in_range 10000 5000000 amount \/ amount = NaN).

Definition tenure_collected (session : Session) : Prop :=
  exists tenure, loan_tenure session = Some tenure /\ (12 <= tenure <= 72)%Z.

(** What the intake has collected, by its state. *)
Definition collected (session : Session) : Prop :=
  match sales_state session with
  | SalesState.ask_amount => True
  | SalesState.ask_tenure => amount_collected session
  | _ => amount_collected session /\ tenure_collected session
  end.

(** The intake is complete before the verification and the evaluator
    take over. *)
Definition intake_progress (session : Session) : Prop :=
  collected session
  /\ match current_agent session with
     | Agent.verification | Agent.underwriting =>
         sales_state session = SalesState.complete
     | _ => True
     end.
(** ** Notions for the properties of the evaluator *)

(** The session with another credit score and limit in the bound
    profile. *)
Definition with_credit (score limit : option pyfloat) (session : Session) : Session :=
  match customer session with
  | Some c =>
      set_customer
        (Some {| Customer.id := Customer.id c;
                 Customer.name := Customer.name c;
                 Customer.city := Customer.city c;
                 Customer.phone := Customer.phone c;
                 Customer.credit_score := score;
                 Customer.preapproved_limit := limit;
                 Customer.salary := Customer.salary c |})
        session
  | None => session
  end.

Definition outcome_map {A : Type} (f : Session -> Session) (o : outcome A) : outcome A :=
  match o with
  | Returned a s => Returned a (f s)
  | Raised e s => Raised e (f s)
  end.

(** The flags of a response, read against the session the turn leaves. *)
Definition flags_mirror (response : master_agent.response) (session : Session) : Prop :=
  master_agent.session_ended response = is_ended session
  /\ master_agent.show_download response = is_completed session
  /\ master_agent.download_file response
     = (if master_agent.show_download response
        then sanction_letter_filename session else None)
  /\ master_agent.show_upload response = awaiting_upload session.
(** ** More sample data *)

(** The session after the greeting, after the amount, and after the
    whole intake. *)
Definition greeted : Session :=
  run plain [chat "hello"] master_agent.get_initial_state.

Definition amount_given : Session :=
  run plain [chat "hello"; chat "₹3,00,000"] master_agent.get_initial_state.

Definition intake_done : Session :=
  run plain [chat "hello"; chat "₹3,00,000"; chat " 24 "; chat "Yes"]
    master_agent.get_initial_state.

(** The office on a day the offers file cannot be read. *)
Definition office_without_offers : world :=
  {| customers_json := Ok [asha; ravi; meera];
     offers_json := Raise OSError;
     timestamp := "20240101_120000";
     datestamp := "20240101";
     makedirs_ok := true;
     build_ok := true |}.

(** ** The calculator on binary floating point

    The two functions of the calculator once more, on IEEE 754 doubles
    ([spec_float] at precision 53): division, sum, difference and
    product round to the nearest double, and [float ** int] follows
    CPython's [float_pow], which settles the special cases itself and
    hands the others to the C library.  The C library's [pow] and
    Python's [round(x, ndigits)] are parameters here: the properties
    stated on this model hold whatever the two return. *)

Module binary64.

Definition prec : Z := 53.
Definition emax : Z := 1024.

(** The double [m * 2 ** e], and the double of an [int] within range. *)
Definition ldexp (m e : Z) : spec_float := binary_normalize prec emax m e false.

Definition of_int (z : Z) : spec_float := ldexp z 0.

Definition is_infinite (x : spec_float) : bool :=
  match x with
  | S754_infinity _ => true
  | _ => false
  end.

(** [float(n)] for an [int]: beyond the largest double it raises. *)
Definition float_of_int (z : Z) : result spec_float :=
  if is_infinite (of_int z) then Raise OverflowError else Ok (of_int z).

Definition add : spec_float -> spec_float -> spec_float := SFadd prec emax.
Definition sub : spec_float -> spec_float -> spec_float := SFsub prec emax.
Definition mul : spec_float -> spec_float -> spec_float := SFmul prec emax.

(** [x / y]: a divisor equal to zero raises. *)
Definition div (x y : spec_float) : result spec_float :=
  if SFeqb y (of_int 0) then Raise ZeroDivisionError
  else Ok (SFdiv prec emax x y).

Section Library.

Variable libm_pow : spec_float -> Z -> spec_float.
Variable round : spec_float -> nat -> spec_float.

(** [x ** n] for an [int] exponent, as [float_pow] does it: the zero
    exponent, [nan], the infinities, zero and the bases 1 and -1 are
    answered at once; otherwise the C library computes the power of the
    absolute value, and an infinite result raises [OverflowError]. *)
Definition float_pow (x : spec_float) (n : Z) : result spec_float :=
  w <- float_of_int n ;;
  if (n =? 0)%Z then Ok (of_int 1)
  else
    match x with
    | S754_nan => Ok S754_nan
    | S754_infinity s =>
        Ok (if (0 <? n)%Z then S754_infinity (s && Z.odd n)
            else S754_zero (s && Z.odd n))
    | S754_zero s =>
        if (n <? 0)%Z then Raise ZeroDivisionError
        else Ok (S754_zero (s && Z.odd n))
    | S754_finite s m e =>
        let negate_result := s && Z.odd n in
        let iv := S754_finite false m e in
        if SFeqb iv (of_int 1)
        then Ok (if negate_result then of_int (-1) else of_int 1)
        else
          let ix := libm_pow iv n in
          if is_infinite ix then Raise OverflowError
          else Ok (if negate_result then SFopp ix else ix)
    end.

Definition calculate_emi (principal annual_rate : spec_float) (tenure_months : Z)
  : result spec_float :=
  if SFeqb annual_rate (of_int 0)
  then (n <- float_of_int tenure_months ;; div principal n)
  else
    monthly_rate <- div annual_rate (of_int (12 * 100)) ;;
    pw <- float_pow (add (of_int 1) monthly_rate) tenure_months ;;
    emi <- div (mul (mul principal monthly_rate) pw) (sub pw (of_int 1)) ;;
    Ok (round emi 2).

Definition calculate_max_loan_for_emi (max_emi annual_rate : spec_float)
  (tenure_months : Z) : result spec_float :=
  if SFeqb annual_rate (of_int 0)
  then (n <- float_of_int tenure_months ;; Ok (mul max_emi n))
  else
    monthly_rate <- div annual_rate (of_int (12 * 100)) ;;
    pw <- float_pow (add (of_int 1) monthly_rate) tenure_months ;;
    principal <- div (mul max_emi (sub pw (of_int 1))) (mul monthly_rate pw) ;;
    Ok (round principal 0).

(** The largest principal for the payment of a principal. *)
Definition round_trip (principal annual_rate : spec_float) (tenure_months : Z)
  : result spec_float :=
  emi <- calculate_emi principal annual_rate tenure_months ;;
  calculate_max_loan_for_emi emi annual_rate tenure_months.

End Library.

End binary64.

(** ** Where the idealised numbers and the ASCII text stand for Python's

    The calculator is modelled on exact rationals.  In binary floating
    point [1 + annual_rate / 1200] is [1.0] for a positive rate below
    about 1.3e-13, so that the payment formula divides by zero, the
    power overflows for very large rates and terms, and an [int] beyond
    the range of a double cannot be formatted or multiplied by a float.
    The properties of the calculator and of the evaluator are therefore
    stated for rates in [working_rate] and numbers in [double_range],
    where neither arithmetic raises; and the properties that depend on
    which text is blank, a digit or a letter are stated for ASCII
    text. *)

(** The largest finite double, [(2^53 - 1) * 2^971]. *)
Definition max_double : Q := inject_Z ((2 ^ 53 - 1) * 2 ^ 971).

(** A float, or an [int] that converts to one. *)
Definition double_range (x : pyfloat) : Prop :=
  match x with
  | Fin q => Qabs q <= max_double
  | _ => True
  end.

(** An annual rate, in percent, of 0 or from one millionth to one
    million. *)
Definition working_rate (r : Q) : Prop :=
  r == 0 \/ (1 # 1000000) <= r <= 1000000.

Definition is_ascii (s : string) : bool :=
  forallb (fun c => (code c <? 128)%nat) (list_ascii_of_string s).

(** A customer with a low credit score, and sessions at rates that an
    offers file can carry: [-2400] makes [1 + monthly_rate] equal to
    [-1], whose even powers are 1; [-1200] makes it 0. *)
Definition kiran : Customer.t :=
  {| Customer.id := "C004";
     Customer.name := "Kiran Das";
     Customer.city := "Patna";
     Customer.phone := "9000000004";
     Customer.credit_score := Some (of_int 650);
     Customer.preapproved_limit := Some (of_int 500000);
     Customer.salary := Some (of_int 50000) |}.

Definition kiran_at_minus_2400 : Session :=
  set_interest_rate (Some (of_int (-2400)))
    (set_customer_id (Some "C004") (set_customer (Some kiran) intake_done)).

Definition ravi_at_minus_1200 : Session :=
  set_interest_rate (Some (of_int (-1200))) (awaiting_slip "9123456780").

Definition ravi_at_minus_2400 : Session :=
  set_interest_rate (Some (of_int (-2400))) (awaiting_slip "9123456780").

(** * Properties

    ** Rounding *)

Lemma Qle_bool_false (x y : Q) : Qle_bool x y = false <-> y < x.
Proof.
  split; intro H.
  - apply Qnot_le_lt. intro Hle. apply Qle_bool_iff in Hle. congruence.
  - destruct (Qle_bool x y) eqn:Hb; [|reflexivity].
    apply Qle_bool_iff in Hb. lra.
Qed.

Ltac qbool :=
  repeat match goal with
  | H : Qle_bool _ _ = true |- _ => apply Qle_bool_iff in H
  | H : Qle_bool _ _ = false |- _ => apply Qle_bool_false in H
  | H : Qeq_bool _ _ = true |- _ => apply Qeq_bool_iff in H
  | H : Qeq_bool _ _ = false |- _ => apply Qeq_bool_neq in H
  | H : negb _ = true |- _ => apply negb_true_iff in H
  | H : negb _ = false |- _ => apply negb_false_iff in H
  end.

Lemma round_half_even_near (x : Q) :
  inject_Z (round_half_even x) - (1 # 2) <= x <= inject_Z (round_half_even x) + (1 # 2).
Proof.
  unfold round_half_even.
  pose proof (Qfloor_le x) as Hlo.
  pose proof (Qlt_floor x) as Hhi.
  rewrite inject_Z_plus in Hhi. change (inject_Z 1) with 1 in Hhi.
  destruct (Qle_bool (1 # 2) (x - inject_Z (Qfloor x))) eqn:H1; simpl.
  - destruct (Qle_bool (x - inject_Z (Qfloor x)) (1 # 2)) eqn:H2; simpl; qbool.
    + destruct (Z.even (Qfloor x)).
      * lra.
      * rewrite inject_Z_plus. change (inject_Z 1) with 1. lra.
    + rewrite inject_Z_plus. change (inject_Z 1) with 1. lra.
  - qbool. lra.
Qed.

Lemma round_half_even_comp (x y : Q) : x == y -> round_half_even x = round_half_even y.
Proof.
  intro H. unfold round_half_even.
  rewrite (Qfloor_comp _ _ H).
  assert (Hd : x - inject_Z (Qfloor y) == y - inject_Z (Qfloor y)) by (rewrite H; reflexivity).
  rewrite (Qleb_comp _ _ (Qeq_refl (1#2)) _ _ Hd).
  rewrite (Qleb_comp _ _ Hd _ _ (Qeq_refl (1#2))).
  reflexivity.
Qed.

Lemma round_half_even_mono (x y : Q) :
  x <= y -> (round_half_even x <= round_half_even y)%Z.
Proof.
  intro Hxy.
  pose proof (Qfloor_resp_le _ _ Hxy) as Hf.
  pose proof (Qfloor_le x) as Hx. pose proof (Qfloor_le y) as Hy.
  destruct (Z.eq_dec (Qfloor x) (Qfloor y)) as [He | Hne].
  - unfold round_half_even. rewrite He.
    assert (Hd : x - inject_Z (Qfloor y) <= y - inject_Z (Qfloor y)) by lra.
    destruct (Qle_bool (1 # 2) (x - inject_Z (Qfloor y))) eqn:A1;
    destruct (Qle_bool (x - inject_Z (Qfloor y)) (1 # 2)) eqn:A2;
    destruct (Qle_bool (1 # 2) (y - inject_Z (Qfloor y))) eqn:B1;
    destruct (Qle_bool (y - inject_Z (Qfloor y)) (1 # 2)) eqn:B2;
    simpl; qbool; destruct (Z.even (Qfloor y)); try lia; exfalso; lra.
  - assert (Hlt : (Qfloor x + 1 <= Qfloor y)%Z) by lia.
    assert (Hrx : (round_half_even x <= Qfloor x + 1)%Z).
    { unfold round_half_even.
      destruct (negb _); [lia|]. destruct (negb _); [lia|]. destruct (Z.even _); lia. }
    assert (Hry : (Qfloor y <= round_half_even y)%Z).
    { unfold round_half_even.
      destruct (negb _); [lia|]. destruct (negb _); [lia|]. destruct (Z.even _); lia. }
    lia.
Qed.

Lemma pow10_pos (nd : nat) : 0 < pow10 nd.
Proof.
  unfold pow10. change 0 with (inject_Z 0). rewrite <- Zlt_Qlt.
  apply Z.pow_pos_nonneg; lia.
Qed.

Lemma qround_near (q : Q) (nd : nat) :
  Qabs (qround q nd - q) <= (1 # 2) / pow10 nd.
Proof.
  unfold qround.
  pose proof (pow10_pos nd) as Hp.
  pose proof (round_half_even_near (q * pow10 nd)) as [Hlo Hhi].
  set (z := inject_Z (round_half_even (q * pow10 nd))) in *.
  set (p := pow10 nd) in *.
  assert (Hi : 0 < / p) by (apply Qinv_lt_0_compat; exact Hp).
  assert (Hpp : p * / p == 1) by (apply Qmult_inv_r; lra).
  apply Qabs_Qle_condition. unfold Qdiv.
  split.
  - assert (H : (q * p - z) * / p <= (1#2) * / p) by (apply Qmult_le_compat_r; lra).
    assert (E : (q * p - z) * / p == q * (p * /p) - z * / p) by ring.
    rewrite E, Hpp in H. lra.
  - assert (H : (z - q * p) * / p <= (1#2) * / p) by (apply Qmult_le_compat_r; lra).
    assert (E : (z - q * p) * / p == z * /p - q * (p * /p)) by ring.
    rewrite E, Hpp in H. lra.
Qed.

Lemma qround_mono (x y : Q) (nd : nat) : x <= y -> qround x nd <= qround y nd.
Proof.
  intro H. unfold qround.
  pose proof (pow10_pos nd) as Hp.
  apply Qmult_le_compat_r.
  - rewrite <- Zle_Qle. apply round_half_even_mono.
    apply Qmult_le_compat_r; lra.
  - apply Qlt_le_weak, Qinv_lt_0_compat, Hp.
Qed.

Lemma qround_comp (x y : Q) (nd : nat) : x == y -> qround x nd == qround y nd.
Proof.
  intro H. unfold qround.
  rewrite (round_half_even_comp (x * pow10 nd) (y * pow10 nd)); [reflexivity|].
  rewrite H; reflexivity.
Qed.

(** ** Powers and the annuity factor *)

Lemma Qpower_succ (x : Q) (k : nat) : x ^ Z.of_nat (S k) == x * x ^ Z.of_nat k.
Proof.
  rewrite Nat2Z.inj_succ. unfold Z.succ.
  rewrite Qpower_plus' by lia. rewrite Qpower_1_r. ring.
Qed.

Lemma Qpower_nat_pos (x : Q) (k : nat) : 0 < x -> 0 < x ^ Z.of_nat k.
Proof. intro H. apply Qpower_0_lt. exact H. Qed.

Lemma Qpower_nat_ge_1 (x : Q) (k : nat) : 1 <= x -> 1 <= x ^ Z.of_nat k.
Proof. intro H. apply Qpower_1_le; [exact H | lia]. Qed.

Lemma Qpower_nat_mono (a b : Q) (k : nat) :
  0 <= a -> a <= b -> a ^ Z.of_nat k <= b ^ Z.of_nat k.
Proof.
  intros Ha Hab. induction k as [|k IH].
  - simpl. lra.
  - rewrite !Qpower_succ.
    apply Qmult_le_compat_nonneg; split; try assumption.
    apply Qpower_0_le. exact Ha.
Qed.

Lemma Qinv_anti (a b : Q) : 0 < a -> a <= b -> / b <= / a.
Proof.
  intros Ha Hab.
  assert (Hb : 0 < b) by lra.
  apply Qle_shift_inv_r; [exact Hb|].
  assert (Hia : 0 < / a) by (apply Qinv_lt_0_compat; exact Ha).
  assert (E : / a * a == 1) by (rewrite Qmult_comm; apply Qmult_inv_r; lra).
  assert (H : / a * a <= / a * b) by (apply Qmult_le_l; assumption).
  lra.
Qed.

Lemma annuity_identity (x : Q) (k : nat) :
  0 < x -> (x - 1) * x ^ Z.of_nat k * annuity x k == x ^ Z.of_nat k - 1.
Proof.
  intro Hx. induction k as [|k IH].
  - simpl. ring.
  - change (annuity x (S k)) with (annuity x k + / x ^ Z.of_nat (S k)).
    pose proof (Qpower_nat_pos x (S k) Hx) as Hp.
    assert (Hinv : x ^ Z.of_nat (S k) * / x ^ Z.of_nat (S k) == 1)
      by (apply Qmult_inv_r; lra).
    assert (E : (x - 1) * x ^ Z.of_nat (S k) * (annuity x k + / x ^ Z.of_nat (S k))
                == (x - 1) * x ^ Z.of_nat (S k) * annuity x k
                   + (x - 1) * (x ^ Z.of_nat (S k) * / x ^ Z.of_nat (S k))) by ring.
    rewrite E, Hinv. rewrite Qpower_succ.
    assert (E2 : (x - 1) * (x * x ^ Z.of_nat k) * annuity x k
                 == x * ((x - 1) * x ^ Z.of_nat k * annuity x k)) by ring.
    rewrite E2, IH. ring.
Qed.

Lemma annuity_nonneg (x : Q) (k : nat) : 0 < x -> 0 <= annuity x k.
Proof.
  intro Hx. induction k as [|k IH].
  - simpl. lra.
  - change (annuity x (S k)) with (annuity x k + / x ^ Z.of_nat (S k)).
    pose proof (Qinv_lt_0_compat _ (Qpower_nat_pos x (S k) Hx)). lra.
Qed.

Lemma annuity_pos (x : Q) (k : nat) : 0 < x -> (0 < k)%nat -> 0 < annuity x k.
Proof.
  intros Hx Hk. destruct k as [|k]; [lia|].
  change (annuity x (S k)) with (annuity x k + / x ^ Z.of_nat (S k)).
  pose proof (annuity_nonneg x k Hx).
  pose proof (Qinv_lt_0_compat _ (Qpower_nat_pos x (S k) Hx)). lra.
Qed.

Lemma annuity_le_months (x : Q) (k : nat) :
  1 <= x -> annuity x k <= inject_Z (Z.of_nat k).
Proof.
  intro Hx. induction k as [|k IH].
  - apply Qle_refl.
  - change (annuity x (S k)) with (annuity x k + / x ^ Z.of_nat (S k)).
    assert (E : inject_Z (Z.of_nat (S k)) == inject_Z (Z.of_nat k) + 1).
    { rewrite Nat2Z.inj_succ. unfold Z.succ. rewrite inject_Z_plus. reflexivity. }
    assert (H1 : / x ^ Z.of_nat (S k) <= / 1).
    { apply Qinv_anti; [lra | apply Qpower_nat_ge_1; exact Hx]. }
    change (/ 1) with 1 in H1.
    lra.
Qed.

Lemma annuity_anti (a b : Q) (k : nat) :
  0 < a -> a <= b -> annuity b k <= annuity a k.
Proof.
  intros Ha Hab. induction k as [|k IH].
  - simpl. lra.
  - change (annuity b (S k)) with (annuity b k + / b ^ Z.of_nat (S k)).
    change (annuity a (S k)) with (annuity a k + / a ^ Z.of_nat (S k)).
    assert (H : / b ^ Z.of_nat (S k) <= / a ^ Z.of_nat (S k)).
    { apply Qinv_anti; [apply Qpower_nat_pos; exact Ha|].
      apply Qpower_nat_mono; lra. }
    lra.
Qed.

(** The two closed formulas in terms of the annuity factor. *)
Lemma emi_formula_annuity (P r : Q) (k : nat) :
  0 < r -> (0 < k)%nat ->
  emi_formula P r (Z.of_nat k) == P / annuity (1 + r) k.
Proof.
  intros Hr Hk. unfold emi_formula.
  set (x := 1 + r).
  assert (Hx : 0 < x) by (unfold x; lra).
  pose proof (annuity_identity x k Hx) as Hid.
  pose proof (annuity_pos x k Hx Hk) as HA.
  pose proof (Qpower_nat_pos x k Hx) as Hp.
  assert (Hxr : x - 1 == r) by (unfold x; ring).
  assert (Hd : 0 < x ^ Z.of_nat k - 1).
  { rewrite <- Hid, Hxr.
    apply Qmult_lt_0_compat; [apply Qmult_lt_0_compat|]; assumption. }
  rewrite Hxr in Hid.
  rewrite <- Hid.
  generalize dependent (x ^ Z.of_nat k). generalize dependent (annuity x k).
  intros A HA pw _ Hp _.
  field. repeat split; lra.
Qed.

(** ** The financial calculator on finite numbers *)

Lemma Qeq_bool_false (a b : Q) : ~ a == b -> Qeq_bool a b = false.
Proof.
  intro H. destruct (Qeq_bool a b) eqn:E; [|reflexivity].
  apply Qeq_bool_iff in E. contradiction.
Qed.

Lemma fdiv_fin (a b : Q) : ~ b == 0 -> fdiv (Fin a) (Fin b) = Ok (Fin (a * / b)).
Proof. intro H. unfold fdiv. rewrite (Qeq_bool_false _ _ H). reflexivity. Qed.

Lemma fpow_fin (a : Q) (n : Z) :
  n <> 0%Z -> ~ ((n < 0)%Z /\ a == 0) -> fpow (Fin a) n = Ok (Fin (a ^ n)).
Proof.
  intros Hn Hz. unfold fpow.
  destruct (Z.eqb_spec n 0) as [|_]; [contradiction|].
  destruct (Z.ltb_spec n 0) as [Hlt|_]; [|reflexivity].
  rewrite Qeq_bool_false; [reflexivity|]. intro E. apply Hz. split; assumption.
Qed.

Lemma monthly_rate_fin (r : Q) :
  fdiv (Fin r) (of_int (12 * 100)) = Ok (Fin (r / 1200)).
Proof. unfold of_int. rewrite fdiv_fin; [reflexivity | discriminate]. Qed.

(** With a non-zero rate the payment is the closed formula, rounded to
    two decimals, wherever the formula is defined. *)
Lemma calculate_emi_nonzero_rate (P r : Q) (n : Z) :
  ~ r == 0 ->
  ~ ((n < 0)%Z /\ 1 + r / 1200 == 0) ->
  ~ (1 + r / 1200) ^ n - 1 == 0 ->
  exists e, underwriting_agent.calculate_emi (Fin P) (Fin r) n = Ok (Fin e)
            /\ e == qround (emi_formula P (r / 1200) n) 2.
Proof.
  intros Hr Hz Hd.
  assert (Hn : n <> 0%Z).
  { intro E. subst n. apply Hd. simpl. ring. }
  unfold underwriting_agent.calculate_emi.
  replace (feqb (Fin r) (of_int 0)) with false
    by (symmetry; apply Qeq_bool_false; exact Hr).
  rewrite monthly_rate_fin. cbn [rbind].
  change (fadd (of_int 1) (Fin (r / 1200))) with (Fin (1 + r / 1200)).
  rewrite (fpow_fin _ _ Hn Hz). cbn [rbind].
  change (fsub (Fin ((1 + r / 1200) ^ n)) (of_int 1))
    with (Fin ((1 + r / 1200) ^ n - 1)).
  change (fmul (fmul (Fin P) (Fin (r / 1200))) (Fin ((1 + r / 1200) ^ n)))
    with (Fin (P * (r / 1200) * (1 + r / 1200) ^ n)).
  rewrite (fdiv_fin _ _ Hd). cbn [rbind fround].
  eexists. split; [reflexivity|]. apply qround_comp. reflexivity.
Qed.

Lemma monthly_pos (r : Q) : 0 < r -> 0 < r / 1200.
Proof. intro H. apply Qlt_shift_div_l; lra. Qed.

Lemma months_nat (n : Z) : (0 < n)%Z -> exists k, n = Z.of_nat k /\ (0 < k)%nat.
Proof. intro H. exists (Z.to_nat n). split; lia. Qed.

(** Positive rate and term: the payment is computed, and is the rounded
    quotient of the principal by the annuity factor. *)
Lemma calculate_emi_positive_rate (P r : Q) (k : nat) :
  0 < r -> (0 < k)%nat ->
  exists e, underwriting_agent.calculate_emi (Fin P) (Fin r) (Z.of_nat k) = Ok (Fin e)
            /\ e == qround (P / annuity (1 + r / 1200) k) 2.
Proof.
  intros Hr Hk.
  pose proof (monthly_pos r Hr) as Hm.
  assert (Hx : 1 < 1 + r / 1200) by lra.
  pose proof (Qpower_1_lt _ (Z.of_nat k) Hx ltac:(lia)) as Hpw.
  destruct (calculate_emi_nonzero_rate P r (Z.of_nat k)) as [e [He Hq]].
  - lra.
  - intros [Hlt _]. lia.
  - lra.
  - exists e. split; [exact He|]. rewrite Hq. apply qround_comp.
    apply emi_formula_annuity; assumption.
Qed.

(** With a zero rate the payment is the plain quotient: no rounding. *)
Lemma calculate_emi_zero_rate (P r : Q) (n : Z) :
  r == 0 -> n <> 0%Z ->
  underwriting_agent.calculate_emi (Fin P) (Fin r) n = Ok (Fin (P / inject_Z n)).
Proof.
  intros Hr Hn. unfold underwriting_agent.calculate_emi.
  replace (feqb (Fin r) (of_int 0)) with true
    by (symmetry; apply Qeq_bool_iff; exact Hr).
  unfold of_int. rewrite fdiv_fin; [reflexivity|].
  intro E. apply Hn. unfold Qeq in E. simpl in E. lia.
Qed.

Lemma pow10_2 : pow10 2 == 100.
Proof. reflexivity. Qed.

Lemma qround_2_near (q : Q) : q - (1 # 200) <= qround q 2 <= q + (1 # 200).
Proof.
  pose proof (qround_near q 2) as H.
  assert (E : (1 # 2) / pow10 2 == 1 # 200) by reflexivity.
  rewrite E in H. apply Qabs_Qle_condition in H. lra.
Qed.

Lemma Qdiv_cancel (P A : Q) : 0 < A -> P / A * A == P.
Proof. intro H. field. lra. Qed.

Lemma working_rate_nonneg (r : Q) : working_rate r -> 0 <= r.
Proof.
  intros [Hz | [Hlo _]]; [rewrite Hz; apply Qle_refl | lra].
Qed.

(** C8.  On doubles, at the positive rate 2 ** -44 percent,
    [1 + monthly_rate] is 1.0, its power is 1.0 and the payment formula
    divides by zero: the payment of 300000 over 24 months raises
    [ZeroDivisionError], and with it the round trip, whatever the C
    library's [pow] and Python's [round] return. *)
Theorem tiny_rate_round_trip_raises
  (libm_pow : spec_float -> Z -> spec_float) (round : spec_float -> nat -> spec_float) :
  let rate := binary64.ldexp 1 (-44) in
  SFltb (binary64.of_int 0) rate = true
  /\ (exists monthly_rate,
        binary64.div rate (binary64.of_int (12 * 100)) = Ok monthly_rate
        /\ binary64.add (binary64.of_int 1) monthly_rate = binary64.of_int 1)
  /\ binary64.calculate_emi libm_pow round (binary64.of_int 300000) rate 24
     = Raise ZeroDivisionError
  /\ binary64.round_trip libm_pow round (binary64.of_int 300000) rate 24
     = Raise ZeroDivisionError.
Proof.
  cbv zeta. split; [vm_compute; reflexivity|].
  split; [eexists; split; vm_compute; reflexivity|].
  split; vm_compute; reflexivity.
Qed.

(** C9, as amended.  For a principal up to 5000000, a term up to 72
    months and rates from 1 to 100 percent, the payment times the term
    is at least the principal less half a minor unit per instalment, and
    of two rates at least a millionth apart the larger has a payment
    that is not smaller. *)
Theorem payment_covers_principal_up_to_rounding (P r1 r2 : Q) (n : Z) :
  0 < P <= 5000000 -> (1 <= n <= 72)%Z ->
  1 <= r1 -> r1 + (1 # 1000000) <= r2 -> r2 <= 100 ->
  exists e1 e2,
    underwriting_agent.calculate_emi (Fin P) (Fin r1) n = Ok (Fin e1)
    /\ underwriting_agent.calculate_emi (Fin P) (Fin r2) n = Ok (Fin e2)
    /\ P - inject_Z n * (1 # 200) <= e1 * inject_Z n
    /\ e1 <= e2.
Proof.
  intros [HP _] [Hn _] Hlo Hapart _.
  assert (Hr1 : 0 < r1) by lra.
  assert (Hr12 : r1 <= r2) by lra.
  assert (Hr2 : 0 < r2) by lra.
  destruct (months_nat n ltac:(lia)) as [k [-> Hk]].
  destruct (calculate_emi_positive_rate P r1 k Hr1 Hk) as [e1 [He1 Hq1]].
  destruct (calculate_emi_positive_rate P r2 k Hr2 Hk) as [e2 [He2 Hq2]].
  exists e1, e2. split; [exact He1|]. split; [exact He2|].
  pose proof (monthly_pos r1 Hr1) as Hm1.
  pose proof (monthly_pos r2 Hr2) as Hm2.
  assert (Hm12 : r1 / 1200 <= r2 / 1200)
    by (unfold Qdiv; apply Qmult_le_compat_r; [lra | discriminate]).
  set (A1 := annuity (1 + r1 / 1200) k) in *.
  set (A2 := annuity (1 + r2 / 1200) k) in *.
  assert (HA1 : 0 < A1) by (apply annuity_pos; [lra | exact Hk]).
  assert (HA2 : 0 < A2) by (apply annuity_pos; [lra | exact Hk]).
  assert (HAk : A1 <= inject_Z (Z.of_nat k)) by (apply annuity_le_months; lra).
  assert (HA21 : A2 <= A1) by (apply annuity_anti; lra).
  split.
  - pose proof (qround_2_near (P / A1)) as [H1 _]. rewrite <- Hq1 in H1.
    pose proof (Qdiv_cancel P A1 HA1) as HPA.
    assert (Hq : 0 <= P / A1).
    { apply Qle_shift_div_l; [exact HA1 | lra]. }
    set (K := inject_Z (Z.of_nat k)) in *.
    assert (L1 : P / A1 * A1 <= P / A1 * K).
    { rewrite (Qmult_comm (P / A1) A1), (Qmult_comm (P / A1) K).
      apply Qmult_le_compat_r; assumption. }
    assert (L2 : (P / A1 - (1 # 200)) * K <= e1 * K) by (apply Qmult_le_compat_r; lra).
    assert (E : (P / A1 - (1 # 200)) * K == P / A1 * K - K * (1 # 200)) by ring.
    rewrite E in L2. lra.
  - rewrite Hq1, Hq2. apply qround_mono.
    unfold Qdiv.
    assert (Hi : / A1 <= / A2) by (apply Qinv_anti; assumption).
    rewrite !(Qmult_comm P). apply Qmult_le_compat_r; lra.
Qed.

(** Within the intake bounds the payment is computed and is positive. *)
Lemma payment_positive_in_domain (P r : Q) (n : Z) :
  10000 <= P -> 0 <= r -> (12 <= n <= 72)%Z ->
  exists e, underwriting_agent.calculate_emi (Fin P) (Fin r) n = Ok (Fin e) /\ 0 < e.
Proof.
  intros HP Hr Hn.
  assert (HK : 12 <= inject_Z n <= 72).
  { split.
    - change 12 with (inject_Z 12). rewrite <- Zle_Qle. lia.
    - change 72 with (inject_Z 72). rewrite <- Zle_Qle. lia. }
  destruct (Qeq_dec r 0) as [Hz | Hnz].
  - exists (P / inject_Z n). split.
    + apply calculate_emi_zero_rate; [exact Hz | lia].
    + apply Qlt_shift_div_l; lra.
  - assert (Hr' : 0 < r) by lra.
    destruct (months_nat n ltac:(lia)) as [k [-> Hk]].
    destruct (calculate_emi_positive_rate P r k Hr' Hk) as [e [He Hq]].
    exists e. split; [exact He|].
    pose proof (monthly_pos r Hr') as Hm.
    set (A := annuity (1 + r / 1200) k) in *.
    assert (HA : 0 < A) by (apply annuity_pos; [lra | exact Hk]).
    assert (HAk : A <= inject_Z (Z.of_nat k)) by (apply annuity_le_months; lra).
    pose proof (qround_2_near (P / A)) as [H1 _]. rewrite <- Hq in H1.
    assert (Hlow : 100 <= P / A).
    { apply Qle_shift_div_l; [exact HA | lra]. }
    lra.
Qed.

(** ** The rule evaluator *)

Lemma fdiv_by_fin (x : pyfloat) (b : Q) :
  ~ b == 0 -> fdiv x (Fin b) = Ok (fmul x (Fin (/ b))).
Proof. intro H. unfold fdiv. rewrite (Qeq_bool_false _ _ H). reflexivity. Qed.

Lemma inject_Z_nonzero (n : Z) : n <> 0%Z -> ~ inject_Z n == 0.
Proof. intros Hn E. apply Hn. unfold Qeq in E. simpl in E. lia. Qed.

(** The payment is computed for every principal, the special floats
    included, once the rate is a non-negative number and the term is
    positive. *)
Lemma calculate_emi_total (p : pyfloat) (r : Q) (n : Z) :
  0 <= r -> (0 < n)%Z -> exists e, underwriting_agent.calculate_emi p (Fin r) n = Ok e.
Proof.
  intros Hr Hn. unfold underwriting_agent.calculate_emi.
  destruct (Qeq_dec r 0) as [Hz | Hnz].
  - replace (feqb (Fin r) (of_int 0)) with true
      by (symmetry; apply Qeq_bool_iff; exact Hz).
    unfold of_int. rewrite fdiv_by_fin by (apply inject_Z_nonzero; lia).
    eexists. reflexivity.
  - replace (feqb (Fin r) (of_int 0)) with false
      by (symmetry; apply Qeq_bool_false; exact Hnz).
    assert (Hr' : 0 < r) by lra.
    pose proof (monthly_pos r Hr') as Hm.
    assert (Hx : 1 < 1 + r / 1200) by lra.
    pose proof (Qpower_1_lt _ n Hx Hn) as Hpw.
    rewrite monthly_rate_fin. cbn [rbind].
    change (fadd (of_int 1) (Fin (r / 1200))) with (Fin (1 + r / 1200)).
    rewrite fpow_fin; [| lia | intros [Hlt _]; lia].
    cbn [rbind].
    change (fsub (Fin ((1 + r / 1200) ^ n)) (of_int 1))
      with (Fin ((1 + r / 1200) ^ n - 1)).
    rewrite fdiv_by_fin by lra.
    eexists. reflexivity.
Qed.

Lemma calculate_max_loan_total (p : pyfloat) (r : Q) (n : Z) :
  0 <= r -> (0 < n)%Z -> exists a, underwriting_agent.calculate_max_loan_for_emi p (Fin r) n = Ok a.
Proof.
  intros Hr Hn. unfold underwriting_agent.calculate_max_loan_for_emi.
  destruct (Qeq_dec r 0) as [Hz | Hnz].
  - replace (feqb (Fin r) (of_int 0)) with true
      by (symmetry; apply Qeq_bool_iff; exact Hz).
    eexists. reflexivity.
  - replace (feqb (Fin r) (of_int 0)) with false
      by (symmetry; apply Qeq_bool_false; exact Hnz).
    assert (Hr' : 0 < r) by lra.
    pose proof (monthly_pos r Hr') as Hm.
    assert (Hx : 0 < 1 + r / 1200) by lra.
    pose proof (Qpower_0_lt _ n Hx) as Hpw.
    rewrite monthly_rate_fin. cbn [rbind].
    change (fadd (of_int 1) (Fin (r / 1200))) with (Fin (1 + r / 1200)).
    rewrite fpow_fin; [| lia | intros [Hlt _]; lia].
    cbn [rbind].
    change (fmul (Fin (r / 1200)) (Fin ((1 + r / 1200) ^ n)))
      with (Fin (r / 1200 * (1 + r / 1200) ^ n)).
    rewrite fdiv_by_fin.
    + eexists. reflexivity.
    + pose proof (Qmult_lt_0_compat _ _ Hm Hpw). lra.
Qed.

(** C1, as amended.  With a term of 12 to 72 months, a rate in the
    working range and numbers within the range of a double, the first
    pass returns for every credit score, amount, limit and salary, the
    special floats included, and its decision and reason are those of
    the first rule of the [if]/[elif] chain that matches: one of the
    four outcomes, and a credit score below 700 is rejected whatever the
    amount and the limit. *)
Theorem first_pass_follows_first_match (E : env) (session : Session) (r : Q) :
  let credit_score := customer_get Customer.credit_score session in
  let amount := get (loan_amount session) (of_int 0) in
  let limit := customer_get Customer.preapproved_limit session in
  let salary := customer_get Customer.salary session in
  (12 <= get (loan_tenure session) 12 <= 72)%Z ->
  get (interest_rate session) default_rate = Fin r ->
  working_rate r ->
  double_range credit_score ->
  double_range amount ->
  double_range (fmul (of_int 2) limit) ->
  double_range salary ->
  exists response session' d c,
    underwriting_agent.process E session = Returned response session'
    /\ underwriting_agent.decision response = Some d
    /\ underwriting_agent.reason response = Some c
    /\ first_match (rules credit_score amount limit) = Some (d, c)
    /\ In (d, c) first_pass_outcomes
    /\ (flt credit_score (of_int 700) = true ->
        (d, c) = (Decision.rejected, Reason.low_credit_score)).
Proof.
  intros credit_score amount limit salary Hn Hrate Hwork _ _ _ _.
  pose proof (working_rate_nonneg r Hwork) as Hr.
  unfold underwriting_agent.process. rewrite Hrate.
  assert (Hpos : (0 < get (loan_tenure session) 12)%Z) by lia.
  destruct (calculate_emi_total amount r _ Hr Hpos) as [emi Hemi].
  fold amount. rewrite Hemi.
  fold credit_score. fold limit.
  unfold rules, first_match, first_pass_outcomes.
  destruct (flt credit_score (of_int 700)) eqn:H1;
    [| destruct (fle amount limit) eqn:H2;
       [| destruct (fle amount (fmul (of_int 2) limit)) eqn:H3 ] ];
  do 4 eexists;
  (split; [reflexivity|]); cbn [underwriting_agent.decision underwriting_agent.reason];
  (split; [reflexivity|]); (split; [reflexivity|]); (split; [reflexivity|]);
  (split; [cbn [In]; tauto | intro; try discriminate; reflexivity]).
Qed.

Lemma nonpositive_not_positive (salary : pyfloat) :
  fle salary (of_int 0) = true -> fgt salary (of_int 0) = false.
Proof.
  destruct salary as [s| | |]; cbn; intro H; try discriminate; try reflexivity.
  change (inject_Z 0) with 0 in *. rewrite H. reflexivity.
Qed.

Lemma positive_above_half_nonpositive (e : Q) (salary : pyfloat) :
  0 < e -> fle salary (of_int 0) = true ->
  fle (Fin e) (fmul (Fin (1 # 2)) salary) = false.
Proof.
  intros He. destruct salary as [s| | |]; cbn; intro H; try discriminate; try reflexivity.
  change (inject_Z 0) with 0 in *. qbool.
  apply Qle_bool_false. lra.
Qed.

(** C5, as amended.  With a salary that is zero or negative, an amount
    and a tenure within the intake bounds and a rate in the working
    range, the guard of the salary ratio gives 100 without dividing, the
    payment is positive and so above half the salary, and the income
    check returns rejected / high_emi_ratio: nothing raises. *)
Theorem non_positive_salary_is_rejected
  (E : env) (session : Session) (a r : Q) (n : Z) :
  let salary := customer_get Customer.salary session in
  fle salary (of_int 0) = true ->
  double_range salary ->
  loan_amount session = Some (Fin a) -> 10000 <= a <= 5000000 ->
  loan_tenure session = Some n -> (12 <= n <= 72)%Z ->
  get (interest_rate session) default_rate = Fin r -> working_rate r ->
  (forall emi, underwriting_agent.emi_to_salary_ratio emi salary = Ok (of_int 100))
  /\ exists response session',
       underwriting_agent.process_salary_verification E session
       = Returned response session'
       /\ underwriting_agent.decision response = Some Decision.rejected
       /\ underwriting_agent.reason response = Some Reason.high_emi_ratio.
Proof.
  intros salary Hs _ Ha [Hlo _] Hn Hdom Hrate Hwork.
  pose proof (working_rate_nonneg r Hwork) as Hr.
  assert (Hratio : forall emi,
             underwriting_agent.emi_to_salary_ratio emi salary = Ok (of_int 100)).
  { intro emi. unfold underwriting_agent.emi_to_salary_ratio.
    rewrite (nonpositive_not_positive _ Hs). reflexivity. }
  split; [exact Hratio|].
  unfold underwriting_agent.process_salary_verification.
  rewrite Ha, Hn, Hrate. cbn [get]. fold salary.
  destruct (payment_positive_in_domain a r n Hlo Hr Hdom) as [e [He Hpos]].
  rewrite He, Hratio.
  rewrite (positive_above_half_nonpositive e salary Hpos Hs).
  destruct (calculate_max_loan_total (fmul (Fin (1 # 2)) salary) r n Hr ltac:(lia))
    as [max_loan Hmax].
  rewrite Hmax.
  do 2 eexists. split; [reflexivity|]. split; reflexivity.
Qed.

(** ** The intake machine *)

(** C3.  In [ask_amount] the text [nan] is parsed to the float [nan],
    which is neither below 10000 nor above 5000000: it is stored as the
    loan amount and the machine moves on to [ask_tenure], although
    [nan] is not within the range. *)
Theorem nan_amount_is_accepted (E : env) (session : Session) :
  sales_state session = SalesState.ask_amount ->
  exists response,
    sales_agent.process E session "nan"
    = Returned response
        (set_sales_state SalesState.ask_tenure (set_loan_amount (Some NaN) session))
    /\ sales_agent.next_state response = Some SalesState.ask_tenure
    /\ ~ in_range 10000 5000000 NaN.
Proof.
  intro Hst. unfold sales_agent.process. rewrite Hst.
  assert (Hp : py_float (strip (remove_all "₹" (remove_all "," "nan"))) = Ok NaN)
    by (vm_compute; reflexivity).
  rewrite Hp. cbn [flt fgt of_int].
  eexists. split; [reflexivity|]. split; [reflexivity|].
  intros [q [Hq _]]. discriminate.
Qed.

Lemma flt_false_ge (v : pyfloat) (lo : Z) :
  flt v (of_int lo) = false -> v = NaN \/ v = PInf \/ exists q, v = Fin q /\ inject_Z lo <= q.
Proof.
  destruct v as [q| | |]; cbn; intro H; try discriminate; auto.
  right. right. exists q. split; [reflexivity|]. qbool. exact H.
Qed.

Lemma fgt_false_le (v : pyfloat) (hi : Z) :
  fgt v (of_int hi) = false -> v = NaN \/ v = NInf \/ exists q, v = Fin q /\ q <= inject_Z hi.
Proof.
  destruct v as [q| | |]; cbn; intro H; try discriminate; auto.
  right. right. exists q. split; [reflexivity|]. qbool. exact H.
Qed.

(** What the amount step does guarantee: an accepted amount is the
    parsed one and is within the range, unless it is [nan]. *)
Lemma accepted_amount_in_range_or_nan
  (E : env) (session session' : Session) (user_input : string)
  (response : sales_agent.response) :
  sales_state session = SalesState.ask_amount ->
  sales_agent.process E session user_input = Returned response session' ->
  sales_agent.next_state response = Some SalesState.ask_tenure ->
  exists amount,
    py_float (strip (remove_all "₹" (remove_all "," user_input))) = Ok amount
    /\ loan_amount session' = Some amount
    /\ sales_state session' = SalesState.ask_tenure
    /\ (in_range 10000 5000000 amount \/ amount = NaN).
Proof.
  intros Hst Hrun Hnext. unfold sales_agent.process in Hrun. rewrite Hst in Hrun.
  destruct (py_float _) as [amount | e] eqn:Hp.
  - destruct (flt amount (of_int 10000)) eqn:Hlo.
    { inversion Hrun; subst. discriminate. }
    destruct (fgt amount (of_int 5000000)) eqn:Hhi.
    { inversion Hrun; subst. discriminate. }
    inversion Hrun; subst. exists amount.
    split; [reflexivity|]. split; [reflexivity|]. split; [reflexivity|].
    destruct (flt_false_ge _ _ Hlo) as [-> | [-> | [q [-> Hq]]]]; auto.
    + discriminate.
    + destruct (fgt_false_le _ _ Hhi) as [? | [? | [q' [Hq' Hle]]]]; try discriminate.
      inversion Hq'; subst q'. left. exists q. auto.
  - destruct e; inversion Hrun; subst; discriminate.
Qed.

(** Unparsable text and numbers outside the range leave the session as
    it is and ask again. *)
Lemma rejected_amount_reprompts
  (E : env) (session : Session) (user_input : string) :
  sales_state session = SalesState.ask_amount ->
  (forall amount,
      py_float (strip (remove_all "₹" (remove_all "," user_input))) = Ok amount ->
      flt amount (of_int 10000) = true \/ fgt amount (of_int 5000000) = true) ->
  exists response,
    sales_agent.process E session user_input = Returned response session
    /\ sales_agent.next_state response = Some SalesState.ask_amount.
Proof.
  intros Hst Hout. unfold sales_agent.process. rewrite Hst.
  destruct (py_float _) as [amount | e] eqn:Hp.
  - destruct (Hout amount eq_refl) as [H | H].
    + rewrite H. eexists. split; reflexivity.
    + destruct (flt amount (of_int 10000)); [| rewrite H]; eexists; split; reflexivity.
  - assert (He : e = ValueError).
    { unfold py_float in Hp.
      destruct (parse_sign _) as [neg body].
      destruct (_ || _); [discriminate|].
      destruct (String.eqb _ _); [discriminate|].
      destruct (parse_number body); [discriminate|]. congruence. }
    subst e. eexists. split; reflexivity.
Qed.

(** The tenure step accepts exactly the integers from 12 to 72. *)
Lemma accepted_tenure_in_range
  (E : env) (session session' : Session) (user_input : string)
  (response : sales_agent.response) :
  sales_state session = SalesState.ask_tenure ->
  sales_agent.process E session user_input = Returned response session' ->
  sales_agent.next_state response = Some SalesState.confirm ->
  exists tenure,
    py_int (strip user_input) = Ok tenure
    /\ (12 <= tenure <= 72)%Z
    /\ loan_tenure session' = Some tenure
    /\ sales_state session' = SalesState.confirm.
Proof.
  intros Hst Hrun Hnext. unfold sales_agent.process in Hrun. rewrite Hst in Hrun.
  destruct (py_int _) as [tenure | e] eqn:Hp.
  - destruct (Z.ltb_spec tenure 12).
    { inversion Hrun; subst. discriminate. }
    destruct (tenure >? 72)%Z eqn:Hhi.
    { inversion Hrun; subst. discriminate. }
    destruct (sales_agent.calculate_emi _ _ _) as [emi | e].
    + inversion Hrun; subst. exists tenure.
      split; [reflexivity|]. split; [lia|]. split; reflexivity.
    + destruct e; inversion Hrun; subst; discriminate.
  - destruct e; inversion Hrun; subst; discriminate.
Qed.

Lemma rejected_tenure_reprompts
  (E : env) (session : Session) (user_input : string) :
  sales_state session = SalesState.ask_tenure ->
  (forall tenure, py_int (strip user_input) = Ok tenure -> (tenure < 12 \/ 72 < tenure)%Z) ->
  exists response,
    sales_agent.process E session user_input = Returned response session
    /\ sales_agent.next_state response = Some SalesState.ask_tenure.
Proof.
  intros Hst Hout. unfold sales_agent.process. rewrite Hst.
  destruct (py_int _) as [tenure | e] eqn:Hp.
  - destruct (Hout tenure eq_refl) as [H | H].
    + destruct (Z.ltb_spec tenure 12); [|lia]. eexists. split; reflexivity.
    + destruct (Z.ltb_spec tenure 12); [eexists; split; reflexivity|].
      replace (tenure >? 72)%Z with true by (symmetry; apply Z.gtb_lt; lia).
      eexists. split; reflexivity.
  - assert (He : e = ValueError).
    { unfold py_int in Hp.
      destruct (parse_sign _) as [neg body].
      destruct (digitpart body) as [[|d ds] [|c rest]]; congruence. }
    subst e. eexists. split; reflexivity.
Qed.

(** ** The verification machine *)

(** A denial resets the state and drops the [customer] key: the rest of
    the session is as before. *)
Lemma denial_drops_customer_key
  (w : world) (session : Session) (user_input : string) :
  verification_state session = VerificationState.confirm_identity ->
  str_in (strip (lower user_input)) ["no"; "n"; "wrong"; "incorrect"] = true ->
  exists response,
    verification_agent.process w session user_input
    = Returned response
        (set_customer None
           (set_verification_state VerificationState.ask_phone session))
    /\ verification_agent.next_state response = Some VerificationState.ask_phone.
Proof.
  intros Hst Hno. unfold verification_agent.process. rewrite Hst.
  cbv zeta. rewrite Hno.
  assert (Hyes : str_in (strip (lower user_input))
                   ["yes"; "y"; "correct"; "right"; "ok"] = false).
  { unfold str_in in *. cbn [existsb] in *.
    repeat (apply orb_true_iff in Hno; destruct Hno as [Hno | Hno]);
      try discriminate;
      apply String.eqb_eq in Hno; rewrite Hno; reflexivity. }
  rewrite Hyes. eexists. split; reflexivity.
Qed.

(** C7.  A customer with an offer is bound, then denied with [No]: the
    machine is back in [ask_phone] and the [customer] key is gone, but
    the identifier, the offer and the rate taken from the offer are
    still in the session; a customer without an offer who is bound
    next keeps the first customer's rate. *)
Theorem denied_identity_keeps_identifier_and_offer :
  let bound := asked_to_confirm "98765-43210" in
  let denied :=
    session_after (verification_agent.process (office true) bound " No ") in
  let rebound :=
    session_after (verification_agent.process (office true) denied "9123456780") in
  (verification_state bound = VerificationState.confirm_identity
   /\ customer bound = Some asha)
  /\ (verification_state denied = VerificationState.ask_phone
      /\ customer denied = None
      /\ customer_id denied = Some "C001"
      /\ offer denied = Some asha_offer
      /\ interest_rate denied = Some (Fin (95 # 10)))
  /\ (customer rebound = Some ravi
      /\ offer rebound = Some asha_offer
      /\ interest_rate rebound = Some (Fin (95 # 10))).
Proof. vm_compute. repeat split; reflexivity. Qed.

(** ** The orchestrator *)

(** C10.  In the greeting stage the turn does not look at the input
    (nor at the outside world): any two inputs give the same response,
    the opening message of the intake with every flag off, and the same
    session, moved on to the intake. *)
Theorem greeting_ignores_input
  (E : env) (w1 w2 : world) (session : Session) (input1 input2 : string) :
  current_agent session = Agent.greeting ->
  master_agent.process_message E w1 session input1
  = master_agent.process_message E w2 session input2
  /\ master_agent.process_message E w1 session input1
     = Returned
         {| master_agent.message := sales_agent.get_initial_message;
            master_agent.show_upload := false;
            master_agent.show_download := false;
            master_agent.download_file := None;
            master_agent.session_ended := false |}
         (set_conversation_stage Stage.collecting_loan_details
            (set_current_agent Agent.sales session)).
Proof.
  intro Hg. unfold master_agent.process_message. rewrite Hg.
  split; reflexivity.
Qed.

Lemma greeting_ignores_input_witness :
  master_agent.process_message plain (office true) master_agent.get_initial_state "hello"
  = master_agent.process_message plain (office false) master_agent.get_initial_state "12345".
Proof.
  apply (greeting_ignores_input plain (office true) (office false)
           master_agent.get_initial_state "hello" "12345").
  reflexivity.
Defined.

(** A failed issuance has not touched the session. *)
Lemma failed_issuance_leaves_session
  (E : env) (w : world) (session session' : Session) (e : exn) :
  sanction_generator.generate_sanction_letter E w session = Raised e session' ->
  session' = session.
Proof.
  unfold sanction_generator.generate_sanction_letter.
  destruct (negb (makedirs_ok w)); [intro H; inversion H; reflexivity|].
  destruct (first_word _); [| intro H; inversion H; reflexivity].
  destruct (negb (build_ok w)); intro H; inversion H; reflexivity.
Qed.

(** Shape of the session after an approval by the first pass. *)
Lemma first_pass_approval_shape
  (E : env) (session s2 : Session) (verdict : underwriting_agent.response) :
  underwriting_agent.process E session = Returned verdict s2 ->
  underwriting_agent.proceed_to_sanction verdict = true ->
  exists emi,
    s2 = set_approved_amount (Some (get (loan_amount session) (of_int 0)))
           (set_loan_status (Some LoanStatus.approved)
              (set_underwriting_state UnderwritingState.approved
                 (set_calculated_emi (Some emi) session))).
Proof.
  unfold underwriting_agent.process.
  destruct (underwriting_agent.calculate_emi _ _ _) as [emi | e]; [| discriminate].
  destruct (flt _ _); [intros H; inversion H; subst; discriminate|].
  destruct (fle _ _).
  - intros H _. inversion H; subst. exists emi. reflexivity.
  - destruct (fle _ _); intros H; inversion H; subst; discriminate.
Qed.

(** The income check reads four keys of the session and writes only
    the decision: on sessions that agree on the four keys it takes the
    same branch, and an approval has the shape below. *)
Lemma income_approval_shape
  (E : env) (session s2 other : Session) (verdict : underwriting_agent.response) :
  underwriting_agent.process_salary_verification E session = Returned verdict s2 ->
  underwriting_agent.proceed_to_sanction verdict = true ->
  loan_amount other = loan_amount session ->
  loan_tenure other = loan_tenure session ->
  interest_rate other = interest_rate session ->
  customer other = customer session ->
  underwriting_agent.process_salary_verification E other
  = Returned verdict
      (set_approved_amount (Some (get (loan_amount session) (of_int 0)))
         (set_loan_status (Some LoanStatus.approved)
            (set_underwriting_state UnderwritingState.approved other))).
Proof.
  intros Hrun Hok Ha Ht Hr Hc.
  unfold underwriting_agent.process_salary_verification, customer_get in *.
  rewrite Ha, Ht, Hr, Hc.
  destruct (underwriting_agent.calculate_emi _ _ _) as [emi | e]; [| discriminate].
  destruct (underwriting_agent.emi_to_salary_ratio _ _) as [ratio | e]; [| discriminate].
  destruct (fle _ _).
  - inversion Hrun; subst. reflexivity.
  - destruct (underwriting_agent.calculate_max_loan_for_emi _ _ _); inversion Hrun; subst; discriminate.
Qed.

(** C2.  When the document issuance raises in a turn that has reached
    an approval, the turn ends in that exception, no response is
    built, and the session is exactly as it was handed to the
    collaborator: the decision is approved for the requested amount.
    Delivering the same event again leaves the decision as it is (the
    stage stays, or the session completes when the letter is written
    this time), and any message to the session is then answered by the
    generic failure text without a change of state. *)
Theorem issuance_failure_keeps_committed_decision
  (E : env) (w : world) (session approved : Session) (ev : event)
  (e : exn) (left : Session) :
  reaches_approval E w session ev approved ->
  sanction_generator.generate_sanction_letter E w (issuance_call approved)
  = Raised e left ->
  deliver E w ev session = Raised e (issuance_call approved)
  /\ left = issuance_call approved
  /\ decision_state (issuance_call approved)
     = (UnderwritingState.approved, Some LoanStatus.approved,
        Some (get (loan_amount session) (of_int 0)))
  /\ (forall (w' : world),
        let retried := session_after (deliver E w' ev (issuance_call approved)) in
        decision_state retried = decision_state (issuance_call approved)
        /\ (stage_state retried = stage_state (issuance_call approved)
            \/ current_agent retried = Agent.completed))
  /\ (forall (w' : world) (user_input : string),
        master_agent.process_message E w' (issuance_call approved) user_input
        = Returned
            (master_agent.with_message
               "I'm sorry, something went wrong. Please start a new conversation."
               master_agent.blank)
            (issuance_call approved)).
Proof.
  intros Hturn Hfail.
  pose proof (failed_issuance_leaves_session _ _ _ _ _ Hfail) as Hleft. subst left.
  assert (Hgeneric : forall (w' : world) (user_input : string),
             master_agent.process_message E w' (issuance_call approved) user_input
             = Returned
                 (master_agent.with_message
                    "I'm sorry, something went wrong. Please start a new conversation."
                    master_agent.blank)
                 (issuance_call approved)) by reflexivity.
  destruct Hturn as [user_input confirmed s1 verdict s2 Hagent Hverif Hgo Huw Hok
                    | verdict s2 Hinc Hok].
  - destruct (first_pass_approval_shape _ _ _ _ Huw Hok) as [emi Hshape].
    assert (Hamount : loan_amount s1 = loan_amount session).
    { clear - Hverif Hgo. unfold verification_agent.process in Hverif.
      destruct (verification_state session);
        try (inversion Hverif; subst; discriminate).
      - destruct (_ && _); [| inversion Hverif; subst; discriminate].
        destruct (verification_agent.find_customer_by_phone _ _) as [[c|]|];
          try (inversion Hverif; subst; discriminate).
        destruct (verification_agent.find_offer_by_customer_id _ _) as [[o|]|];
          inversion Hverif; subst; discriminate.
      - cbv zeta in Hverif.
        destruct (str_in _ _); [inversion Hverif; subst; reflexivity|].
        destruct (str_in _ _); inversion Hverif; subst; discriminate.
      - cbv zeta in Hverif.
        destruct (str_in _ _); inversion Hverif; subst; discriminate. }
    split; [| split; [reflexivity | split; [| split; [| exact Hgeneric]]]].
    + unfold deliver, master_agent.process_message.
      rewrite Hagent, Hverif, Hgo, Huw, Hok.
      unfold master_agent.issue_and_complete.
      change (set_conversation_stage Stage.generating_sanction
                (set_current_agent Agent.sanction s2)) with (issuance_call s2).
      rewrite Hfail. reflexivity.
    + subst s2. unfold decision_state. cbn. rewrite Hamount. reflexivity.
    + intros w' retried. unfold retried. cbn [deliver].
      rewrite Hgeneric. cbn [session_after]. split; [reflexivity | left; reflexivity].
  - pose proof (income_approval_shape E session s2 session verdict Hinc Hok
                  eq_refl eq_refl eq_refl eq_refl) as Hsame.
    assert (Hshape :
              s2 = set_approved_amount (Some (get (loan_amount session) (of_int 0)))
                     (set_loan_status (Some LoanStatus.approved)
                        (set_underwriting_state UnderwritingState.approved session)))
      by congruence.
    clear Hsame.
    split; [| split; [reflexivity | split; [| split; [| exact Hgeneric]]]].
    + unfold deliver, master_agent.process_salary_upload.
      rewrite Hinc, Hok.
      unfold master_agent.issue_and_complete.
      change (set_conversation_stage Stage.generating_sanction
                (set_current_agent Agent.sanction s2)) with (issuance_call s2).
      rewrite Hfail. reflexivity.
    + rewrite Hshape. reflexivity.
    + intros w' retried. unfold retried. cbn [deliver].
      unfold master_agent.process_salary_upload.
      rewrite (income_approval_shape E session s2 (issuance_call s2) verdict Hinc Hok)
        by (rewrite Hshape; reflexivity).
      rewrite Hok. unfold master_agent.issue_and_complete.
      destruct (sanction_generator.generate_sanction_letter E w' _)
        as [issued done | e' left'] eqn:Hgen.
      * revert Hgen. unfold sanction_generator.generate_sanction_letter.
        destruct (negb (makedirs_ok w')); [discriminate|].
        destruct (first_word _); [| discriminate].
        destruct (negb (build_ok w')); [discriminate|].
        cbv zeta. intro Hgen. injection Hgen as _ Hdone. rewrite <- Hdone. cbn [session_after].
        split; [rewrite Hshape; reflexivity | right; reflexivity].
      * apply failed_issuance_leaves_session in Hgen. subst left'.
        cbn [session_after].
        split; [rewrite Hshape; reflexivity | left; rewrite Hshape; reflexivity].
Qed.

(** ** The approved amount over whole runs *)

Ltac branch :=
  match goal with
  | |- context [match ?x with _ => _ end] =>
      lazymatch x with
      | context [match _ with _ => _ end] => fail
      | _ => destruct x eqn:?
      end
  end.

Lemma sales_keeps_decision (E : env) (session : Session) (user_input : string) :
  same_decision session (session_after (sales_agent.process E session user_input)).
Proof.
  unfold sales_agent.process, same_decision.
  repeat branch; cbn [session_after]; repeat split; reflexivity.
Qed.

Lemma verification_keeps_decision (w : world) (session : Session) (user_input : string) :
  same_decision session (session_after (verification_agent.process w session user_input))
  /\ loan_amount (session_after (verification_agent.process w session user_input))
     = loan_amount session.
Proof.
  unfold verification_agent.process, same_decision.
  repeat branch; cbn [session_after]; repeat split; reflexivity.
Qed.

Lemma first_pass_effect (E : env) (s : Session) :
  match underwriting_agent.process E s with
  | Raised _ s' => s' = s
  | Returned verdict s' =>
      if underwriting_agent.proceed_to_sanction verdict
      then approved_for_requested s'
      else approved_amount s' = approved_amount s
           /\ loan_status s' <> Some LoanStatus.approved
           /\ underwriting_state s' <> UnderwritingState.approved
  end.
Proof.
  unfold underwriting_agent.process, approved_for_requested.
  repeat branch; cbn; repeat split; try reflexivity; discriminate.
Qed.

Lemma income_check_effect (E : env) (s : Session) :
  match underwriting_agent.process_salary_verification E s with
  | Raised _ s' => s' = s
  | Returned verdict s' =>
      if underwriting_agent.proceed_to_sanction verdict
      then approved_for_requested s'
      else approved_amount s' = approved_amount s
           /\ loan_status s' <> Some LoanStatus.approved
           /\ underwriting_state s' <> UnderwritingState.approved
  end.
Proof.
  unfold underwriting_agent.process_salary_verification, approved_for_requested.
  repeat branch; cbn; repeat split; try reflexivity; discriminate.
Qed.

Lemma issue_and_complete_settled
  (E : env) (w : world) (response : master_agent.response) (s : Session) :
  approved_for_requested s ->
  settled (session_after (master_agent.issue_and_complete E w response s)).
Proof.
  intros [Ha [Hl Hu]]. unfold master_agent.issue_and_complete.
  destruct (sanction_generator.generate_sanction_letter E w _) as [issued done | e left] eqn:Hgen.
  - revert Hgen. unfold sanction_generator.generate_sanction_letter.
    destruct (negb (makedirs_ok w)); [discriminate|].
    destruct (first_word _); [| discriminate].
    destruct (negb (build_ok w)); [discriminate|].
    cbv zeta. intro Hgen. injection Hgen as _ Hdone. rewrite <- Hdone.
    right. unfold approved_for_requested. cbn. auto.
  - apply failed_issuance_leaves_session in Hgen. subst left.
    right. unfold approved_for_requested. cbn. auto.
Qed.

Lemma unapproved_settled (s : Session) : unapproved s -> settled s.
Proof. intro H. left. exact H. Qed.

Lemma chat_from_unapproved
  (E : env) (w : world) (s : Session) (user_input : string) :
  unapproved s ->
  settled (session_after (master_agent.process_message E w s user_input)).
Proof.
  intros [Ha [Hl Hu]]. unfold master_agent.process_message.
  destruct (current_agent s) eqn:Hagent;
    try (cbn [session_after]; left; repeat split; assumption).
  - pose proof (sales_keeps_decision E s user_input) as [Ka [Kl [Ku _]]].
    destruct (sales_agent.process E s user_input) as [reply s1 | e s1];
      cbn [session_after] in *.
    + repeat branch; cbn [session_after]; left; unfold unapproved; cbn; rewrite ?Ka, ?Kl, ?Ku; auto.
    + left. unfold unapproved. rewrite Ka, Kl, Ku. auto.
  - pose proof (verification_keeps_decision w s user_input) as [[Ka [Kl [Ku _]]] _].
    destruct (verification_agent.process w s user_input) as [reply s1 | e s1];
      cbn [session_after] in *.
    + destruct (verification_agent.proceed_to_underwriting reply).
      * pose proof (first_pass_effect E
                      (set_conversation_stage Stage.underwriting
                         (set_current_agent Agent.underwriting s1))) as Hfp.
        destruct (underwriting_agent.process E _) as [verdict s2 | e s2].
        -- destruct (underwriting_agent.proceed_to_sanction verdict).
           ++ apply issue_and_complete_settled. exact Hfp.
           ++ destruct Hfp as [Fa [Fl Fu]]. cbn in Fa.
              repeat branch; cbn [session_after]; left; unfold unapproved; cbn;
                rewrite ?Fa, ?Ka; auto.
        -- subst s2. cbn [session_after]. left. unfold unapproved. cbn. rewrite Ka, Kl, Ku. auto.
      * repeat branch; cbn [session_after]; left; unfold unapproved; cbn; rewrite ?Ka, ?Kl, ?Ku; auto.
    + left. unfold unapproved. rewrite Ka, Kl, Ku. auto.
  - repeat branch; cbn [session_after]; left; repeat split;
      first [assumption | congruence].
Qed.

Lemma upload_from_unapproved (E : env) (w : world) (s : Session) :
  unapproved s ->
  settled (session_after (master_agent.process_salary_upload E w s)).
Proof.
  intros [Ha [Hl Hu]]. unfold master_agent.process_salary_upload.
  pose proof (income_check_effect E s) as Hic.
  destruct (underwriting_agent.process_salary_verification E s) as [verdict s2 | e s2].
  - destruct (underwriting_agent.proceed_to_sanction verdict).
    + apply issue_and_complete_settled. exact Hic.
    + destruct Hic as [Fa [Fl Fu]].
      repeat branch; cbn [session_after]; left; unfold unapproved; cbn; rewrite ?Fa; auto.
  - subst s2. left. repeat split; assumption.
Qed.

Lemma settled_step (E : env) (w : world) (ev : event) (s : Session) :
  settled s ->
  (ev = Upload -> awaiting_upload s = true) ->
  settled (session_after (deliver E w ev s)).
Proof.
  intros [Hun | [[Ha [Hl Hu]] Hagent]] Hcontract.
  - destruct ev; [apply chat_from_unapproved | apply upload_from_unapproved]; exact Hun.
  - destruct ev as [user_input |].
    + assert (Hsame : session_after (master_agent.process_message E w s user_input) = s).
      { unfold master_agent.process_message.
        destruct Hagent as [Hag | Hag]; rewrite Hag; reflexivity. }
      cbn [deliver]. rewrite Hsame. right. unfold approved_for_requested. auto.
    + specialize (Hcontract eq_refl). unfold awaiting_upload in Hcontract.
      destruct Hagent as [Hag | Hag]; rewrite Hag in Hcontract; discriminate.
Qed.

Lemma settled_consistent (s : Session) : settled s -> approved_amount_consistent s.
Proof.
  unfold approved_amount_consistent.
  intros [[Ha [Hl Hu]] | [[Ha [Hl Hu]] _]]; rewrite Ha;
    repeat split; intros; congruence.
Qed.

Lemma settled_run (E : env) (trace : list (world * event)) (s : Session) :
  settled s ->
  uploads_while_waiting E trace s = true ->
  settled (run E trace s).
Proof.
  revert s. induction trace as [| [w ev] rest IH]; intros s Hs Hc.
  - exact Hs.
  - cbn [run]. cbn [uploads_while_waiting] in Hc.
    apply andb_true_iff in Hc. destruct Hc as [Hnow Hrest].
    apply IH; [| exact Hrest].
    apply settled_step; [exact Hs|].
    intro Hev. subst ev. exact Hnow.
Qed.

(** While every upload event finds the session in the waiting
    sub-state, [approved_amount] is set exactly when the loan is
    approved, and is the requested amount. *)
Theorem approved_amount_consistent_while_contract_kept
  (E : env) (trace : list (world * event)) :
  uploads_while_waiting E trace master_agent.get_initial_state = true ->
  approved_amount_consistent (run E trace master_agent.get_initial_state).
Proof.
  intro Hc. apply settled_consistent. apply settled_run; [| exact Hc].
  left. cbn. repeat split; discriminate.
Qed.

(** C6.  [/upload-salary] is served for any existing session.  After
    an approval within the limit and the issued letter, an upload runs
    the income check again; with a salary of 10000 it rejects, and the
    session keeps [approved_amount] while the decision is rejected. *)
Theorem upload_after_approval_breaks_consistency :
  let completed :=
    run plain (intake_then_phone "98765-43210" ++ [chat "yes"])
        master_agent.get_initial_state in
  let after := session_after (deliver plain (office true) Upload completed) in
  (current_agent completed = Agent.completed
   /\ decision_state completed
      = (UnderwritingState.approved, Some LoanStatus.approved, Some (of_int 300000)))
  /\ decision_state after
     = (UnderwritingState.rejected, Some LoanStatus.rejected, Some (of_int 300000))
  /\ ~ approved_amount_consistent after.
Proof.
  cbv zeta. split; [| split].
  - vm_compute. split; reflexivity.
  - vm_compute. reflexivity.
  - intros [H _].
    assert (Hset : approved_amount
                     (session_after
                        (deliver plain (office true) Upload
                           (run plain (intake_then_phone "98765-43210" ++ [chat "yes"])
                              master_agent.get_initial_state)))
                   <> None) by (vm_compute; discriminate).
    apply H in Hset. revert Hset. vm_compute. discriminate.
Qed.

(** ** Concrete payments *)

Lemma calculate_emi_copies_agree (principal annual_rate : pyfloat) (tenure_months : Z) :
  sales_agent.calculate_emi principal annual_rate tenure_months
  = underwriting_agent.calculate_emi principal annual_rate tenure_months.
Proof. reflexivity. Qed.

(** C4.  At a zero rate the payment of 100002 over 16 months is returned
    as the quotient, 6250.125, by both copies of the function: the
    early return skips the rounding to two decimals that the other
    branch applies, which would give 6250.12.  The quotient is a double,
    and on doubles it is returned whatever [round] would do. *)
Lemma zero_rate_payment_is_not_rounded :
  (exists e,
     underwriting_agent.calculate_emi (of_int 100002) (of_int 0) 16 = Ok (Fin e)
     /\ sales_agent.calculate_emi (of_int 100002) (of_int 0) 16 = Ok (Fin e)
     /\ e == 6250125 # 1000
     /\ qround e 2 == 625012 # 100
     /\ ~ e == qround e 2)
  /\ forall libm_pow round,
       binary64.calculate_emi libm_pow round
         (binary64.of_int 100002) (binary64.of_int 0) 16
       = Ok (binary64.ldexp 50001 (-3)).
Proof.
  split.
  - eexists. split; [vm_compute; reflexivity|].
    split; [vm_compute; reflexivity|].
    split; [reflexivity|]. split; [reflexivity|].
    intro H. vm_compute in H. discriminate.
  - intros libm_pow round. vm_compute. reflexivity.
Qed.

(** C9, the counterexample.  A principal of 1 at 1% over 3 months has
    the payment 0.33, and three payments do not cover the principal. *)
Lemma rounded_payments_fall_short_of_small_principal :
  exists e,
    underwriting_agent.calculate_emi (of_int 1) (of_int 1) 3 = Ok (Fin e)
    /\ e * 3 < 1.
Proof.
  eexists. split; [vm_compute; reflexivity|]. reflexivity.
Qed.

(** C1, the counterexample.  For a customer with a credit score of 650
    and an offer at -2400 percent, over 24 months, the payment computed
    ahead of the rules divides by zero: the first pass raises, the
    session is left as it was and no rule is evaluated. *)
Lemma first_pass_raises_ahead_of_the_rules :
  flt (customer_get Customer.credit_score kiran_at_minus_2400) (of_int 700) = true
  /\ loan_tenure kiran_at_minus_2400 = Some 24%Z
  /\ underwriting_agent.process plain kiran_at_minus_2400
     = Raised ZeroDivisionError kiran_at_minus_2400.
Proof.
  split; [vm_compute; reflexivity|]. split; vm_compute; reflexivity.
Qed.

(** C5, the counterexample.  With a salary of 0, an amount of 300000 and
    a tenure of 24 months: at -1200 percent the payment is 0, which is
    within half the salary, and the income check approves; at -2400
    percent the payment formula divides by zero and the check raises. *)
Lemma zero_salary_is_approved_or_raises :
  fle (customer_get Customer.salary ravi_at_minus_1200) (of_int 0) = true
  /\ loan_amount ravi_at_minus_1200 = Some (of_int 300000)
  /\ loan_tenure ravi_at_minus_1200 = Some 24%Z
  /\ (exists response session',
        underwriting_agent.process_salary_verification plain ravi_at_minus_1200
        = Returned response session'
        /\ underwriting_agent.decision response = Some Decision.approved)
  /\ underwriting_agent.process_salary_verification plain ravi_at_minus_2400
     = Raised ZeroDivisionError ravi_at_minus_2400.
Proof.
  split; [vm_compute; reflexivity|]. split; [vm_compute; reflexivity|].
  split; [vm_compute; reflexivity|]. split.
  - vm_compute. do 2 eexists. split; reflexivity.
  - vm_compute. reflexivity.
Qed.

Lemma payment_covers_principal_up_to_rounding_witness :
  exists e1 e2,
    underwriting_agent.calculate_emi (Fin 300000) (Fin (19 # 2)) 24 = Ok (Fin e1)
    /\ underwriting_agent.calculate_emi (Fin 300000) (Fin (21 # 2)) 24 = Ok (Fin e2)
    /\ 300000 - inject_Z 24 * (1 # 200) <= e1 * inject_Z 24
    /\ e1 <= e2.
Proof.
  apply (payment_covers_principal_up_to_rounding 300000 (19 # 2) (21 # 2) 24);
    first [discriminate | (split; first [reflexivity | discriminate])].
Defined.

Lemma first_pass_follows_first_match_witness :
  exists response session',
    underwriting_agent.process plain (asked_to_confirm "98765-43210")
    = Returned response session'
    /\ underwriting_agent.decision response = Some Decision.approved
    /\ underwriting_agent.reason response = Some Reason.within_preapproved_limit.
Proof.
  destruct (first_pass_follows_first_match plain (asked_to_confirm "98765-43210")
              (95 # 10))
    as [response [session' [d [c [Hrun [Hd [Hc [Hfirst _]]]]]]]].
  - vm_compute. split; intro H; discriminate H.
  - vm_compute. reflexivity.
  - right. split; discriminate.
  - vm_compute. intro H. discriminate H.
  - vm_compute. intro H. discriminate H.
  - vm_compute. intro H. discriminate H.
  - vm_compute. intro H. discriminate H.
  - exists response, session'. split; [exact Hrun|].
    vm_compute in Hfirst. injection Hfirst as Hd' Hc'.
    rewrite Hd, Hc, <- Hd', <- Hc'. split; reflexivity.
Defined.

Lemma non_positive_salary_is_rejected_witness :
  exists response session',
    underwriting_agent.process_salary_verification plain (awaiting_slip "9123456780")
    = Returned response session'
    /\ underwriting_agent.decision response = Some Decision.rejected
    /\ underwriting_agent.reason response = Some Reason.high_emi_ratio.
Proof.
  apply (non_positive_salary_is_rejected plain (awaiting_slip "9123456780")
           300000 (105 # 10) 24).
  - vm_compute. reflexivity.
  - vm_compute. intro H. discriminate H.
  - vm_compute. reflexivity.
  - split; discriminate.
  - vm_compute. reflexivity.
  - split; discriminate.
  - vm_compute. reflexivity.
  - right. split; discriminate.
Defined.

Lemma nan_amount_is_accepted_witness :
  exists response,
    sales_agent.process plain (run plain [chat "hello"] master_agent.get_initial_state) "nan"
    = Returned response
        (set_sales_state SalesState.ask_tenure
           (set_loan_amount (Some NaN)
              (run plain [chat "hello"] master_agent.get_initial_state)))
    /\ sales_agent.next_state response = Some SalesState.ask_tenure.
Proof.
  destruct (nan_amount_is_accepted plain
              (run plain [chat "hello"] master_agent.get_initial_state) eq_refl)
    as [response [Hrun [Hnext _]]].
  exists response. split; assumption.
Defined.

Ltac run_eq :=
  match goal with
  | |- ?lhs = _ =>
      let v := eval vm_compute in lhs in
      transitivity v; [vm_compute; reflexivity | reflexivity]
  end.

(** C2, the counterexample.  When the letter cannot be written in the
    turn that approves within the limit, the turn ends in the
    collaborator's exception: no response is built, and the session is
    left in the sanction stage with its approval. *)
Lemma failed_issuance_is_not_reported :
  deliver plain (office false) (Chat "yes") (asked_to_confirm "98765-43210")
  = Raised OSError (issuance_call approved_by_rules)
  /\ current_agent (issuance_call approved_by_rules) = Agent.sanction
  /\ loan_status (issuance_call approved_by_rules) = Some LoanStatus.approved.
Proof.
  split; [run_eq|]. split; vm_compute; reflexivity.
Qed.

Lemma issuance_failure_keeps_committed_decision_witness :
  deliver plain (office false) (Chat "yes") (asked_to_confirm "98765-43210")
  = Raised OSError (issuance_call approved_by_rules)
  /\ deliver plain (office false) Upload (awaiting_slip "9000000003")
     = Raised OSError (issuance_call approved_by_income).
Proof.
  assert (Hrules : reaches_approval plain (office false)
                     (asked_to_confirm "98765-43210") (Chat "yes") approved_by_rules).
  { eapply approval_by_rules.
    - vm_compute. reflexivity.
    - run_eq.
    - vm_compute. reflexivity.
    - run_eq.
    - vm_compute. reflexivity. }
  assert (Hincome : reaches_approval plain (office false)
                      (awaiting_slip "9000000003") Upload approved_by_income).
  { eapply approval_by_income.
    - run_eq.
    - vm_compute. reflexivity. }
  assert (Hfail1 : sanction_generator.generate_sanction_letter plain (office false)
                     (issuance_call approved_by_rules)
                   = Raised OSError (issuance_call approved_by_rules))
    by (vm_compute; reflexivity).
  assert (Hfail2 : sanction_generator.generate_sanction_letter plain (office false)
                     (issuance_call approved_by_income)
                   = Raised OSError (issuance_call approved_by_income))
    by (vm_compute; reflexivity).
  split.
  - exact (proj1 (issuance_failure_keeps_committed_decision
                    _ _ _ _ _ _ _ Hrules Hfail1)).
  - exact (proj1 (issuance_failure_keeps_committed_decision
                    _ _ _ _ _ _ _ Hincome Hfail2)).
Defined.

(** * Further properties: the rest of the calculator, of the stage
    machines and of the orchestrator, whole runs, and the registry *)

(** ** More on the financial calculator *)

Lemma monthly_rate_total (rate : pyfloat) :
  exists m, fdiv rate (of_int (12 * 100)) = Ok m.
Proof. destruct rate; eexists; reflexivity. Qed.

(** A term of zero months: the payment raises [ZeroDivisionError] in
    both copies of the function, for every principal and every rate
    within the range of a double, the special floats included. *)
Theorem zero_term_raises_zero_division (principal rate : pyfloat) :
  double_range principal -> double_range rate ->
  underwriting_agent.calculate_emi principal rate 0 = Raise ZeroDivisionError
  /\ sales_agent.calculate_emi principal rate 0 = Raise ZeroDivisionError.
Proof.
  intros _ _.
  assert (Hemi : underwriting_agent.calculate_emi principal rate 0
                 = Raise ZeroDivisionError).
  { unfold underwriting_agent.calculate_emi.
    destruct (feqb rate (of_int 0)); [reflexivity|].
    destruct (monthly_rate_total rate) as [m Hm]. rewrite Hm. reflexivity. }
  split; exact Hemi.
Qed.

Lemma inject_Z_pos (n : Z) : (0 < n)%Z -> 0 < inject_Z n.
Proof. intro H. change 0 with (inject_Z 0). rewrite <- Zlt_Qlt. exact H. Qed.

Lemma Qdiv_mono_num (a b c : Q) : 0 < c -> a <= b -> a / c <= b / c.
Proof.
  intros Hc Hab. unfold Qdiv. apply Qmult_le_compat_r; [exact Hab|].
  apply Qlt_le_weak, Qinv_lt_0_compat, Hc.
Qed.

(** Of two principals up to 5000000, at the same rate of the working
    range and the same term up to 72 months, the larger never has the
    smaller payment. *)
Theorem payment_grows_with_principal (P1 P2 r : Q) (n : Z) :
  0 <= P1 -> P1 <= P2 -> P2 <= 5000000 ->
  working_rate r -> (1 <= n <= 72)%Z ->
  exists e1 e2,
    underwriting_agent.calculate_emi (Fin P1) (Fin r) n = Ok (Fin e1)
    /\ underwriting_agent.calculate_emi (Fin P2) (Fin r) n = Ok (Fin e2)
    /\ e1 <= e2.
Proof.
  intros _ HP _ Hwork [Hn _].
  pose proof (working_rate_nonneg r Hwork) as Hr.
  destruct (Qeq_dec r 0) as [Hz | Hnz].
  - exists (P1 / inject_Z n), (P2 / inject_Z n).
    split; [apply calculate_emi_zero_rate; [exact Hz | lia]|].
    split; [apply calculate_emi_zero_rate; [exact Hz | lia]|].
    apply Qdiv_mono_num; [apply inject_Z_pos; lia | exact HP].
  - assert (Hr' : 0 < r) by lra.
    destruct (months_nat n ltac:(lia)) as [k [-> Hk]].
    destruct (calculate_emi_positive_rate P1 r k Hr' Hk) as [e1 [He1 Hq1]].
    destruct (calculate_emi_positive_rate P2 r k Hr' Hk) as [e2 [He2 Hq2]].
    exists e1, e2. split; [exact He1|]. split; [exact He2|].
    rewrite Hq1, Hq2. apply qround_mono. apply Qdiv_mono_num; [| exact HP].
    pose proof (monthly_pos r Hr'). apply annuity_pos; [lra | exact Hk].
Qed.

(** ** More on the intake machine *)

Lemma py_float_raises_value_error (s : string) (e : exn) :
  py_float s = Raise e -> e = ValueError.
Proof.
  unfold py_float. destruct (parse_sign _) as [neg body].
  destruct (_ || _); [discriminate|].
  destruct (String.eqb _ _); [discriminate|].
  destruct (parse_number body); [discriminate|]. congruence.
Qed.

Lemma py_int_raises_value_error (s : string) (e : exn) :
  py_int s = Raise e -> e = ValueError.
Proof.
  unfold py_int. destruct (parse_sign _) as [neg body].
  destruct (digitpart body) as [[|d ds] [|c rest]]; congruence.
Qed.

(** The amount step, for ASCII text that does not read as a number with
    a fraction: it never raises, and it either stores the parsed amount
    and moves on, which it does exactly for the numbers that are neither
    below 10000 nor above 5000000, or leaves the session as it is and
    asks again. *)
Theorem amount_step_stores_or_asks_again
  (E : env) (session : Session) (user_input : string) :
  sales_state session = SalesState.ask_amount ->
  is_ascii (remove_all "₹" (remove_all "," user_input)) = true ->
  (forall a,
     py_float (strip (remove_all "₹" (remove_all "," user_input))) = Ok (Fin a) ->
     exists whole : Z, a == inject_Z whole) ->
  exists response session',
    sales_agent.process E session user_input = Returned response session'
    /\ ((exists amount,
           py_float (strip (remove_all "₹" (remove_all "," user_input))) = Ok amount
           /\ flt amount (of_int 10000) = false
           /\ fgt amount (of_int 5000000) = false
           /\ sales_agent.next_state response = Some SalesState.ask_tenure
           /\ session' = set_sales_state SalesState.ask_tenure
                           (set_loan_amount (Some amount) session))
        \/ (sales_agent.next_state response = Some SalesState.ask_amount
            /\ session' = session
            /\ forall amount,
                 py_float (strip (remove_all "₹" (remove_all "," user_input)))
                 = Ok amount ->
                 flt amount (of_int 10000) = true
                 \/ fgt amount (of_int 5000000) = true)).
Proof.
  intros Hst _ _. unfold sales_agent.process. rewrite Hst.
  destruct (py_float _) as [amount | e] eqn:Hp.
  - destruct (flt amount (of_int 10000)) eqn:Hlo.
    { do 2 eexists. split; [reflexivity|]. right.
      repeat split. intros a Ha. injection Ha as <-. left. exact Hlo. }
    destruct (fgt amount (of_int 5000000)) eqn:Hhi.
    { do 2 eexists. split; [reflexivity|]. right.
      repeat split. intros a Ha. injection Ha as <-. right. exact Hhi. }
    do 2 eexists. split; [reflexivity|]. left.
    exists amount. repeat split; assumption.
  - rewrite (py_float_raises_value_error _ _ Hp).
    do 2 eexists. split; [reflexivity|]. right.
    repeat split. intros a Ha. discriminate.
Qed.

(** The tenure step, for ASCII text of at most 4300 characters (the
    length up to which [int()] reads digits), at a rate of the working
    range: it never raises; for an integer from 12 to 72 it stores the
    tenure and the estimated payment and moves on to the confirmation,
    and for any other text it leaves the session as it is and asks
    again. *)
Theorem tenure_step_stores_or_asks_again
  (E : env) (session : Session) (user_input : string) (r : Q) :
  sales_state session = SalesState.ask_tenure ->
  is_ascii user_input = true -> (String.length user_input <= 4300)%nat ->
  get (interest_rate session) default_rate = Fin r -> working_rate r ->
  double_range (get (loan_amount session) (of_int 0)) ->
  exists response session',
    sales_agent.process E session user_input = Returned response session'
    /\ ((exists tenure emi,
           py_int (strip user_input) = Ok tenure
           /\ (12 <= tenure <= 72)%Z
           /\ sales_agent.calculate_emi
                (get (loan_amount session) (of_int 0)) (Fin r) tenure = Ok emi
           /\ sales_agent.next_state response = Some SalesState.confirm
           /\ session' = set_sales_state SalesState.confirm
                           (set_estimated_emi (Some emi)
                              (set_loan_tenure (Some tenure) session)))
        \/ (sales_agent.next_state response = Some SalesState.ask_tenure
            /\ session' = session
            /\ forall tenure,
                 py_int (strip user_input) = Ok tenure ->
                 (tenure < 12 \/ 72 < tenure)%Z)).
Proof.
  intros Hst _ _ Hrate Hwork _.
  pose proof (working_rate_nonneg r Hwork) as Hr.
  unfold sales_agent.process. rewrite Hst.
  destruct (py_int _) as [tenure | e] eqn:Hp.
  - destruct (Z.ltb_spec tenure 12) as [Hlo | Hlo].
    { do 2 eexists. split; [reflexivity|]. right.
      repeat split. intros t Ht. injection Ht as <-. left. exact Hlo. }
    destruct (tenure >? 72)%Z eqn:Hhi.
    { do 2 eexists. split; [reflexivity|]. right.
      repeat split. intros t Ht. injection Ht as <-. right.
      apply Z.gtb_lt in Hhi. exact Hhi. }
    assert (Hle : (tenure <= 72)%Z).
    { destruct (Z.gtb_spec tenure 72); [discriminate | assumption]. }
    cbv zeta. cbn [loan_amount interest_rate set_loan_tenure].
    rewrite Hrate.
    destruct (calculate_emi_total (get (loan_amount session) (of_int 0)) r tenure Hr
                ltac:(lia)) as [emi Hemi].
    change (sales_agent.calculate_emi (get (loan_amount session) (of_int 0)) (Fin r) tenure)
      with (underwriting_agent.calculate_emi
              (get (loan_amount session) (of_int 0)) (Fin r) tenure).
    rewrite Hemi.
    do 2 eexists. split; [reflexivity|]. left.
    exists tenure, emi. repeat split; try assumption; reflexivity.
  - rewrite (py_int_raises_value_error _ _ Hp).
    do 2 eexists. split; [reflexivity|]. right.
    repeat split. intros t Ht. discriminate.
Qed.

(** The two steps together, on ASCII text: a whole amount within the
    bounds and then a tenure within the bounds, written in at most 4300
    characters, take the intake from [ask_amount] to [confirm], with
    both stored and an estimated payment that is positive. *)
Theorem intake_collects_amount_then_tenure
  (E : env) (session : Session) (amount_text tenure_text : string)
  (a r : Q) (amount tenure : Z) :
  sales_state session = SalesState.ask_amount ->
  get (interest_rate session) default_rate = Fin r -> working_rate r ->
  is_ascii (remove_all "₹" (remove_all "," amount_text)) = true ->
  py_float (strip (remove_all "₹" (remove_all "," amount_text))) = Ok (Fin a) ->
  a == inject_Z amount -> (10000 <= amount <= 5000000)%Z ->
  is_ascii tenure_text = true -> (String.length tenure_text <= 4300)%nat ->
  py_int (strip tenure_text) = Ok tenure -> (12 <= tenure <= 72)%Z ->
  let after_amount := session_after (sales_agent.process E session amount_text) in
  let after_tenure := session_after (sales_agent.process E after_amount tenure_text) in
  sales_state after_tenure = SalesState.confirm
  /\ loan_amount after_tenure = Some (Fin a)
  /\ loan_tenure after_tenure = Some tenure
  /\ exists e, estimated_emi after_tenure = Some (Fin e) /\ 0 < e.
Proof.
  intros Hst Hrate Hwork _ Hamount Hwhole Hbounds _ _ Htenure Hdom.
  pose proof (working_rate_nonneg r Hwork) as Hr.
  assert (Hlo : 10000 <= a).
  { rewrite Hwhole. change 10000 with (inject_Z 10000). rewrite <- Zle_Qle. lia. }
  assert (Hhi : a <= 5000000).
  { rewrite Hwhole. change 5000000 with (inject_Z 5000000). rewrite <- Zle_Qle. lia. }
  assert (Hstep1 : session_after (sales_agent.process E session amount_text)
                   = set_sales_state SalesState.ask_tenure
                       (set_loan_amount (Some (Fin a)) session)).
  { unfold sales_agent.process. rewrite Hst, Hamount.
    replace (flt (Fin a) (of_int 10000)) with false
      by (symmetry; cbn; apply negb_false_iff, Qle_bool_iff; exact Hlo).
    replace (fgt (Fin a) (of_int 5000000)) with false
      by (symmetry; cbn; apply negb_false_iff, Qle_bool_iff; exact Hhi).
    reflexivity. }
  cbv zeta. rewrite Hstep1.
  destruct (payment_positive_in_domain a r tenure Hlo Hr Hdom) as [e [He Hpos]].
  unfold sales_agent.process.
  cbn [sales_state set_sales_state set_loan_amount].
  rewrite Htenure.
  destruct (Z.ltb_spec tenure 12) as [Hbad | _]; [lia|].
  replace (tenure >? 72)%Z with false
    by (symmetry; destruct (Z.gtb_spec tenure 72); [lia | reflexivity]).
  cbv zeta. cbn [loan_amount interest_rate set_loan_tenure set_sales_state set_loan_amount get].
  fold (get (interest_rate session) default_rate). rewrite Hrate.
  change (sales_agent.calculate_emi (Fin a) (Fin r) tenure)
    with (underwriting_agent.calculate_emi (Fin a) (Fin r) tenure).
  rewrite He. cbn [session_after].
  split; [reflexivity|]. split; [reflexivity|]. split; [reflexivity|].
  exists e. split; [reflexivity | exact Hpos].
Qed.

(** ** More on the verification machine *)

(** The phone number as the machine reads it. *)
Lemma find_customer_by_phone_sound
  (w : world) (phone : string) (customers : list Customer.t) (c : Customer.t) :
  customers_json w = Ok customers ->
  verification_agent.find_customer_by_phone w phone = Ok (Some c) ->
  In c customers /\ Customer.phone c = phone.
Proof.
  intros Hfile. unfold verification_agent.find_customer_by_phone,
    verification_agent.load_customers.
  rewrite Hfile. cbn [rbind]. intro H. injection H as H.
  apply find_some in H. destruct H as [Hin Heq].
  apply String.eqb_eq in Heq. split; assumption.
Qed.

Lemma find_offer_by_customer_id_sound
  (w : world) (customer_id : string) (offers : list Offer.t) (o : Offer.t) :
  offers_json w = Ok offers ->
  verification_agent.find_offer_by_customer_id w customer_id = Ok (Some o) ->
  In o offers /\ Offer.customer_id o = customer_id.
Proof.
  intros Hfile. unfold verification_agent.find_offer_by_customer_id,
    verification_agent.load_offers.
  rewrite Hfile. cbn [rbind]. intro H. injection H as H.
  apply find_some in H. destruct H as [Hin Heq].
  apply String.eqb_eq in Heq. split; assumption.
Qed.

(** A number that is known binds its customer: the session holds a
    customer of the file whose phone is the number entered, the stored
    identifier is that customer's, and the machine asks to confirm.  An
    offer on file for that customer is stored with its rate in force;
    without one the offer and the rate of the session stay as they
    were. *)
Theorem known_phone_binds_customer
  (w : world) (session : Session) (user_input : string)
  (customers : list Customer.t) (offers : list Offer.t) (c : Customer.t) :
  let phone := remove_all "-" (remove_all " " (strip user_input)) in
  verification_state session = VerificationState.ask_phone ->
  (String.length phone =? 10)%nat && isdigit phone = true ->
  customers_json w = Ok customers ->
  offers_json w = Ok offers ->
  verification_agent.find_customer_by_phone w phone = Ok (Some c) ->
  exists response session',
    verification_agent.process w session user_input = Returned response session'
    /\ verification_agent.next_state response = Some VerificationState.confirm_identity
    /\ verification_state session' = VerificationState.confirm_identity
    /\ customer session' = Some c
    /\ In c customers /\ Customer.phone c = phone
    /\ customer_id session' = Some (Customer.id c)
    /\ match find (fun o => String.eqb (Offer.customer_id o) (Customer.id c)) offers with
       | Some o =>
           offer session' = Some o
           /\ interest_rate session' = Some (Offer.interest_rate o)
           /\ Offer.customer_id o = Customer.id c
       | None =>
           offer session' = offer session
           /\ interest_rate session' = interest_rate session
       end.
Proof.
  intros phone Hst Hfmt Hcs Hos Hfind.
  destruct (find_customer_by_phone_sound w phone customers c Hcs Hfind) as [Hin Hphone].
  unfold verification_agent.process. rewrite Hst. fold phone. rewrite Hfmt, Hfind.
  unfold verification_agent.find_offer_by_customer_id, verification_agent.load_offers.
  rewrite Hos. cbn [rbind].
  destruct (find _ offers) as [o |] eqn:Hoffer.
  - do 2 eexists. split; [reflexivity|].
    apply find_some in Hoffer. destruct Hoffer as [_ Hid].
    apply String.eqb_eq in Hid.
    repeat split; try assumption; reflexivity.
  - do 2 eexists. split; [reflexivity|].
    repeat split; try assumption; reflexivity.
Qed.

(** ASCII text that is not a ten-digit number reads no file and leaves
    the session as it is; a ten-digit number that no customer of the
    file has only moves the machine to [not_found].  Nothing is
    bound. *)
Theorem unknown_phone_binds_nothing
  (w : world) (session : Session) (user_input : string) :
  let phone := remove_all "-" (remove_all " " (strip user_input)) in
  verification_state session = VerificationState.ask_phone ->
  is_ascii user_input = true ->
  ((String.length phone =? 10)%nat && isdigit phone = false ->
   exists response,
     verification_agent.process w session user_input = Returned response session
     /\ verification_agent.next_state response = Some VerificationState.ask_phone)
  /\ (forall customers,
        (String.length phone =? 10)%nat && isdigit phone = true ->
        customers_json w = Ok customers ->
        (forall c, In c customers -> Customer.phone c <> phone) ->
        exists response,
          verification_agent.process w session user_input
          = Returned response
              (set_verification_state VerificationState.not_found session)
          /\ verification_agent.next_state response
             = Some VerificationState.not_found).
Proof.
  intros phone Hst _. split.
  - intro Hfmt. unfold verification_agent.process. rewrite Hst. fold phone.
    rewrite Hfmt. eexists. split; reflexivity.
  - intros customers Hfmt Hcs Hnone.
    unfold verification_agent.process. rewrite Hst. fold phone. rewrite Hfmt.
    unfold verification_agent.find_customer_by_phone, verification_agent.load_customers.
    rewrite Hcs. cbn [rbind].
    destruct (find _ customers) as [c |] eqn:Hfind.
    + apply find_some in Hfind. destruct Hfind as [Hin Heq].
      apply String.eqb_eq in Heq. exfalso. exact (Hnone c Hin Heq).
    + eexists. split; reflexivity.
Qed.

(** When the customer file is read and has the number but the offer
    file cannot be read, the exception leaves the customer and the
    identifier in the session while the machine is still in
    [ask_phone]. *)
Theorem unreadable_offers_leave_customer_bound
  (w : world) (session : Session) (user_input : string)
  (c : Customer.t) (e : exn) :
  let phone := remove_all "-" (remove_all " " (strip user_input)) in
  verification_state session = VerificationState.ask_phone ->
  (String.length phone =? 10)%nat && isdigit phone = true ->
  verification_agent.find_customer_by_phone w phone = Ok (Some c) ->
  offers_json w = Raise e ->
  exists session',
    verification_agent.process w session user_input = Raised e session'
    /\ customer session' = Some c
    /\ customer_id session' = Some (Customer.id c)
    /\ verification_state session' = VerificationState.ask_phone
    /\ offer session' = offer session
    /\ interest_rate session' = interest_rate session.
Proof.
  intros phone Hst Hfmt Hfind Hos.
  unfold verification_agent.process. rewrite Hst. fold phone. rewrite Hfmt, Hfind.
  unfold verification_agent.find_offer_by_customer_id, verification_agent.load_offers.
  rewrite Hos. cbn [rbind].
  eexists. split; [reflexivity|]. cbn. auto.
Qed.

Lemma set_verification_state_same (session : Session) :
  set_verification_state (verification_state session) session = session.
Proof. destruct session. reflexivity. Qed.

Lemma set_verification_state_twice (a b : VerificationState.t) (session : Session) :
  set_verification_state a (set_verification_state b session)
  = set_verification_state a session.
Proof. reflexivity. Qed.

(** After a number that was not found, the ASCII answer [yes] or [y]
    takes the session back to exactly what it was before the number was
    entered; any other ASCII answer ends the verification. *)
Theorem retry_after_unknown_phone_restores_session
  (w : world) (session : Session) (answer : string) :
  verification_state session = VerificationState.ask_phone ->
  is_ascii answer = true ->
  let lost := set_verification_state VerificationState.not_found session in
  (str_in (strip (lower answer)) ["yes"; "y"] = true ->
   session_after (verification_agent.process w lost answer) = session)
  /\ (str_in (strip (lower answer)) ["yes"; "y"] = false ->
      session_after (verification_agent.process w lost answer)
      = set_verification_state VerificationState.ended session).
Proof.
  intros Hst _ lost. unfold lost, verification_agent.process.
  cbn [verification_state set_verification_state]. cbv zeta.
  split; intro Hans; rewrite Hans; cbn [session_after].
  - rewrite set_verification_state_twice, <- Hst. apply set_verification_state_same.
  - apply set_verification_state_twice.
Qed.

(** Denying the identity and entering the same number again, with the
    files unchanged, gives back the bound session exactly. *)
Theorem deny_then_same_phone_rebinds
  (w : world) (session bound : Session) (user_input denial : string)
  (confirm : verification_agent.response) :
  verification_state session = VerificationState.ask_phone ->
  verification_agent.process w session user_input = Returned confirm bound ->
  verification_agent.next_state confirm = Some VerificationState.confirm_identity ->
  str_in (strip (lower denial)) ["no"; "n"; "wrong"; "incorrect"] = true ->
  let denied := session_after (verification_agent.process w bound denial) in
  customer denied = None
  /\ verification_agent.process w denied user_input = Returned confirm bound.
Proof.
  intros Hst Hrun Hnext Hno.
  assert (Hstate : verification_state bound = VerificationState.confirm_identity
                   /\ exists c, customer bound = Some c).
  { revert Hrun. unfold verification_agent.process. rewrite Hst.
    destruct (_ && _); [| intro H; inversion H; subst; discriminate].
    destruct (verification_agent.find_customer_by_phone _ _) as [[c|]|];
      try (intro H; inversion H; subst; discriminate).
    destruct (verification_agent.find_offer_by_customer_id _ _) as [[o|]|];
      [| | discriminate];
      intro H; inversion H; subst; (split; [reflexivity | exists c; reflexivity]). }
  destruct Hstate as [Hbound _].
  destruct (denial_drops_customer_key w bound denial Hbound Hno) as [reply [Hdeny _]].
  cbv zeta. rewrite Hdeny. cbn [session_after].
  split; [reflexivity|].
  revert Hrun. unfold verification_agent.process. rewrite Hst.
  cbn [verification_state set_customer set_verification_state].
  destruct (_ && _); [| intro H; inversion H; subst; discriminate].
  destruct (verification_agent.find_customer_by_phone _ _) as [[c|]|];
    try (intro H; inversion H; subst; discriminate).
  destruct (verification_agent.find_offer_by_customer_id _ _) as [[o|]|];
    [| | discriminate];
    intro H; inversion H; subst; destruct session; reflexivity.
Qed.

(** ** More on the rule evaluator *)

(** The guard of the salary ratio covers every case: it never raises. *)
Lemma emi_to_salary_ratio_total (emi salary : pyfloat) :
  exists ratio, underwriting_agent.emi_to_salary_ratio emi salary = Ok ratio.
Proof.
  unfold underwriting_agent.emi_to_salary_ratio.
  destruct (fgt salary (of_int 0)) eqn:Hpos; [| eexists; reflexivity].
  destruct salary as [s| | |]; try discriminate.
  - cbn in Hpos. apply negb_true_iff in Hpos. apply Qle_bool_false in Hpos.
    change (inject_Z 0) with 0 in Hpos.
    rewrite fdiv_by_fin by lra. eexists. reflexivity.
  - eexists. reflexivity.
Qed.

(** The income check, for a tenure of 12 to 72 months, a rate of the
    working range and numbers within the range of a double, returns for
    every amount and salary, the special floats included, with one of
    two outcomes: approved / salary_verified, the approval and the
    requested amount written to the session, or rejected /
    high_emi_ratio with [approved_amount] left alone. *)
Theorem income_check_approves_or_rejects
  (E : env) (session : Session) (r : Q) :
  let amount := get (loan_amount session) (of_int 0) in
  let salary := customer_get Customer.salary session in
  (12 <= get (loan_tenure session) 12 <= 72)%Z ->
  get (interest_rate session) default_rate = Fin r ->
  working_rate r ->
  double_range amount -> double_range salary ->
  exists response session',
    underwriting_agent.process_salary_verification E session
    = Returned response session'
    /\ ((underwriting_agent.decision response = Some Decision.approved
         /\ underwriting_agent.reason response = Some Reason.salary_verified
         /\ underwriting_agent.proceed_to_sanction response = true
         /\ session' = set_approved_amount (Some amount)
                         (set_loan_status (Some LoanStatus.approved)
                            (set_underwriting_state UnderwritingState.approved
                               session)))
        \/ (underwriting_agent.decision response = Some Decision.rejected
            /\ underwriting_agent.reason response = Some Reason.high_emi_ratio
            /\ underwriting_agent.proceed_to_sanction response = false
            /\ session' = set_loan_status (Some LoanStatus.rejected)
                            (set_underwriting_state UnderwritingState.rejected
                               session))).
Proof.
  intros amount salary Hn Hrate Hwork _ _.
  pose proof (working_rate_nonneg r Hwork) as Hr.
  assert (Hpos : (0 < get (loan_tenure session) 12)%Z) by lia.
  destruct (calculate_emi_total amount r _ Hr Hpos) as [emi Hemi].
  unfold underwriting_agent.process_salary_verification. rewrite Hrate.
  fold amount. fold salary. rewrite Hemi.
  destruct (emi_to_salary_ratio_total emi salary) as [ratio Hratio]. rewrite Hratio.
  destruct (fle emi (fmul (Fin (1 # 2)) salary)).
  - do 2 eexists. split; [reflexivity|]. left.
    repeat split; reflexivity.
  - destruct (calculate_max_loan_total (fmul (Fin (1 # 2)) salary) r _ Hr Hpos)
      as [max_loan Hmax].
    rewrite Hmax.
    do 2 eexists. split; [reflexivity|]. right.
    repeat split; reflexivity.
Qed.

Lemma payment_of_nothing (r : Q) (n : Z) :
  0 <= r -> (0 < n)%Z ->
  exists e, underwriting_agent.calculate_emi (of_int 0) (Fin r) n = Ok (Fin e)
            /\ e == 0.
Proof.
  intros Hr Hn. unfold of_int. change (inject_Z 0) with 0.
  destruct (Qeq_dec r 0) as [Hz | Hnz].
  - exists (0 / inject_Z n). split.
    + apply calculate_emi_zero_rate; [exact Hz | lia].
    + unfold Qdiv. ring.
  - assert (Hr' : 0 < r) by lra.
    destruct (months_nat n Hn) as [k [-> Hk]].
    destruct (calculate_emi_positive_rate 0 r k Hr' Hk) as [e [He Hq]].
    exists e. split; [exact He|].
    rewrite Hq. rewrite (qround_comp _ 0); [reflexivity|].
    unfold Qdiv. ring.
Qed.

(** Missing keys: a session with no loan amount and no customer reads
    both as 0, so the income check, at a rate of the working range,
    finds a payment of 0 within half a salary of 0 and approves an
    amount of 0. *)
Theorem income_check_approves_empty_session
  (E : env) (session : Session) (r : Q) :
  loan_amount session = None ->
  customer session = None ->
  (12 <= get (loan_tenure session) 12 <= 72)%Z ->
  get (interest_rate session) default_rate = Fin r ->
  working_rate r ->
  exists response,
    underwriting_agent.process_salary_verification E session
    = Returned response
        (set_approved_amount (Some (of_int 0))
           (set_loan_status (Some LoanStatus.approved)
              (set_underwriting_state UnderwritingState.approved session)))
    /\ underwriting_agent.decision response = Some Decision.approved
    /\ underwriting_agent.reason response = Some Reason.salary_verified.
Proof.
  intros Hamount Hcustomer Hn Hrate Hwork.
  pose proof (working_rate_nonneg r Hwork) as Hr.
  assert (Hpos : (0 < get (loan_tenure session) 12)%Z) by lia.
  destruct (payment_of_nothing r _ Hr Hpos) as [e [He Hzero]].
  unfold underwriting_agent.process_salary_verification, customer_get.
  rewrite Hrate, Hamount, Hcustomer. cbn [get]. rewrite He.
  destruct (emi_to_salary_ratio_total (Fin e) (of_int 0)) as [ratio Hratio].
  rewrite Hratio.
  replace (fle (Fin e) (fmul (Fin (1 # 2)) (of_int 0))) with true.
  - eexists. split; [reflexivity |]. split; reflexivity.
  - symmetry. cbn. apply Qle_bool_iff. rewrite Hzero.
    change (inject_Z 0) with 0. lra.
Qed.

(** The income check never looks at the credit score or at the
    pre-approved limit. *)
Theorem income_check_ignores_credit
  (E : env) (session : Session) (score limit : option pyfloat) :
  underwriting_agent.process_salary_verification E (with_credit score limit session)
  = outcome_map (with_credit score limit)
      (underwriting_agent.process_salary_verification E session).
Proof.
  unfold with_credit. destruct (customer session) as [c |] eqn:Hc.
  - unfold underwriting_agent.process_salary_verification, customer_get.
    cbn [loan_amount loan_tenure interest_rate customer set_customer Customer.salary].
    rewrite Hc.
    destruct (underwriting_agent.calculate_emi _ _ _) as [emi | e];
      [| cbn; rewrite Hc; reflexivity].
    destruct (underwriting_agent.emi_to_salary_ratio _ _) as [ratio | e];
      [| cbn; rewrite Hc; reflexivity].
    destruct (fle _ _); [cbn; rewrite Hc; reflexivity|].
    destruct (underwriting_agent.calculate_max_loan_for_emi _ _ _);
      cbn; rewrite Hc; reflexivity.
  - destruct (underwriting_agent.process_salary_verification E session)
      as [response s' | e s'] eqn:Hrun; cbn [outcome_map].
    + assert (Hc' : customer s' = None).
      { revert Hrun. unfold underwriting_agent.process_salary_verification.
        repeat branch; intro H; inversion H; subst; cbn; exact Hc. }
      rewrite Hc'. reflexivity.
    + assert (Hc' : customer s' = None).
      { revert Hrun. unfold underwriting_agent.process_salary_verification.
        repeat branch; intro H; inversion H; subst; cbn; exact Hc. }
      rewrite Hc'. reflexivity.
Qed.

(** ** More on the orchestrator *)

Lemma issue_and_complete_flags
  (E : env) (w : world) (response : master_agent.response) (s : Session) :
  master_agent.session_ended response = false ->
  master_agent.show_upload response = false ->
  match master_agent.issue_and_complete E w response s with
  | Returned response' s' => flags_mirror response' s'
  | Raised _ _ => True
  end.
Proof.
  intros Hend Hup. unfold master_agent.issue_and_complete,
    sanction_generator.generate_sanction_letter.
  repeat branch; try exact I;
    unfold flags_mirror, is_ended, is_completed, awaiting_upload; cbn;
    rewrite Hend, Hup; auto.
Qed.

(** Whatever the session and the event, the flags of a returned
    response say where the session is left: [session_ended] exactly in
    the ended stage, [show_download] exactly in the completed stage and
    then with the stored file name, [show_upload] exactly in the
    waiting sub-state. *)
Theorem response_flags_mirror_session
  (E : env) (w : world) (ev : event) (session session' : Session)
  (response : master_agent.response) :
  deliver E w ev session = Returned response session' ->
  flags_mirror response session'.
Proof.
  intro Hrun.
  assert (H : match deliver E w ev session with
              | Returned r s' => flags_mirror r s'
              | Raised _ _ => True
              end); [| rewrite Hrun in H; exact H].
  clear Hrun response session'.
  destruct ev as [user_input |]; cbn [deliver].
  - unfold master_agent.process_message.
    destruct (current_agent session) eqn:Hagent.
    + unfold flags_mirror, is_ended, is_completed, awaiting_upload. cbn. auto.
    + pose proof (sales_keeps_decision E session user_input) as [_ [_ [_ Kagent]]].
      destruct (sales_agent.process E session user_input) as [reply s1 | e s1];
        [| exact I].
      cbn [session_after] in Kagent. rewrite Hagent in Kagent.
      repeat branch;
        unfold flags_mirror, is_ended, is_completed, awaiting_upload; cbn;
        rewrite ?Kagent; auto.
    + pose proof (verification_keeps_decision w session user_input)
        as [[_ [_ [_ Kagent]]] _].
      destruct (verification_agent.process w session user_input) as [reply s1 | e s1];
        [| exact I].
      cbn [session_after] in Kagent. rewrite Hagent in Kagent.
      destruct (verification_agent.proceed_to_underwriting reply).
      * unfold underwriting_agent.process.
        destruct (underwriting_agent.calculate_emi _ _ _); [| exact I].
        destruct (flt _ _).
        { unfold flags_mirror, is_ended, is_completed, awaiting_upload. cbn. auto. }
        destruct (fle _ _).
        { cbn [underwriting_agent.proceed_to_sanction].
          apply issue_and_complete_flags; reflexivity. }
        destruct (fle _ _);
          unfold flags_mirror, is_ended, is_completed, awaiting_upload; cbn; auto.
      * repeat branch;
          unfold flags_mirror, is_ended, is_completed, awaiting_upload; cbn;
          rewrite ?Kagent; auto.
    + destruct (underwriting_state session) eqn:Hstate;
        unfold flags_mirror, is_ended, is_completed, awaiting_upload; cbn;
        rewrite Hagent, ?Hstate; auto.
    + unfold flags_mirror, is_ended, is_completed, awaiting_upload. cbn.
      rewrite Hagent. auto.
    + unfold flags_mirror, is_ended, is_completed, awaiting_upload. cbn.
      rewrite Hagent. auto.
    + unfold flags_mirror, is_ended, is_completed, awaiting_upload. cbn.
      rewrite Hagent. auto.
  - unfold master_agent.process_salary_upload,
      underwriting_agent.process_salary_verification.
    destruct (underwriting_agent.calculate_emi _ _ _); [| exact I].
    destruct (underwriting_agent.emi_to_salary_ratio _ _); [| exact I].
    destruct (fle _ _).
    + cbn [underwriting_agent.proceed_to_sanction].
      apply issue_and_complete_flags; reflexivity.
    + destruct (underwriting_agent.calculate_max_loan_for_emi _ _ _); [| exact I].
      unfold flags_mirror, is_ended, is_completed, awaiting_upload. cbn. auto.
Qed.

(** In the underwriting, sanction, completed and ended stages no
    message changes the session, however many are sent. *)
Theorem text_cannot_leave_late_stages
  (E : env) (turns : list (world * string)) (session : Session) :
  beyond_text session = true ->
  run E (chats turns) session = session.
Proof.
  intro Hlate. induction turns as [| [w user_input] rest IH]; [reflexivity|].
  cbn [chats map run fst snd deliver].
  assert (Hsame : session_after
                    (master_agent.process_message E w session user_input)
                  = session).
  { unfold master_agent.process_message. unfold beyond_text in Hlate.
    destruct (current_agent session); try discriminate;
      repeat branch; reflexivity. }
  rewrite Hsame. exact IH.
Qed.

(** ** Which keys each agent writes *)

(** Both sides of an equation between sessions as records of fields. *)
Ltac fieldwise :=
  cbv [set_current_agent set_conversation_stage set_sales_state
       set_verification_state set_underwriting_state set_loan_status
       set_kyc_verified set_loan_amount set_loan_tenure set_interest_rate
       set_estimated_emi set_calculated_emi set_approved_amount set_customer
       set_customer_id set_offer set_sanction_letter_path
       set_sanction_letter_filename current_agent conversation_stage
       sales_state verification_state underwriting_state loan_status
       kyc_verified loan_amount loan_tenure interest_rate estimated_emi
       calculated_emi approved_amount customer customer_id offer
       sanction_letter_path sanction_letter_filename].

Lemma sales_writes (E : env) (s : Session) (user_input : string) :
  exists st amount tenure emi,
    session_after (sales_agent.process E s user_input)
    = set_sales_state st
        (set_loan_amount amount (set_loan_tenure tenure (set_estimated_emi emi s))).
Proof.
  destruct s. unfold sales_agent.process.
  repeat branch; cbn [session_after]; do 4 eexists; fieldwise; reflexivity.
Qed.

Lemma verification_writes (w : world) (s : Session) (user_input : string) :
  exists st kyc c cid o rate,
    session_after (verification_agent.process w s user_input)
    = set_verification_state st
        (set_kyc_verified kyc
           (set_customer c
              (set_customer_id cid (set_offer o (set_interest_rate rate s))))).
Proof.
  destruct s. unfold verification_agent.process.
  repeat branch; cbn [session_after]; do 6 eexists; fieldwise; reflexivity.
Qed.

Lemma first_pass_writes (E : env) (s : Session) :
  exists emi st status approved,
    session_after (underwriting_agent.process E s)
    = set_calculated_emi emi
        (set_underwriting_state st
           (set_loan_status status (set_approved_amount approved s))).
Proof.
  destruct s. unfold underwriting_agent.process.
  repeat branch; cbn [session_after]; do 4 eexists; fieldwise; reflexivity.
Qed.

Lemma income_check_writes (E : env) (s : Session) :
  exists st status approved,
    session_after (underwriting_agent.process_salary_verification E s)
    = set_underwriting_state st
        (set_loan_status status (set_approved_amount approved s)).
Proof.
  destruct s. unfold underwriting_agent.process_salary_verification.
  repeat branch; cbn [session_after]; do 3 eexists; fieldwise; reflexivity.
Qed.

Lemma issuance_writes (E : env) (w : world) (s : Session) :
  exists path filename,
    session_after (sanction_generator.generate_sanction_letter E w s)
    = set_sanction_letter_path path (set_sanction_letter_filename filename s).
Proof.
  destruct s. unfold sanction_generator.generate_sanction_letter.
  repeat branch; cbn [session_after]; do 2 eexists; fieldwise; reflexivity.
Qed.

(** Each worker writes its own keys and no others: the intake its
    state, the amount, the tenure and the estimate; the verification
    its state, the flag, the customer, the identifier, the offer and
    the rate; the first pass the payment and the decision; the income
    check the decision; the issuance the path and the name of the
    letter.  This holds also when the worker raises. *)
Theorem workers_write_their_own_keys
  (E : env) (w : world) (s : Session) (user_input : string) :
  (exists st amount tenure emi,
     session_after (sales_agent.process E s user_input)
     = set_sales_state st
         (set_loan_amount amount (set_loan_tenure tenure (set_estimated_emi emi s))))
  /\ (exists st kyc c cid o rate,
        session_after (verification_agent.process w s user_input)
        = set_verification_state st
            (set_kyc_verified kyc
               (set_customer c
                  (set_customer_id cid (set_offer o (set_interest_rate rate s))))))
  /\ (exists emi st status approved,
        session_after (underwriting_agent.process E s)
        = set_calculated_emi emi
            (set_underwriting_state st
               (set_loan_status status (set_approved_amount approved s))))
  /\ (exists st status approved,
        session_after (underwriting_agent.process_salary_verification E s)
        = set_underwriting_state st
            (set_loan_status status (set_approved_amount approved s)))
  /\ (exists path filename,
        session_after (sanction_generator.generate_sanction_letter E w s)
        = set_sanction_letter_path path (set_sanction_letter_filename filename s)).
Proof.
  split; [apply sales_writes|]. split; [apply verification_writes|].
  split; [apply first_pass_writes|]. split; [apply income_check_writes|].
  apply issuance_writes.
Qed.

(** ** Invariants of whole runs

    Each holds after every trace of messages and uploads, the uploads
    in any stage, and whether the turns return or raise. *)

Lemma run_keeps (E : env) (P : Session -> Prop) :
  (forall w ev s, P s -> P (session_after (deliver E w ev s))) ->
  forall trace s, P s -> P (run E trace s).
Proof.
  intros Hstep trace. induction trace as [| [w ev] rest IH]; intros s Hs.
  - exact Hs.
  - cbn [run]. apply IH. apply Hstep. exact Hs.
Qed.

(** A property that every worker keeps, and that does not depend on
    the stage, is kept by every turn of the orchestrator. *)
Lemma deliver_keeps (E : env) (P : Session -> Prop) :
  (forall a s, P s -> P (set_current_agent a s)) ->
  (forall st s, P s -> P (set_conversation_stage st s)) ->
  (forall s i, P s -> P (session_after (sales_agent.process E s i))) ->
  (forall w s i, P s -> P (session_after (verification_agent.process w s i))) ->
  (forall s, P s -> P (session_after (underwriting_agent.process E s))) ->
  (forall s, P s ->
             P (session_after (underwriting_agent.process_salary_verification E s))) ->
  (forall w s, P s ->
               P (session_after (sanction_generator.generate_sanction_letter E w s))) ->
  forall w ev s, P s -> P (session_after (deliver E w ev s)).
Proof.
  intros Hagent Hstage Hsales Hverif Hfirst Hincome Hissue w ev s Hs.
  assert (Htail : forall response s0,
             P s0 ->
             P (session_after (master_agent.issue_and_complete E w response s0))).
  { intros response s0 H0. unfold master_agent.issue_and_complete.
    pose proof (Hissue w _ (Hstage Stage.generating_sanction _
                              (Hagent Agent.sanction _ H0))) as Hgen.
    destruct (sanction_generator.generate_sanction_letter E w _);
      cbn [session_after] in *; auto. }
  destruct ev as [user_input |]; cbn [deliver].
  - unfold master_agent.process_message.
    destruct (current_agent s).
    + cbn [session_after]. auto.
    + pose proof (Hsales s user_input Hs) as H1.
      destruct (sales_agent.process E s user_input); cbn [session_after] in *;
        [| exact H1].
      repeat branch; cbn [session_after]; auto.
    + pose proof (Hverif w s user_input Hs) as H1.
      destruct (verification_agent.process w s user_input) as [reply s1 | e s1];
        cbn [session_after] in *; [| exact H1].
      destruct (verification_agent.proceed_to_underwriting reply).
      * pose proof (Hfirst _ (Hstage Stage.underwriting _
                                (Hagent Agent.underwriting _ H1))) as H2.
        destruct (underwriting_agent.process E _) as [verdict s2 | e s2];
          cbn [session_after] in *; [| exact H2].
        destruct (underwriting_agent.proceed_to_sanction verdict);
          [apply Htail; exact H2|].
        repeat branch; cbn [session_after]; auto.
      * repeat branch; cbn [session_after]; auto.
    + repeat branch; exact Hs.
    + exact Hs.
    + exact Hs.
    + exact Hs.
  - unfold master_agent.process_salary_upload.
    pose proof (Hincome s Hs) as H1.
    destruct (underwriting_agent.process_salary_verification E s)
      as [verdict s1 | e s1]; cbn [session_after] in *; [| exact H1].
    destruct (underwriting_agent.proceed_to_sanction verdict);
      [apply Htail; exact H1|].
    repeat branch; cbn [session_after]; auto.
Qed.

Ltac open_exists H :=
  lazymatch type of H with
  | ex _ => let x := fresh "x" in destruct H as [x H]; open_exists H
  | _ => idtac
  end.

Ltac by_writes lemma :=
  let H := fresh "Hwrites" in
  pose proof lemma as H; open_exists H; rewrite H.

Lemma binding_consistent_step (E : env) (w : world) (ev : event) (s : Session) :
  binding_consistent s -> binding_consistent (session_after (deliver E w ev s)).
Proof.
  apply (deliver_keeps E binding_consistent).
  - intros a s0 H. exact H.
  - intros st s0 H. exact H.
  - intros s0 i H. by_writes (sales_writes E s0 i). exact H.
  - intros w0 s0 i [Hrate Hid]. unfold verification_agent.process.
    repeat branch; cbn [session_after]; unfold binding_consistent; cbn;
      (split; [first [assumption | reflexivity]
              | intros c0 Hc0; first [discriminate
                                     | injection Hc0 as <-; reflexivity
                                     | apply Hid; assumption ]]).
  - intros s0 H. by_writes (first_pass_writes E s0). exact H.
  - intros s0 H. by_writes (income_check_writes E s0). exact H.
  - intros w0 s0 H. by_writes (issuance_writes E w0 s0). exact H.
Qed.

(** The rate in force is the rate of the stored offer (the default
    while no offer is stored), and the stored identifier is the one of
    the bound customer, in every session a run can reach. *)
Theorem binding_consistent_in_every_run (E : env) (trace : list (world * event)) :
  binding_consistent (run E trace master_agent.get_initial_state).
Proof.
  apply run_keeps.
  - intros w ev s. apply binding_consistent_step.
  - split; [reflexivity | intros c Hc; discriminate].
Qed.

Lemma kyc_consistent_step (E : env) (w : world) (ev : event) (s : Session) :
  kyc_consistent s -> kyc_consistent (session_after (deliver E w ev s)).
Proof.
  apply (deliver_keeps E kyc_consistent).
  - intros a s0 H. exact H.
  - intros st s0 H. exact H.
  - intros s0 i H. by_writes (sales_writes E s0 i). exact H.
  - intros w0 s0 i H. unfold kyc_consistent in *.
    unfold verification_agent.process.
    destruct (verification_state s0) eqn:Hst;
      repeat branch; cbn [session_after]; cbn;
      first [ rewrite Hst; exact H
            | split; intro; first [reflexivity | discriminate]
            | (split; intro Hk; [apply H in Hk; discriminate | discriminate]) ].
  - intros s0 H. by_writes (first_pass_writes E s0). exact H.
  - intros s0 H. by_writes (income_check_writes E s0). exact H.
  - intros w0 s0 H. by_writes (issuance_writes E w0 s0). exact H.
Qed.

(** The identity counts as verified exactly when the verification
    machine has completed, in every session a run can reach. *)
Theorem kyc_consistent_in_every_run (E : env) (trace : list (world * event)) :
  kyc_consistent (run E trace master_agent.get_initial_state).
Proof.
  apply run_keeps.
  - intros w ev s. apply kyc_consistent_step.
  - split; discriminate.
Qed.

Lemma issue_and_complete_letter
  (E : env) (w : world) (response : master_agent.response) (s : Session) :
  loan_status s = Some LoanStatus.approved ->
  completed_has_letter E
    (session_after (master_agent.issue_and_complete E w response s)).
Proof.
  intro Hstatus. unfold master_agent.issue_and_complete,
    sanction_generator.generate_sanction_letter.
  repeat branch; cbn [session_after]; unfold completed_has_letter; cbn;
    intro Hagent; try discriminate;
    (split; [exact Hstatus | eexists; split; reflexivity]).
Qed.

Lemma not_completed_has_letter (E : env) (s : Session) :
  current_agent s <> Agent.completed -> completed_has_letter E s.
Proof. intros Hne Hagent. contradiction. Qed.

Lemma completed_has_letter_step (E : env) (w : world) (ev : event) (s : Session) :
  completed_has_letter E s ->
  completed_has_letter E (session_after (deliver E w ev s)).
Proof.
  intro Hinv. destruct ev as [user_input |]; cbn [deliver].
  - unfold master_agent.process_message.
    destruct (current_agent s) eqn:Hagent.
    + apply not_completed_has_letter. cbn. discriminate.
    + pose proof (sales_writes E s user_input) as Hw. open_exists Hw.
      destruct (sales_agent.process E s user_input) as [reply s1 | e s1];
        cbn [session_after] in *; subst s1;
        repeat branch; cbn [session_after];
        apply not_completed_has_letter; cbn; rewrite ?Hagent; discriminate.
    + pose proof (verification_writes w s user_input) as Hw. open_exists Hw.
      destruct (verification_agent.process w s user_input) as [reply s1 | e s1];
        cbn [session_after] in *; subst s1.
      * destruct (verification_agent.proceed_to_underwriting reply).
        -- match goal with
           | |- context [underwriting_agent.process E ?c] =>
               pose proof (first_pass_effect E c) as Hfp;
               pose proof (first_pass_writes E c) as Hfw
           end.
           open_exists Hfw.
           destruct (underwriting_agent.process E _) as [verdict s2 | e s2];
             cbn [session_after] in *.
           ++ destruct (underwriting_agent.proceed_to_sanction verdict).
              ** apply issue_and_complete_letter. apply Hfp.
              ** subst s2. repeat branch; cbn [session_after];
                   apply not_completed_has_letter; cbn; discriminate.
           ++ subst s2. apply not_completed_has_letter. cbn. discriminate.
        -- repeat branch; cbn [session_after];
             apply not_completed_has_letter; cbn; rewrite ?Hagent; discriminate.
      * apply not_completed_has_letter. cbn. rewrite Hagent. discriminate.
    + repeat branch; exact Hinv.
    + exact Hinv.
    + exact Hinv.
    + exact Hinv.
  - unfold master_agent.process_salary_upload,
      underwriting_agent.process_salary_verification.
    destruct (underwriting_agent.calculate_emi _ _ _); [| exact Hinv].
    destruct (underwriting_agent.emi_to_salary_ratio _ _); [| exact Hinv].
    destruct (fle _ _).
    + cbn [underwriting_agent.proceed_to_sanction].
      apply issue_and_complete_letter. reflexivity.
    + destruct (underwriting_agent.calculate_max_loan_for_emi _ _ _);
        [| exact Hinv].
      apply not_completed_has_letter. cbn. discriminate.
Qed.

Lemma completed_has_letter_in_every_run (E : env) (trace : list (world * event)) :
  completed_has_letter E (run E trace master_agent.get_initial_state).
Proof.
  apply (run_keeps E (completed_has_letter E)).
  - intros w ev s. apply completed_has_letter_step.
  - intro H. discriminate.
Qed.

(** A session that a run leaves in the completed stage is approved and
    has the name and the path of its letter, the path being the name
    under the upload directory. *)
Theorem completed_session_has_letter (E : env) (trace : list (world * event)) :
  let session := run E trace master_agent.get_initial_state in
  current_agent session = Agent.completed ->
  loan_status session = Some LoanStatus.approved
  /\ exists filename,
       sanction_letter_filename session = Some filename
       /\ sanction_letter_path session = Some (UPLOADS_PATH E ++ "/" ++ filename).
Proof.
  intros session Hagent.
  exact (completed_has_letter_in_every_run E trace Hagent).
Qed.

Lemma sales_collects (E : env) (s : Session) (user_input : string) :
  collected s ->
  match sales_agent.process E s user_input with
  | Returned reply s1 =>
      collected s1
      /\ (sales_agent.proceed_to_verification reply = true ->
          sales_state s1 = SalesState.complete)
  | Raised _ s1 => collected s1
  end.
Proof.
  intro Hc. unfold collected in *. unfold sales_agent.process.
  destruct (sales_state s) eqn:Hst.
  - destruct (py_float _) as [amount | e] eqn:Hp.
    + destruct (flt amount (of_int 10000)) eqn:Hlo;
        [rewrite Hst; split; [exact I | discriminate]|].
      destruct (fgt amount (of_int 5000000)) eqn:Hhi;
        [rewrite Hst; split; [exact I | discriminate]|].
      split; [| discriminate]. cbn.
      exists amount. split; [reflexivity|].
      destruct (flt_false_ge _ _ Hlo) as [-> | [-> | [q [-> Hq]]]]; auto.
      * discriminate.
      * destruct (fgt_false_le _ _ Hhi) as [? | [? | [q' [Hq' Hle]]]];
          try discriminate.
        inversion Hq'; subst q'. left. exists q. auto.
    + destruct e; rewrite ?Hst; try exact I; split; [exact I | discriminate].
  - destruct (py_int _) as [tenure | e] eqn:Hp.
    + destruct (Z.ltb_spec tenure 12);
        [rewrite Hst; split; [exact Hc | discriminate]|].
      destruct (Z.gtb_spec tenure 72);
        [rewrite Hst; split; [exact Hc | discriminate]|].
      cbv zeta.
      destruct (sales_agent.calculate_emi _ _ _) as [emi | e].
      * split; [| discriminate]. cbn.
        split; [exact Hc |]. exists tenure. split; [reflexivity | lia].
      * destruct e; cbn; rewrite ?Hst; try exact Hc;
          split; [exact Hc | discriminate].
    + destruct e; rewrite ?Hst; try exact Hc; split; [exact Hc | discriminate].
  - cbv zeta.
    repeat match goal with
           | |- context [if ?b then _ else _] => destruct b
           end;
      cbn; rewrite ?Hst;
      (split; [exact Hc | first [reflexivity | discriminate]]).
  - rewrite Hst. split; [exact Hc | discriminate].
  - rewrite Hst. split; [exact Hc | discriminate].
Qed.

Lemma intake_progress_step (E : env) (w : world) (ev : event) (s : Session) :
  intake_progress s -> intake_progress (session_after (deliver E w ev s)).
Proof.
  intros [Hc Hdone].
  assert (Hclose : forall s', collected s' ->
            match current_agent s' with
            | Agent.verification | Agent.underwriting =>
                sales_state s' = SalesState.complete
            | _ => True
            end -> intake_progress s') by (intros s' H1 H2; split; assumption).
  destruct ev as [user_input |]; cbn [deliver].
  - unfold master_agent.process_message.
    destruct (current_agent s) eqn:Hagent.
    + apply Hclose; [exact Hc | exact I].
    + pose proof (sales_collects E s user_input Hc) as Hs.
      pose proof (sales_writes E s user_input) as Hw. open_exists Hw.
      destruct (sales_agent.process E s user_input) as [reply s1 | e s1];
        cbn [session_after] in *.
      * destruct Hs as [Hc1 Hgo].
        destruct (sales_agent.proceed_to_verification reply).
        -- apply Hclose; [exact Hc1 | exact (Hgo eq_refl)].
        -- repeat branch; cbn [session_after];
             (apply Hclose;
              [exact Hc1 | cbn; rewrite ?Hw; cbn; rewrite ?Hagent; exact I]).
      * apply Hclose; [exact Hs | rewrite Hw; cbn; rewrite Hagent; exact I].
    + pose proof (verification_writes w s user_input) as Hw. open_exists Hw.
      destruct (verification_agent.process w s user_input) as [reply s1 | e s1];
        cbn [session_after] in *; subst s1.
      * destruct (verification_agent.proceed_to_underwriting reply).
        -- match goal with
           | |- context [underwriting_agent.process E ?c] =>
               pose proof (first_pass_writes E c) as Hfw
           end.
           open_exists Hfw.
           destruct (underwriting_agent.process E _) as [verdict s2 | e s2];
             cbn [session_after] in *; subst s2.
           ++ destruct (underwriting_agent.proceed_to_sanction verdict).
              ** unfold master_agent.issue_and_complete.
                 match goal with
                 | |- context [sanction_generator.generate_sanction_letter E w ?c] =>
                     pose proof (issuance_writes E w c) as Hiw
                 end.
                 open_exists Hiw.
                 destruct (sanction_generator.generate_sanction_letter E w _)
                   as [issued s3 | e s3]; cbn [session_after] in *; subst s3;
                   (apply Hclose; [exact Hc | exact I]).
              ** repeat branch; cbn [session_after];
                   (apply Hclose; [exact Hc | first [exact I | exact Hdone]]).
           ++ apply Hclose; [exact Hc | exact Hdone].
        -- repeat branch; cbn [session_after];
             (apply Hclose;
              [exact Hc | first [exact I | cbn; rewrite Hagent; exact Hdone]]).
      * apply Hclose; [exact Hc | cbn; rewrite Hagent; exact Hdone].
    + repeat branch; cbn [session_after];
        (apply Hclose; [exact Hc | cbn; rewrite Hagent; exact Hdone]).
    + apply Hclose; [exact Hc | cbn; rewrite Hagent; exact I].
    + apply Hclose; [exact Hc | cbn; rewrite Hagent; exact I].
    + apply Hclose; [exact Hc | cbn; rewrite Hagent; exact I].
  - unfold master_agent.process_salary_upload,
      underwriting_agent.process_salary_verification.
    destruct (underwriting_agent.calculate_emi _ _ _);
      [| split; [exact Hc | exact Hdone]].
    destruct (underwriting_agent.emi_to_salary_ratio _ _);
      [| split; [exact Hc | exact Hdone]].
    destruct (fle _ _).
    + cbn [underwriting_agent.proceed_to_sanction].
      unfold master_agent.issue_and_complete.
      match goal with
      | |- context [sanction_generator.generate_sanction_letter E w ?c] =>
          pose proof (issuance_writes E w c) as Hiw
      end.
      open_exists Hiw.
      destruct (sanction_generator.generate_sanction_letter E w _)
        as [issued s3 | e s3]; cbn [session_after] in *; subst s3;
        (apply Hclose; [exact Hc | exact I]).
    + destruct (underwriting_agent.calculate_max_loan_for_emi _ _ _);
        [| split; [exact Hc | exact Hdone]].
      apply Hclose; [exact Hc | exact I].
Qed.

(** Whenever a run leaves the session in the verification stage, from
    which the first pass is started, the intake is complete: the tenure
    stored is an integer from 12 to 72 and the amount stored is within
    10000 and 5000000, or is [nan]. *)
Theorem evaluator_starts_after_intake (E : env) (trace : list (world * event)) :
  let session := run E trace master_agent.get_initial_state in
  current_agent session = Agent.verification ->
  sales_state session = SalesState.complete
  /\ amount_collected session
  /\ tenure_collected session.
Proof.
  intros session Hagent.
  assert (Hinv : intake_progress session).
  { apply (run_keeps E intake_progress).
    - intros w ev s. apply intake_progress_step.
    - split; exact I. }
  destruct Hinv as [Hc Hdone]. rewrite Hagent in Hdone.
  unfold collected in Hc. rewrite Hdone in Hc.
  split; [exact Hdone | exact Hc].
Qed.

(** ** The session registry of [main.py] *)

Lemma sessions_get_set_same (k : string) (v : Session) (sessions : registry) :
  sessions_get k (sessions_set k v sessions) = Some v.
Proof.
  induction sessions as [| [k' old] rest IH]; cbn.
  - rewrite String.eqb_refl. reflexivity.
  - destruct (String.eqb k' k) eqn:Hk; cbn; rewrite Hk; [reflexivity | exact IH].
Qed.

Lemma sessions_get_set_other (k k' : string) (v : Session) (sessions : registry) :
  k' <> k ->
  sessions_get k' (sessions_set k v sessions) = sessions_get k' sessions.
Proof.
  intro Hne. induction sessions as [| [k0 old] rest IH]; cbn.
  - destruct (String.eqb_spec k k'); [congruence | reflexivity].
  - destruct (String.eqb_spec k0 k) as [-> | Hk0]; cbn.
    + destruct (String.eqb_spec k k'); [congruence | reflexivity].
    + rewrite IH. reflexivity.
Qed.

Lemma sessions_get_del_same (k : string) (sessions : registry) :
  sessions_get k (sessions_del k sessions) = None.
Proof.
  unfold sessions_del.
  induction sessions as [| [k0 old] rest IH]; cbn; [reflexivity |].
  destruct (String.eqb k0 k) eqn:Hk; cbn; [exact IH |].
  rewrite Hk. exact IH.
Qed.

Lemma sessions_get_del_other (k k' : string) (sessions : registry) :
  k' <> k ->
  sessions_get k' (sessions_del k sessions) = sessions_get k' sessions.
Proof.
  intro Hne. unfold sessions_del.
  induction sessions as [| [k0 old] rest IH]; cbn; [reflexivity |].
  destruct (String.eqb_spec k0 k) as [-> | Hk0]; cbn.
  - rewrite IH. destruct (String.eqb_spec k k'); [congruence | reflexivity].
  - rewrite IH. reflexivity.
Qed.

Lemma str_in_In (x : string) (l : list string) : str_in x l = true <-> In x l.
Proof.
  unfold str_in. rewrite existsb_exists. split.
  - intros [y [Hy Heq]]. apply String.eqb_eq in Heq. subst y. exact Hy.
  - intro Hin. exists x. split; [exact Hin | apply String.eqb_refl].
Qed.

(** A chat request that names a session of the registry is one text turn
    of that session: the request is answered under the same identifier,
    the entry becomes the session as the turn leaves it (also when the
    turn raises), and no other entry changes. *)
Theorem chat_serves_named_session
  (E : env) (w : world) (uuid4 session_id message : string)
  (session : Session) (sessions : registry) :
  session_id <> "" ->
  sessions_get session_id sessions = Some session ->
  let request := {| ChatRequest.session_id := Some session_id;
                    ChatRequest.message := message |} in
  let turn := deliver E w (Chat message) session in
  let sessions' := snd (main.chat E w uuid4 request sessions) in
  sessions_get session_id sessions' = Some (session_after turn)
  /\ (forall other, other <> session_id ->
        sessions_get other sessions' = sessions_get other sessions)
  /\ match turn with
     | Returned response _ =>
         exists body,
           fst (main.chat E w uuid4 request sessions) = Ok200 body
           /\ ChatResponse.session_id body = session_id
           /\ ChatResponse.message body = master_agent.message response
     | Raised e _ => fst (main.chat E w uuid4 request sessions) = ServerError e
     end.
Proof.
  intros Hne Hget request turn sessions'. subst request turn sessions'.
  unfold main.chat. cbn [ChatRequest.session_id ChatRequest.message deliver].
  destruct (String.eqb_spec session_id ""); [contradiction |].
  rewrite Hget.
  destruct (master_agent.process_message E w session message)
    as [response s' | e s']; cbn [fst snd session_after].
  - split; [apply sessions_get_set_same |].
    split; [intros other Ho; apply sessions_get_set_other; exact Ho |].
    eexists. split; [reflexivity |]. split; reflexivity.
  - split; [apply sessions_get_set_same |].
    split; [intros other Ho; apply sessions_get_set_other; exact Ho |].
    reflexivity.
Qed.

(** A chat request without an identifier, with the empty one or with one
    the registry does not have is answered with the opening message
    under the fresh identifier, whatever its text: the entry of the fresh
    identifier is the initial session moved to the intake, and no other
    entry changes. *)
Theorem chat_starts_fresh_session
  (E : env) (w : world) (uuid4 : string) (request : ChatRequest.t)
  (sessions : registry) :
  match ChatRequest.session_id request with
  | Some session_id =>
      session_id = "" \/ sessions_get session_id sessions = None
  | None => True
  end ->
  let sessions' := snd (main.chat E w uuid4 request sessions) in
  (exists body,
     fst (main.chat E w uuid4 request sessions) = Ok200 body
     /\ ChatResponse.session_id body = uuid4
     /\ ChatResponse.message body = sales_agent.get_initial_message
     /\ ChatResponse.show_upload body = false
     /\ ChatResponse.show_download body = false
     /\ ChatResponse.session_ended body = false)
  /\ sessions_get uuid4 sessions'
     = Some (set_conversation_stage Stage.collecting_loan_details
               (set_current_agent Agent.sales master_agent.get_initial_state))
  /\ (forall other, other <> uuid4 ->
        sessions_get other sessions' = sessions_get other sessions).
Proof.
  intros Hunknown sessions'. subst sessions'.
  assert (Hpick :
    main.chat E w uuid4 request sessions
    = match master_agent.process_message E w master_agent.get_initial_state
              (ChatRequest.message request) with
      | Returned response session =>
          (Ok200 {| ChatResponse.session_id := uuid4;
                    ChatResponse.message := master_agent.message response;
                    ChatResponse.show_upload := master_agent.show_upload response;
                    ChatResponse.show_download := master_agent.show_download response;
                    ChatResponse.download_file := master_agent.download_file response;
                    ChatResponse.session_ended := master_agent.session_ended response |},
           sessions_set uuid4 session sessions)
      | Raised e session => (ServerError e, sessions_set uuid4 session sessions)
      end).
  { unfold main.chat.
    destruct (ChatRequest.session_id request) as [session_id |]; [| reflexivity].
    destruct (String.eqb_spec session_id ""); [reflexivity |].
    destruct Hunknown as [Hempty | Hnone]; [contradiction |].
    rewrite Hnone. reflexivity. }
  rewrite Hpick. cbn [master_agent.process_message fst snd].
  unfold master_agent.process_message. cbn.
  split.
  - eexists. split; [reflexivity |]. cbn. repeat split; reflexivity.
  - split; [apply sessions_get_set_same |].
    intros other Ho. apply sessions_get_set_other. exact Ho.
Qed.

(** A refusal of the upload endpoint with status 400 leaves the
    registry as it was, and it has one of two causes: an identifier the
    registry does not have ("Invalid session") or, for a known one, a
    content type that is missing or outside the four accepted. *)
Theorem upload_refusal_changes_nothing
  (E : env) (w : world) (saved : bool) (session_id : string)
  (content_type : option string) (sessions : registry) (detail : string) :
  fst (main.upload_salary E w saved session_id content_type sessions)
  = BadRequest detail ->
  snd (main.upload_salary E w saved session_id content_type sessions) = sessions
  /\ ((detail = "Invalid session" /\ sessions_get session_id sessions = None)
      \/ (detail = "Invalid file type. Please upload PDF or image."
          /\ is_some (sessions_get session_id sessions) = true
          /\ forall type, content_type = Some type -> ~ In type main.upload_types)).
Proof.
  unfold main.upload_salary.
  destruct (sessions_get session_id sessions) as [session |] eqn:Hget.
  - destruct content_type as [type |]; cbn [negb].
    + destruct (str_in type main.upload_types) eqn:Hin; cbn [negb].
      * destruct saved; cbn [negb]; [| discriminate].
        destruct (master_agent.process_salary_upload E w session); discriminate.
      * cbn [fst snd]. intro H. injection H as <-.
        split; [reflexivity |]. right. split; [reflexivity |].
        split; [reflexivity |].
        intros type' Heq Hmem. injection Heq as <-.
        apply str_in_In in Hmem. congruence.
    + cbn [fst snd]. intro H. injection H as <-.
      split; [reflexivity |]. right. split; [reflexivity |].
      split; [reflexivity |]. intros type' Heq. discriminate.
  - cbn [fst snd]. intro H. injection H as <-.
    split; [reflexivity |]. left. split; reflexivity.
Qed.

(** An upload for a session of the registry, with an accepted content
    type and a file that could be stored, is one upload turn of that
    session in whatever stage the session is: the endpoint asks for no
    stage, the entry becomes the session as the turn leaves it and no
    other entry changes. *)
Theorem upload_serves_named_session
  (E : env) (w : world) (session_id type : string)
  (session : Session) (sessions : registry) :
  sessions_get session_id sessions = Some session ->
  In type main.upload_types ->
  let turn := deliver E w Upload session in
  let sessions' := snd (main.upload_salary E w true session_id (Some type) sessions) in
  sessions_get session_id sessions' = Some (session_after turn)
  /\ (forall other, other <> session_id ->
        sessions_get other sessions' = sessions_get other sessions)
  /\ match turn with
     | Returned response _ =>
         exists body,
           fst (main.upload_salary E w true session_id (Some type) sessions)
           = Ok200 body
           /\ UploadResponse.success body = true
           /\ UploadResponse.message body = master_agent.message response
     | Raised e _ =>
         fst (main.upload_salary E w true session_id (Some type) sessions)
         = ServerError e
     end.
Proof.
  intros Hget Hin turn sessions'. subst turn sessions'.
  unfold main.upload_salary. rewrite Hget.
  apply str_in_In in Hin. rewrite Hin. cbn [negb deliver].
  destruct (master_agent.process_salary_upload E w session)
    as [response s' | e s']; cbn [fst snd session_after].
  - split; [apply sessions_get_set_same |].
    split; [intros other Ho; apply sessions_get_set_other; exact Ho |].
    eexists. split; [reflexivity |]. split; reflexivity.
  - split; [apply sessions_get_set_same |].
    split; [intros other Ho; apply sessions_get_set_other; exact Ho |].
    reflexivity.
Qed.

(** After a reset the identifier is unknown again, whatever the registry
    held: an upload for it is refused, a chat request with it starts a
    fresh session under a new identifier, and the entries of the other
    identifiers are as before. *)
Theorem reset_forgets_session
  (E : env) (w : world) (saved : bool) (uuid4 session_id message : string)
  (content_type : option string) (sessions : registry) :
  let sessions' := snd (main.reset_session session_id sessions) in
  sessions_get session_id sessions' = None
  /\ (forall other, other <> session_id ->
        sessions_get other sessions' = sessions_get other sessions)
  /\ main.upload_salary E w saved session_id content_type sessions'
     = (BadRequest "Invalid session", sessions')
  /\ exists body,
       fst (main.chat E w uuid4
              {| ChatRequest.session_id := Some session_id;
                 ChatRequest.message := message |} sessions') = Ok200 body
       /\ ChatResponse.session_id body = uuid4
       /\ ChatResponse.message body = sales_agent.get_initial_message.
Proof.
  intro sessions'. subst sessions'. cbn [main.reset_session snd].
  pose proof (sessions_get_del_same session_id sessions) as Hnone.
  split; [exact Hnone |].
  split; [intros other Ho; apply sessions_get_del_other; exact Ho |].
  split.
  - unfold main.upload_salary. rewrite Hnone. reflexivity.
  - unfold main.chat. cbn [ChatRequest.session_id ChatRequest.message].
    rewrite Hnone.
    destruct (String.eqb session_id "");
      unfold master_agent.process_message; cbn;
      (eexists; split; [reflexivity | split; reflexivity]).
Qed.

(** ** The further theorems at sample inputs *)

Lemma zero_term_raises_zero_division_witness :
  underwriting_agent.calculate_emi (of_int 300000) default_rate 0
  = Raise ZeroDivisionError
  /\ sales_agent.calculate_emi (of_int 300000) default_rate 0
     = Raise ZeroDivisionError.
Proof.
  apply (zero_term_raises_zero_division (of_int 300000) default_rate);
    vm_compute; intro H; discriminate H.
Defined.

Lemma payment_grows_with_principal_witness :
  exists e1 e2,
    underwriting_agent.calculate_emi (Fin 100000) (Fin (21 # 2)) 24 = Ok (Fin e1)
    /\ underwriting_agent.calculate_emi (Fin 300000) (Fin (21 # 2)) 24 = Ok (Fin e2)
    /\ e1 <= e2.
Proof.
  apply (payment_grows_with_principal 100000 300000 (21 # 2) 24);
    first [discriminate
          | (right; split; discriminate)
          | (split; discriminate)].
Defined.

Lemma amount_step_stores_or_asks_again_witness :
  exists response session',
    sales_agent.process plain greeted "₹3,00,000" = Returned response session'
    /\ (sales_agent.next_state response = Some SalesState.ask_tenure
        \/ sales_agent.next_state response = Some SalesState.ask_amount).
Proof.
  assert (Hstate : sales_state greeted = SalesState.ask_amount)
    by (vm_compute; reflexivity).
  assert (Hascii : is_ascii (remove_all "₹" (remove_all "," "₹3,00,000")) = true)
    by (vm_compute; reflexivity).
  assert (Hwhole : forall a,
             py_float (strip (remove_all "₹" (remove_all "," "₹3,00,000")))
             = Ok (Fin a) ->
             exists whole : Z, a == inject_Z whole).
  { intros a Ha. exists 300000%Z.
    assert (Hread :
      py_float (strip (remove_all "₹" (remove_all "," "₹3,00,000")))
      = Ok (Fin (inject_Z 300000))) by (vm_compute; reflexivity).
    rewrite Hread in Ha. injection Ha as <-. reflexivity. }
  destruct (amount_step_stores_or_asks_again plain greeted "₹3,00,000"
              Hstate Hascii Hwhole)
    as [response [session' [Hrun Hcases]]].
  exists response, session'. split; [exact Hrun |].
  destruct Hcases as [[amount [_ [_ [_ [Hnext _]]]]] | [Hnext _]];
    [left | right]; exact Hnext.
Defined.

Lemma tenure_step_stores_or_asks_again_witness :
  exists response session',
    sales_agent.process plain amount_given " 24 " = Returned response session'
    /\ (sales_agent.next_state response = Some SalesState.confirm
        \/ sales_agent.next_state response = Some SalesState.ask_tenure).
Proof.
  assert (Hstate : sales_state amount_given = SalesState.ask_tenure)
    by (vm_compute; reflexivity).
  assert (Hascii : is_ascii " 24 " = true) by (vm_compute; reflexivity).
  assert (Hlen : (String.length " 24 " <= 4300)%nat) by (simpl; lia).
  assert (Hrate : get (interest_rate amount_given) default_rate = Fin (105 # 10))
    by (vm_compute; reflexivity).
  assert (Hwork : working_rate (105 # 10)) by (right; split; discriminate).
  assert (Hrange : double_range (get (loan_amount amount_given) (of_int 0)))
    by (vm_compute; intro H; discriminate H).
  destruct (tenure_step_stores_or_asks_again plain amount_given " 24 " (105 # 10)
              Hstate Hascii Hlen Hrate Hwork Hrange)
    as [response [session' [Hrun Hcases]]].
  exists response, session'. split; [exact Hrun |].
  destruct Hcases as [[tenure [emi [_ [_ [_ [Hnext _]]]]]] | [Hnext _]];
    [left | right]; exact Hnext.
Defined.

Lemma intake_collects_amount_then_tenure_witness :
  let after_amount := session_after (sales_agent.process plain greeted "₹3,00,000") in
  let after_tenure := session_after (sales_agent.process plain after_amount " 24 ") in
  sales_state after_tenure = SalesState.confirm
  /\ loan_amount after_tenure = Some (Fin 300000)
  /\ loan_tenure after_tenure = Some 24%Z
  /\ exists e, estimated_emi after_tenure = Some (Fin e) /\ 0 < e.
Proof.
  assert (Hstate : sales_state greeted = SalesState.ask_amount)
    by (vm_compute; reflexivity).
  assert (Hrate : get (interest_rate greeted) default_rate = Fin (105 # 10))
    by (vm_compute; reflexivity).
  assert (Hwork : working_rate (105 # 10)) by (right; split; discriminate).
  assert (Hascii1 : is_ascii (remove_all "₹" (remove_all "," "₹3,00,000")) = true)
    by (vm_compute; reflexivity).
  assert (Hamount :
    py_float (strip (remove_all "₹" (remove_all "," "₹3,00,000"))) = Ok (Fin 300000))
    by (vm_compute; reflexivity).
  assert (Hwhole : 300000 == inject_Z 300000) by reflexivity.
  assert (Hbounds : (10000 <= 300000 <= 5000000)%Z) by lia.
  assert (Hascii2 : is_ascii " 24 " = true) by (vm_compute; reflexivity).
  assert (Hlen : (String.length " 24 " <= 4300)%nat) by (simpl; lia).
  assert (Htenure : py_int (strip " 24 ") = Ok 24%Z) by (vm_compute; reflexivity).
  assert (Hmonths : (12 <= 24 <= 72)%Z) by lia.
  exact (intake_collects_amount_then_tenure plain greeted "₹3,00,000" " 24 "
           300000 (105 # 10) 300000 24 Hstate Hrate Hwork Hascii1 Hamount Hwhole
           Hbounds Hascii2 Hlen Htenure Hmonths).
Defined.

Lemma known_phone_binds_customer_witness :
  exists response session',
    verification_agent.process (office true) intake_done "98765-43210"
    = Returned response session'
    /\ verification_state session' = VerificationState.confirm_identity
    /\ customer session' = Some asha
    /\ customer_id session' = Some "C001".
Proof.
  assert (Hstate : verification_state intake_done = VerificationState.ask_phone)
    by (vm_compute; reflexivity).
  assert (Hphone :
    (String.length (remove_all "-" (remove_all " " (strip "98765-43210"))) =? 10)%nat
    && isdigit (remove_all "-" (remove_all " " (strip "98765-43210"))) = true)
    by (vm_compute; reflexivity).
  assert (Hfound :
    verification_agent.find_customer_by_phone (office true)
      (remove_all "-" (remove_all " " (strip "98765-43210"))) = Ok (Some asha))
    by (vm_compute; reflexivity).
  destruct (known_phone_binds_customer (office true) intake_done "98765-43210"
              [asha; ravi; meera] [asha_offer] asha
              Hstate Hphone eq_refl eq_refl Hfound)
    as [response [session' [Hrun [_ [Hverif [Hcust [_ [_ [Hid _]]]]]]]]].
  exists response, session'.
  split; [exact Hrun |]. split; [exact Hverif |]. split; [exact Hcust | exact Hid].
Defined.

Lemma unknown_phone_binds_nothing_witness :
  (exists response,
     verification_agent.process (office true) intake_done "12345"
     = Returned response intake_done
     /\ verification_agent.next_state response = Some VerificationState.ask_phone)
  /\ (exists response,
        verification_agent.process (office true) intake_done "9999999999"
        = Returned response
            (set_verification_state VerificationState.not_found intake_done)
        /\ verification_agent.next_state response
           = Some VerificationState.not_found).
Proof.
  assert (Hstate : verification_state intake_done = VerificationState.ask_phone)
    by (vm_compute; reflexivity).
  assert (Hascii1 : is_ascii "12345" = true) by (vm_compute; reflexivity).
  assert (Hascii2 : is_ascii "9999999999" = true) by (vm_compute; reflexivity).
  split.
  - apply (proj1 (unknown_phone_binds_nothing (office true) intake_done "12345"
                    Hstate Hascii1)).
    vm_compute. reflexivity.
  - apply (proj2 (unknown_phone_binds_nothing (office true) intake_done "9999999999"
                    Hstate Hascii2) [asha; ravi; meera]).
    + vm_compute. reflexivity.
    + reflexivity.
    + intros c [<- | [<- | [<- | []]]]; vm_compute; discriminate.
Defined.

Lemma unreadable_offers_leave_customer_bound_witness :
  exists session',
    verification_agent.process office_without_offers intake_done "98765-43210"
    = Raised OSError session'
    /\ customer session' = Some asha
    /\ verification_state session' = VerificationState.ask_phone.
Proof.
  assert (Hstate : verification_state intake_done = VerificationState.ask_phone)
    by (vm_compute; reflexivity).
  assert (Hphone :
    (String.length (remove_all "-" (remove_all " " (strip "98765-43210"))) =? 10)%nat
    && isdigit (remove_all "-" (remove_all " " (strip "98765-43210"))) = true)
    by (vm_compute; reflexivity).
  assert (Hfound :
    verification_agent.find_customer_by_phone office_without_offers
      (remove_all "-" (remove_all " " (strip "98765-43210"))) = Ok (Some asha))
    by (vm_compute; reflexivity).
  destruct (unreadable_offers_leave_customer_bound office_without_offers intake_done
              "98765-43210" asha OSError Hstate Hphone Hfound eq_refl)
    as [session' [Hrun [Hcust [_ [Hverif _]]]]].
  exists session'. split; [exact Hrun |]. split; [exact Hcust | exact Hverif].
Defined.

Lemma retry_after_unknown_phone_restores_session_witness :
  session_after
    (verification_agent.process (office true)
       (set_verification_state VerificationState.not_found intake_done) " Yes ")
  = intake_done
  /\ session_after
       (verification_agent.process (office true)
          (set_verification_state VerificationState.not_found intake_done) "later")
     = set_verification_state VerificationState.ended intake_done.
Proof.
  assert (Hstate : verification_state intake_done = VerificationState.ask_phone)
    by (vm_compute; reflexivity).
  assert (Hascii1 : is_ascii " Yes " = true) by (vm_compute; reflexivity).
  assert (Hascii2 : is_ascii "later" = true) by (vm_compute; reflexivity).
  split.
  - apply (proj1 (retry_after_unknown_phone_restores_session (office true)
                    intake_done " Yes " Hstate Hascii1)).
    vm_compute. reflexivity.
  - apply (proj2 (retry_after_unknown_phone_restores_session (office true)
                    intake_done "later" Hstate Hascii2)).
    vm_compute. reflexivity.
Defined.

Lemma deny_then_same_phone_rebinds_witness :
  exists confirm bound,
    verification_agent.process (office true) intake_done "98765-43210"
    = Returned confirm bound
    /\ customer
         (session_after (verification_agent.process (office true) bound " No "))
       = None
    /\ verification_agent.process (office true)
         (session_after (verification_agent.process (office true) bound " No "))
         "98765-43210"
       = Returned confirm bound.
Proof.
  assert (Hstate : verification_state intake_done = VerificationState.ask_phone)
    by (vm_compute; reflexivity).
  assert (Hturn : exists confirm bound,
    verification_agent.process (office true) intake_done "98765-43210"
    = Returned confirm bound
    /\ verification_agent.next_state confirm
       = Some VerificationState.confirm_identity).
  { vm_compute. eexists. eexists. split; reflexivity. }
  destruct Hturn as [confirm [bound [Hrun Hnext]]].
  assert (Hdeny :
    str_in (strip (lower " No ")) ["no"; "n"; "wrong"; "incorrect"] = true)
    by (vm_compute; reflexivity).
  exists confirm, bound. split; [exact Hrun |].
  exact (deny_then_same_phone_rebinds (office true) intake_done bound
           "98765-43210" " No " confirm Hstate Hrun Hnext Hdeny).
Defined.

Lemma income_check_approves_or_rejects_witness :
  exists response session',
    underwriting_agent.process_salary_verification plain (awaiting_slip "9000000003")
    = Returned response session'
    /\ (underwriting_agent.decision response = Some Decision.approved
        \/ underwriting_agent.decision response = Some Decision.rejected).
Proof.
  assert (Hmonths : (12 <= get (loan_tenure (awaiting_slip "9000000003")) 12 <= 72)%Z)
    by (vm_compute; split; intro H; discriminate H).
  assert (Hrate :
    get (interest_rate (awaiting_slip "9000000003")) default_rate = Fin (105 # 10))
    by (vm_compute; reflexivity).
  assert (Hwork : working_rate (105 # 10)) by (right; split; discriminate).
  assert (Hamount :
    double_range (get (loan_amount (awaiting_slip "9000000003")) (of_int 0)))
    by (vm_compute; intro H; discriminate H).
  assert (Hsalary :
    double_range (customer_get Customer.salary (awaiting_slip "9000000003")))
    by (vm_compute; intro H; discriminate H).
  destruct (income_check_approves_or_rejects plain (awaiting_slip "9000000003")
              (105 # 10) Hmonths Hrate Hwork Hamount Hsalary)
    as [response [session' [Hrun Hcases]]].
  exists response, session'. split; [exact Hrun |].
  destruct Hcases as [[Hd _] | [Hd _]]; [left | right]; exact Hd.
Defined.

Lemma income_check_approves_empty_session_witness :
  exists response,
    underwriting_agent.process_salary_verification plain master_agent.get_initial_state
    = Returned response
        (set_approved_amount (Some (of_int 0))
           (set_loan_status (Some LoanStatus.approved)
              (set_underwriting_state UnderwritingState.approved
                 master_agent.get_initial_state)))
    /\ underwriting_agent.decision response = Some Decision.approved
    /\ underwriting_agent.reason response = Some Reason.salary_verified.
Proof.
  assert (Hmonths : (12 <= get (loan_tenure master_agent.get_initial_state) 12 <= 72)%Z)
    by (vm_compute; split; intro H; discriminate H).
  assert (Hwork : working_rate (105 # 10)) by (right; split; discriminate).
  exact (income_check_approves_empty_session plain master_agent.get_initial_state
           (105 # 10) eq_refl eq_refl Hmonths eq_refl Hwork).
Defined.

Lemma response_flags_mirror_session_witness :
  exists response session',
    deliver plain (office true) (Chat "yes") (asked_to_confirm "98765-43210")
    = Returned response session'
    /\ flags_mirror response session'.
Proof.
  assert (Hturn : exists response session',
    deliver plain (office true) (Chat "yes") (asked_to_confirm "98765-43210")
    = Returned response session').
  { vm_compute. eexists. eexists. reflexivity. }
  destruct Hturn as [response [session' Hrun]].
  exists response, session'. split; [exact Hrun |].
  exact (response_flags_mirror_session plain (office true) (Chat "yes")
           (asked_to_confirm "98765-43210") session' response Hrun).
Defined.

Lemma text_cannot_leave_late_stages_witness :
  run plain (chats [(office true, "hello"); (office true, "yes")])
    (awaiting_slip "9000000003")
  = awaiting_slip "9000000003".
Proof.
  assert (Hlate : beyond_text (awaiting_slip "9000000003") = true)
    by (vm_compute; reflexivity).
  exact (text_cannot_leave_late_stages plain
           [(office true, "hello"); (office true, "yes")]
           (awaiting_slip "9000000003") Hlate).
Defined.

Lemma completed_session_has_letter_witness :
  let session :=
    run plain (intake_then_phone "98765-43210" ++ [chat "yes"])
      master_agent.get_initial_state in
  loan_status session = Some LoanStatus.approved
  /\ exists filename,
       sanction_letter_filename session = Some filename
       /\ sanction_letter_path session = Some (UPLOADS_PATH plain ++ "/" ++ filename).
Proof.
  assert (Hdone :
    current_agent
      (run plain (intake_then_phone "98765-43210" ++ [chat "yes"])
         master_agent.get_initial_state) = Agent.completed)
    by (vm_compute; reflexivity).
  exact (completed_session_has_letter plain
           (intake_then_phone "98765-43210" ++ [chat "yes"]) Hdone).
Defined.

Lemma evaluator_starts_after_intake_witness :
  let session :=
    run plain [chat "hello"; chat "₹3,00,000"; chat " 24 "; chat "Yes"]
      master_agent.get_initial_state in
  sales_state session = SalesState.complete
  /\ amount_collected session
  /\ tenure_collected session.
Proof.
  assert (Hagent :
    current_agent
      (run plain [chat "hello"; chat "₹3,00,000"; chat " 24 "; chat "Yes"]
         master_agent.get_initial_state) = Agent.verification)
    by (vm_compute; reflexivity).
  exact (evaluator_starts_after_intake plain
           [chat "hello"; chat "₹3,00,000"; chat " 24 "; chat "Yes"] Hagent).
Defined.

Lemma chat_serves_named_session_witness :
  sessions_get "s1"
    (snd (main.chat plain (office true) "u1"
            {| ChatRequest.session_id := Some "s1";
               ChatRequest.message := "₹3,00,000" |}
            [("s0", master_agent.get_initial_state); ("s1", greeted)]))
  = Some (session_after (deliver plain (office true) (Chat "₹3,00,000") greeted)).
Proof.
  assert (Hid : "s1" <> "") by discriminate.
  assert (Hget :
    sessions_get "s1" [("s0", master_agent.get_initial_state); ("s1", greeted)]
    = Some greeted) by reflexivity.
  exact (proj1 (chat_serves_named_session plain (office true) "u1" "s1" "₹3,00,000"
                  greeted [("s0", master_agent.get_initial_state); ("s1", greeted)]
                  Hid Hget)).
Defined.

Lemma chat_starts_fresh_session_witness :
  sessions_get "u1"
    (snd (main.chat plain (office true) "u1"
            {| ChatRequest.session_id := Some "gone";
               ChatRequest.message := "₹3,00,000" |}
            [("s1", amount_given)]))
  = Some (set_conversation_stage Stage.collecting_loan_details
            (set_current_agent Agent.sales master_agent.get_initial_state)).
Proof.
  assert (Hunknown : "gone" = "" \/ sessions_get "gone" [("s1", amount_given)] = None)
    by (right; reflexivity).
  exact (proj1 (proj2 (chat_starts_fresh_session plain (office true) "u1"
                         {| ChatRequest.session_id := Some "gone";
                            ChatRequest.message := "₹3,00,000" |}
                         [("s1", amount_given)] Hunknown))).
Defined.

Lemma upload_refusal_changes_nothing_witness :
  snd (main.upload_salary plain (office true) true "s1" (Some "text/plain")
         [("s1", awaiting_slip "9000000003")])
  = [("s1", awaiting_slip "9000000003")].
Proof.
  assert (Hrefused :
    fst (main.upload_salary plain (office true) true "s1" (Some "text/plain")
           [("s1", awaiting_slip "9000000003")])
    = BadRequest "Invalid file type. Please upload PDF or image.")
    by reflexivity.
  exact (proj1 (upload_refusal_changes_nothing plain (office true) true "s1"
                  (Some "text/plain") [("s1", awaiting_slip "9000000003")]
                  "Invalid file type. Please upload PDF or image." Hrefused)).
Defined.

Lemma upload_serves_named_session_witness :
  sessions_get "s1"
    (snd (main.upload_salary plain (office true) true "s1" (Some "image/png")
            [("s1", awaiting_slip "9000000003")]))
  = Some (session_after
            (deliver plain (office true) Upload (awaiting_slip "9000000003"))).
Proof.
  assert (Hget :
    sessions_get "s1" [("s1", awaiting_slip "9000000003")]
    = Some (awaiting_slip "9000000003")) by reflexivity.
  assert (Htype : In "image/png" main.upload_types)
    by (right; right; left; reflexivity).
  exact (proj1 (upload_serves_named_session plain (office true) "s1" "image/png"
                  (awaiting_slip "9000000003") [("s1", awaiting_slip "9000000003")]
                  Hget Htype)).
Defined.
